(** * slow-wifi: latency monitor and network-settings experiment harness

    A shallow embedding of [jitter-check.py] (the continuous monitor),
    [network_optimizer_test.py] (the experiment orchestrator) and what
    [visualize_results.py] computes from a report, followed by the
    properties established about them.

    Conventions of the embedding.
    - Python floats are idealised as rationals ([Q]); [round(x, n)] is
      round-half-to-even on the decimal expansion.  The one place where a
      threshold is met exactly, the subtraction of two percentages in the
      recommendation rule, is carried out in double precision ([float_sub]):
      the fields are the doubles nearest to their decimals, and the
      difference is rounded to the nearest double.
    - An external probe ([ping]) is an input of the model: [Some rtt] when the
      regular expression [time=([\d.]+)] matched, [None] otherwise.  The
      expression admits no sign, so a parsed RTT is never negative.
    - Python exceptions are values of [exn]; code that may raise returns an
      [outcome].
    - The text a command prints is a string of code points below 256, and
      [strip], [lower] and [in] are Python's on such strings.
    - Console and file logging is left out, except where a logged line is
      the only place a value lives (the status column of the monitor), and
      where it is the last thing a run does (the summary printed after the
      report is written).
    - The host is a record of the settings the script reads and writes, and
      the commands it runs are interpreted on that record.
    - The outside world interrupts (Ctrl-C) or fails the orchestrator only
      where it waits: at a subprocess, a sleep, or the report.  A whole ping
      batch is one such point; opening the report file, dumping the report
      into it and printing the summary afterwards are three. *)

From Stdlib Require Import QArith Qround Qabs Qpower ZArith Ascii String List Lia Lqa
  DecimalString.
From stdpp Require Import gmap strings list.

Open Scope Q_scope.

(** ** Exceptions and results *)

Inductive exn : Type :=
  | KeyboardInterrupt
  | SystemExit (code : Z)
  | ZeroDivisionError
  | StatisticsError
  | ValueError
  | RuntimeError.

Inductive outcome (A : Type) : Type :=
  | Returned (a : A)
  | Raised (e : exn).

Arguments Returned {A} a.
Arguments Raised {A} e.

Definition obind {A B : Type} (c : outcome A) (k : A -> outcome B) : outcome B :=
  match c with
  | Returned a => k a
  | Raised e => Raised e
  end.

Global Instance outcome_ret : MRet outcome := @Returned.
Global Instance outcome_bind : MBind outcome := fun A B k c => obind c k.

(** ** Python arithmetic on idealised floats *)

(** [x > y] *)
Definition Qgtb (x y : Q) : bool := negb (Qle_bool x y).

(** [a / b], raising on a zero divisor. *)
Definition py_div (a b : Q) : outcome Q :=
  if Qeq_bool b 0 then Raised ZeroDivisionError else Returned (a / b).

Definition Qsum (l : list Q) : Q := fold_right Qplus 0 l.

Definition Qlen {A : Type} (l : list A) : Q := inject_Z (Z.of_nat (length l)).

(** [statistics.mean]: raises [StatisticsError] on empty data. *)
Definition statistics_mean (data : list Q) : outcome Q :=
  match data with
  | [] => Raised StatisticsError
  | _ :: _ => Returned (Qsum data / Qlen data)
  end.

(** [max(l)] and [min(l)]: raise [ValueError] on an empty list; the first
    extremal element is kept. *)
Definition py_max (l : list Q) : outcome Q :=
  match l with
  | [] => Raised ValueError
  | x :: t => Returned (fold_left (fun m y => if Qgtb y m then y else m) t x)
  end.

Definition py_min (l : list Q) : outcome Q :=
  match l with
  | [] => Raised ValueError
  | x :: t => Returned (fold_left (fun m y => if Qgtb m y then y else m) t x)
  end.

Definition round_half_even (x : Q) : Z :=
  let f := Qfloor x in
  match Qcompare (x - inject_Z f) (1 # 2) with
  | Lt => f
  | Gt => (f + 1)%Z
  | Eq => if Z.even f then f else (f + 1)%Z
  end.

Fixpoint pow10 (n : nat) : positive :=
  match n with
  | O => 1%positive
  | S n' => (10 * pow10 n')%positive
  end.

(** [round(x, ndigits)] *)
Definition py_round (x : Q) (ndigits : nat) : Q :=
  round_half_even (x * inject_Z (Zpos (pow10 ndigits))) # pow10 ndigits.

(** ** Double precision *)

(** [floor (log2 q)] of a positive rational. *)
Definition Qlog2 (q : Q) : Z :=
  let k := (Z.log2 (Qnum q) - Z.log2 (Zpos (Qden q)))%Z in
  if Qle_bool (2 ^ k) q then k else (k - 1)%Z.

(** The double nearest to a rational: 53 significant bits, least exponent
    -1074, ties to the even significand.  Overflow is left out. *)
Definition b64 (x : Q) : Q :=
  let q := Qred x in
  if Qeq_bool q 0 then 0
  else
    let e := Z.max (Qlog2 (Qabs q) - 52) (-1074) in
    inject_Z (round_half_even (q / 2 ^ e)) * 2 ^ e.

(** [a - b] on the doubles nearest to [a] and [b]. *)
Definition float_sub (a b : Q) : Q := b64 (b64 a - b64 b).

(** Half a unit in the last place of the doubles between 64 and 128. *)
Definition half_ulp : Q := 1 # 140737488355328.

(** [x] is [k] tenths, a percentage with one decimal. *)
Definition tenths (x : Q) (k : Z) : Prop :=
  (0 <= k <= 1000)%Z /\ x * 10 == inject_Z k.

(** ** Fixed-point formatting: [f"{x:.nf}"] *)

Definition digits_of (n : N) : string := NilZero.string_of_uint (N.to_uint n).

Fixpoint zero_pad (width : nat) (s : string) : string :=
  match width with
  | O => s
  | S w => if Nat.ltb (String.length s) width then zero_pad w ("0" ++ s) else s
  end.

Definition format_f (ndigits : nat) (x : Q) : string :=
  let scaled := Z.abs (round_half_even (x * inject_Z (Zpos (pow10 ndigits)))) in
  let whole := Z.to_N (scaled / Zpos (pow10 ndigits)) in
  let frac := Z.to_N (scaled mod Zpos (pow10 ndigits)) in
  ((if Qgtb 0 x then "-" else "") ++
   digits_of whole ++
   match ndigits with
   | O => ""
   | S _ => "." ++ zero_pad ndigits (digits_of frac)
   end)%string.

(** ** jitter-check.py: the continuous monitor *)

Module JitterCheck.

Definition INTERVAL : Q := 0.2.
Definition SPIKE_THRESHOLD : Q := 15.0.

(** The dictionary [stats] of [analyze_lan]; its keys are fixed. *)
Record Stats : Type := {
  sent : nat;
  received : nat;
  rtts : list Q;
  jitter_values : list Q;
  spikes : nat;
  high_jitter_events : nat
}.

(** The status column of a logged row. *)
Inductive Status : Type := OK | HighJitter | LagSpike | PacketLoss.

(** One logged row.  [row_jitter] is the value of [current_jitter] at the
    end of the iteration; on a loss the log line prints [---] in its place. *)
Record Row : Type := {
  row_seq : nat;
  row_rtt : option Q;
  row_jitter : Q;
  row_status : Status
}.

(** The loop variables of [analyze_lan]. *)
Record Monitor : Type := {
  stats : Stats;
  prev_rtt : option Q;
  seq : nat
}.

Definition start : Monitor :=
  {| stats := {| sent := 0; received := 0; rtts := []; jitter_values := [];
                 spikes := 0; high_jitter_events := 0 |};
     prev_rtt := None;
     seq := 1 |}.

(** One iteration of [while True], given what [parse_time] returned. *)
Definition iteration (m : Monitor) (rtt : option Q) : Monitor * Row :=
  let st := stats m in
  let sent' := S (sent st) in
  match rtt with
  | Some r =>
      let current_jitter :=
        match prev_rtt m with
        | Some p => Qabs (r - p)
        | None => 0.0
        end in
      let jitter_values' :=
        match prev_rtt m with
        | Some _ => jitter_values st ++ [current_jitter]
        | None => jitter_values st
        end in
      let status_msg :=
        if Qgtb r SPIKE_THRESHOLD then LagSpike
        else if Qgtb current_jitter 5.0 then HighJitter
        else OK in
      ({| stats := {| sent := sent';
                      received := S (received st);
                      rtts := rtts st ++ [r];
                      jitter_values := jitter_values';
                      spikes := match status_msg with
                                | LagSpike => S (spikes st)
                                | _ => spikes st
                                end;
                      high_jitter_events :=
                        match status_msg with
                        | HighJitter => S (high_jitter_events st)
                        | _ => high_jitter_events st
                        end |};
          prev_rtt := Some r;
          seq := S (seq m) |},
       {| row_seq := seq m; row_rtt := Some r;
          row_jitter := current_jitter; row_status := status_msg |})
  | None =>
      ({| stats := {| sent := sent';
                      received := received st;
                      rtts := rtts st;
                      jitter_values := jitter_values st;
                      spikes := spikes st;
                      high_jitter_events := high_jitter_events st |};
          prev_rtt := None;
          seq := S (seq m) |},
       {| row_seq := seq m; row_rtt := None;
          row_jitter := 0.0; row_status := PacketLoss |})
  end.

(** The value [current_jitter] takes for a probe, given the probe before it. *)
Definition jitter_against (prev cur : option Q) : Q :=
  match prev, cur with
  | Some p, Some r => Qabs (r - p)
  | _, _ => 0.0
  end.

(** The jitter rule as the specification words it, kept for comparison: the
    jitter of a success is taken against the last success before it, losses
    in between notwithstanding. *)
Fixpoint carried_forward_jitter (last_ok : option Q) (probes : list (option Q))
  : list Q :=
  match probes with
  | [] => []
  | Some r :: rest =>
      match last_ok with
      | Some p => Qabs (r - p)
      | None => 0.0
      end :: carried_forward_jitter (Some r) rest
  | None :: rest => 0.0 :: carried_forward_jitter last_ok rest
  end.

(** The iterations completed before the interrupt, one per probe outcome. *)
Fixpoint loop (m : Monitor) (probes : list (option Q)) : Monitor * list Row :=
  match probes with
  | [] => (m, [])
  | p :: rest =>
      let '(m1, row) := iteration m p in
      let '(m2, rows) := loop m1 rest in
      (m2, row :: rows)
  end.

(** The machine-readable summary object. *)
Record json_summary : Type := {
  target : string;
  duration_seconds : Q;
  total_packets : nat;
  packet_loss_pct : Q;
  avg_latency_ms : Q;
  max_latency_ms : Q;
  avg_jitter_ms : Q;
  stability_score : string;
  diagnosis : list string
}.

Definition Qnat (n : nat) : Q := inject_Z (Z.of_nat n).

(** The [except KeyboardInterrupt] block: [None] when it returns before
    building the summary object. *)
Definition on_interrupt (tgt : string) (st : Stats) : outcome (option json_summary) :=
  if Nat.eqb (sent st) 0 then Returned None
  else
    (ratio ← py_div (Qnat (sent st) - Qnat (received st)) (Qnat (sent st));
     let loss_pct := ratio * 100 in
     avg_rtt ← match rtts st with
                | [] => Returned 0
                | _ => statistics_mean (rtts st)
                end;
     max_rtt ← match rtts st with
                | [] => Returned 0
                | _ => py_max (rtts st)
                end;
     avg_jitter ← match jitter_values st with
                   | [] => Returned 0
                   | _ => statistics_mean (jitter_values st)
                   end;
     Returned (Some
       {| target := tgt;
          duration_seconds := Qnat (sent st) * INTERVAL;
          total_packets := sent st;
          packet_loss_pct := py_round loss_pct 2;
          avg_latency_ms := py_round avg_rtt 2;
          max_latency_ms := py_round max_rtt 2;
          avg_jitter_ms := py_round avg_jitter 2;
          stability_score :=
            if Qgtb loss_pct 0 || Qgtb avg_jitter 5 then "POOR" else "GOOD";
          diagnosis :=
            (if Qgtb loss_pct 0
             then ["Packet Loss detected (Wi-Fi interference or hardware fault)"%string]
             else []) ++
            (if Qgtb avg_jitter 4
             then ["High Jitter (Mouse floatiness imminent)"%string]
             else []) ++
            (if Qgtb (Qnat (spikes st)) (Qnat (sent st) * 0.05)
             then ["Frequent Latency Spikes (Background process interruption)"%string]
             else []) |})).

(** [analyze_lan] interrupted after the given probes: the rows logged and
    what the handler produced. *)
Definition analyze_lan (tgt : string) (probes : list (option Q))
  : list Row * outcome (option json_summary) :=
  let '(m, rows) := loop start probes in
  (rows, on_interrupt tgt (stats m)).

End JitterCheck.

(** ** network_optimizer_test.py: the experiment orchestrator *)

Module Optimizer.

Definition TARGET : string := "192.168.0.243".
Definition PINGS_PER_TEST : nat := 200.
Definition PING_INTERVAL : Q := 0.2.
Definition SPIKE_THRESHOLD : Q := 15.0.

Record TestResult : Type := {
  setting_name : string;
  setting_value : string;
  packets_sent : nat;
  packets_lost : nat;
  avg_latency_ms : Q;
  max_latency_ms : Q;
  min_latency_ms : Q;
  avg_jitter_ms : Q;
  spike_count : nat;
  spike_percentage : Q;
  raw_rtts : list Q
}.

(** *** run_ping_test *)

(** The collection loop [for i in range(PINGS_PER_TEST)]; [probes i] is the
    result of matching the output of the [i]-th ping. *)
Definition collect (n : nat) (probes : nat -> option Q) : list Q * nat :=
  fold_left
    (fun '(rtts, lost) i =>
       match probes i with
       | Some r => (rtts ++ [r], lost)
       | None => (rtts, S lost)
       end)
    (seq 0 n) ([], O).

(** [[abs(rtts[i] - rtts[i-1]) for i in range(1, len(rtts))]] *)
Definition jitter_of (rtts : list Q) : list Q :=
  map (fun i => Qabs (nth i rtts 0 - nth (i - 1) rtts 0))
      (seq 1 (length rtts - 1)).

(** The absolute differences of neighbouring elements. *)
Fixpoint adjacent_diffs (l : list Q) : list Q :=
  match l with
  | a :: (b :: _) as t => Qabs (b - a) :: adjacent_diffs t
  | _ => []
  end.

(** [sum(1 for r in rtts if r > SPIKE_THRESHOLD)] *)
Definition count_spikes (rtts : list Q) : nat :=
  length (List.filter (fun r => Qgtb r SPIKE_THRESHOLD) rtts).

Definition Qnat (n : nat) : Q := inject_Z (Z.of_nat n).

(** The statistics block of [run_ping_test]. *)
Definition statistics_of (label value : string) (rtts : list Q) (lost : nat)
  : outcome TestResult :=
  match rtts with
  | _ :: _ =>
      let jitter_values := jitter_of rtts in
      let spike_count := count_spikes rtts in
      avg ← statistics_mean rtts;
      mx ← py_max rtts;
      mn ← py_min rtts;
      avg_jitter ← match jitter_values with
                    | [] => Returned 0
                    | _ :: _ =>
                        m ← statistics_mean jitter_values;
                        Returned (py_round m 2)
                    end;
      ratio ← py_div (Qnat spike_count) (Qlen rtts);
      Returned
        {| setting_name := label;
           setting_value := value;
           packets_sent := PINGS_PER_TEST;
           packets_lost := lost;
           avg_latency_ms := py_round avg 2;
           max_latency_ms := py_round mx 2;
           min_latency_ms := py_round mn 2;
           avg_jitter_ms := avg_jitter;
           spike_count := spike_count;
           spike_percentage := py_round (ratio * 100) 1;
           raw_rtts := rtts |}
  | [] =>
      Returned
        {| setting_name := label;
           setting_value := value;
           packets_sent := PINGS_PER_TEST;
           packets_lost := lost;
           avg_latency_ms := 0;
           max_latency_ms := 0;
           min_latency_ms := 0;
           avg_jitter_ms := 0;
           spike_count := 0;
           spike_percentage := 0;
           raw_rtts := [] |}
  end.

Definition run_ping_test (label value : string) (probes : nat -> option Q)
  : outcome TestResult :=
  let '(rtts, lost) := collect PINGS_PER_TEST probes in
  statistics_of label value rtts lost.

(** A finite script of ping outcomes; pings past its end are lost. *)
Definition probes_of_list (l : list (option Q)) : nat -> option Q :=
  fun i => nth i l None.

(** The results [generate_report] can meet: those [run_ping_test] returns
    when every parsed RTT is non-negative. *)
Definition nonneg_probes (probes : nat -> option Q) : Prop :=
  forall i x, probes i = Some x -> 0 <= x.

Inductive produced : TestResult -> Prop :=
  | produced_by (label value : string) (probes : nat -> option Q) (r : TestResult) :
      nonneg_probes probes ->
      run_ping_test label value probes = Returned r ->
      produced r.

(** *** generate_report *)

Record Recommendation : Type := {
  setting : string;
  action : string;
  spike_reduction : string;
  jitter_change : string
}.

Record Best : Type := { best_setting : string; best_value : Q }.

Record Analysis : Type := {
  best_avg_latency : Best;
  best_spike_rate : Best;
  best_jitter : Best
}.

(** An entry of [report["tests"]]: the result with its raw series replaced
    by a count. *)
Record TestData : Type := { test_result : TestResult; raw_rtts_text : string }.

Record Report : Type := {
  target : string;
  pings_per_test : nat;
  spike_threshold_ms : Q;
  original_settings : gmap string string;
  tests : list TestData;
  analysis : option Analysis;
  recommendations : list Recommendation;
  raw_data : list TestResult
}.

(** [min(x :: t, key=key)]: the first element with the least key. *)
Definition min_by {A : Type} (key : A -> Q) (x : A) (t : list A) : A :=
  fold_left (fun m y => if Qgtb (key m) (key y) then y else m) t x.

(** [b] names the first element of [l] whose [key] is least. *)
Definition first_min (key : TestResult -> Q) (l : list TestResult) (b : Best) : Prop :=
  exists pre m post,
    l = pre ++ m :: post
    /\ b = {| best_setting := setting_name m; best_value := key m |}
    /\ (forall y, In y pre -> key m < key y)
    /\ (forall y, In y post -> key m <= key y).

(** The entry appended to [report["recommendations"]].  The fields of a
    result are doubles, and both differences are taken on them. *)
Definition recommend (baseline result : TestResult) : Recommendation :=
  let improvement := float_sub (spike_percentage baseline) (spike_percentage result) in
  {| setting := setting_name result;
     action := "Set to " ++ setting_value result;
     spike_reduction := format_f 1 improvement ++ "%";
     jitter_change :=
       format_f 2 (float_sub (avg_jitter_ms baseline) (avg_jitter_ms result)) ++ "ms" |}.

Definition generate_report (original_states : gmap string string)
    (results : list TestResult) : Report :=
  let tests :=
    map (fun r =>
           {| test_result := r;
              raw_rtts_text :=
                "[" ++ digits_of (N.of_nat (length (raw_rtts r))) ++ " values]" |})
        results in
  let valid_results := List.filter (fun r => Qgtb (avg_latency_ms r) 0) results in
  let '(analysis, recommendations) :=
    match valid_results with
    | v :: vs =>
        let best_by_latency := min_by avg_latency_ms v vs in
        let best_by_spikes := min_by spike_percentage v vs in
        let best_by_jitter := min_by avg_jitter_ms v vs in
        (Some
           {| best_avg_latency :=
                {| best_setting := setting_name best_by_latency;
                   best_value := avg_latency_ms best_by_latency |};
              best_spike_rate :=
                {| best_setting := setting_name best_by_spikes;
                   best_value := spike_percentage best_by_spikes |};
              best_jitter :=
                {| best_setting := setting_name best_by_jitter;
                   best_value := avg_jitter_ms best_by_jitter |} |},
         match results with
         | baseline :: rest =>
             map (recommend baseline)
                 (List.filter
                    (fun result =>
                       Qgtb (float_sub (spike_percentage baseline)
                               (spike_percentage result)) 5)
                    rest)
         | [] => []
         end)
    | [] => (None, [])
    end in
  {| target := TARGET;
     pings_per_test := PINGS_PER_TEST;
     spike_threshold_ms := SPIKE_THRESHOLD;
     original_settings := original_states;
     tests := tests;
     analysis := analysis;
     recommendations := recommendations;
     raw_data := results |}.

(** *** Text helpers used by the output parsers *)

(** [c.lower()]: the capitals of the code points below 256 are A to Z and
    U+00C0 to U+00DE without the multiplication sign U+00D7. *)
Definition lower_ascii (c : ascii) : ascii :=
  let n := nat_of_ascii c in
  if (Nat.leb 65 n && Nat.leb n 90)
     || (Nat.leb 192 n && Nat.leb n 222 && negb (Nat.eqb n 215))
  then ascii_of_nat (n + 32) else c.

(** [s.lower()] *)
Fixpoint lower (s : string) : string :=
  match s with
  | EmptyString => EmptyString
  | String c t => String (lower_ascii c) (lower t)
  end.

(** [needle in hay] *)
Fixpoint contains (needle hay : string) : bool :=
  String.prefix needle hay ||
  match hay with
  | EmptyString => false
  | String _ t => contains needle t
  end.

(** [c.isspace()]: the white space among the code points below 256 is tab
    to carriage return, the separators U+001C to U+001F, the space, U+0085
    and U+00A0. *)
Definition isspace (c : ascii) : bool :=
  let n := nat_of_ascii c in
  (Nat.leb 9 n && Nat.leb n 13) || (Nat.leb 28 n && Nat.leb n 32)
  || Nat.eqb n 133 || Nat.eqb n 160.

(** [s.lstrip()] *)
Fixpoint lstrip (s : string) : string :=
  match s with
  | EmptyString => EmptyString
  | String c t => if isspace c then lstrip t else s
  end.

(** [s.strip()] *)
Definition strip (s : string) : string :=
  String.rev (lstrip (String.rev (lstrip s))).

Fixpoint take_until (sep : ascii) (s : string) : string :=
  match s with
  | EmptyString => EmptyString
  | String c t => if Ascii.eqb c sep then EmptyString else String c (take_until sep t)
  end.

(** [s.split(sep)[-1]] *)
Definition last_field (sep : ascii) (s : string) : string :=
  String.rev (take_until sep (String.rev s)).

Definition parse_sysctl (output : string) : string :=
  if contains ":" output then strip (last_field ":" output) else strip output.

Definition parse_awdl (output : string) : string :=
  if contains "status: active" (lower output) then "on" else "off".

Definition parse_bluetooth (output : string) : string :=
  if contains "1" output || contains "on" (lower output) then "on" else "off".

(** *** The host and the commands the script runs on it *)

(** The argument vectors passed to [run_cmd]; the comment gives the list
    each constructor stands for. *)
Inductive Cmd : Type :=
  | SudoCheck                          (* sudo -n true *)
  | WhichBlueutil                      (* which blueutil *)
  | SysctlRead (oid : string)          (* sysctl oid *)
  | SysctlWrite (oid value : string)   (* sudo sysctl -w oid=value *)
  | IfconfigAwdl0                      (* ifconfig awdl0 *)
  | IfconfigAwdl0Set (up : bool)       (* sudo ifconfig awdl0 up|down *)
  | BlueutilPower                      (* blueutil --power *)
  | BlueutilPowerSet (value : string)  (* blueutil --power value *)
  | SystemProfilerBluetooth.           (* system_profiler SPBluetoothDataType *)

Record Host : Type := {
  sysctl : gmap string string;
  awdl0_active : bool;
  bluetooth_on : bool;
  sudo_cached : bool;
  blueutil_installed : bool
}.

Definition set_sysctl (h : Host) (oid value : string) : Host :=
  {| sysctl := <[oid := value]> (sysctl h);
     awdl0_active := awdl0_active h;
     bluetooth_on := bluetooth_on h;
     sudo_cached := sudo_cached h;
     blueutil_installed := blueutil_installed h |}.

Definition set_awdl0 (h : Host) (up : bool) : Host :=
  {| sysctl := sysctl h;
     awdl0_active := up;
     bluetooth_on := bluetooth_on h;
     sudo_cached := sudo_cached h;
     blueutil_installed := blueutil_installed h |}.

Definition set_bluetooth (h : Host) (on : bool) : Host :=
  {| sysctl := sysctl h;
     awdl0_active := awdl0_active h;
     bluetooth_on := on;
     sudo_cached := sudo_cached h;
     blueutil_installed := blueutil_installed h |}.

(** What a command prints (already stripped), its return code, and the host
    it leaves.  A command that cannot run leaves the host as it is. *)
Definition exec (c : Cmd) (h : Host) : (string * Z) * Host :=
  match c with
  | SudoCheck => (("", if sudo_cached h then 0 else 1)%Z, h)
  | WhichBlueutil =>
      if blueutil_installed h then (("/usr/local/bin/blueutil", 0%Z), h)
      else (("", 1%Z), h)
  | SysctlRead oid =>
      match sysctl h !! oid with
      | Some v => (((oid ++ ": " ++ v)%string, 0%Z), h)
      | None => (("", 1%Z), h)
      end
  | SysctlWrite oid value =>
      match sysctl h !! oid with
      | Some old =>
          if sudo_cached h
          then (((oid ++ ": " ++ old ++ " -> " ++ value)%string, 0%Z),
                set_sysctl h oid value)
          else (("", 1%Z), h)
      | None => (("", 1%Z), h)
      end
  | IfconfigAwdl0 =>
      ((if awdl0_active h
        then "awdl0: flags=8943<UP,BROADCAST,RUNNING> mtu 1500 status: active"
        else "awdl0: flags=8902<BROADCAST> mtu 1500 status: inactive", 0%Z), h)
  | IfconfigAwdl0Set up =>
      if sudo_cached h then (("", 0%Z), set_awdl0 h up) else (("", 1%Z), h)
  | BlueutilPower =>
      if blueutil_installed h
      then ((if bluetooth_on h then "1" else "0", 0%Z), h)
      else (("[Errno 2] No such file or directory: 'blueutil'", 1%Z), h)
  | BlueutilPowerSet value =>
      if blueutil_installed h
      then if String.eqb value "1" then (("", 0%Z), set_bluetooth h true)
           else if String.eqb value "0" then (("", 0%Z), set_bluetooth h false)
           else (("", 1%Z), h)
      else (("[Errno 2] No such file or directory: 'blueutil'", 1%Z), h)
  | SystemProfilerBluetooth =>
      ((if bluetooth_on h then "Bluetooth: State: On" else "Bluetooth: State: Off",
        0%Z), h)
  end.

Record SettingState : Type := {
  name : string;
  get_cmd : Cmd;
  enable_cmd : Cmd;
  disable_cmd : Cmd;
  parse_current : string -> string;
  requires_sudo : bool;
  original_value : option string
}.

Definition with_original_value (s : SettingState) (v : string) : SettingState :=
  {| name := name s;
     get_cmd := get_cmd s;
     enable_cmd := enable_cmd s;
     disable_cmd := disable_cmd s;
     parse_current := parse_current s;
     requires_sudo := requires_sudo s;
     original_value := Some v |}.

Definition SETTINGS : list SettingState :=
  [ {| name := "TCP Delayed ACK";
       get_cmd := SysctlRead "net.inet.tcp.delayed_ack";
       enable_cmd := SysctlWrite "net.inet.tcp.delayed_ack" "3";
       disable_cmd := SysctlWrite "net.inet.tcp.delayed_ack" "0";
       parse_current := parse_sysctl;
       requires_sudo := true;
       original_value := None |};
    {| name := "TCP Send/Recv Autotuning";
       get_cmd := SysctlRead "net.inet.tcp.doautorcvbuf";
       enable_cmd := SysctlWrite "net.inet.tcp.doautorcvbuf" "1";
       disable_cmd := SysctlWrite "net.inet.tcp.doautorcvbuf" "0";
       parse_current := parse_sysctl;
       requires_sudo := true;
       original_value := None |} ].

(** *** The process: state, outside world, and what can go wrong *)

(** What the outside world does at one of the points where the script waits
    on it (a subprocess, a sleep, the report). *)
Inductive Fault : Type :=
  | NoFault
  | Interrupt   (* the user presses Ctrl-C: KeyboardInterrupt *)
  | Failure.    (* the operation itself raises an Exception *)

(** The outside world: the fault delivered at each waiting point, and the
    ping outcomes of the test started at that point. *)
Record Env : Type := {
  fault_at : nat -> Fault;
  pings : nat -> nat -> option Q
}.

(** Calls worth observing. *)
Inductive Event : Type :=
  | SaveCalled
  | RestoreCalled
  | ApplyCalled (name : string) (enable : bool)
  | PingTestCalled (label value : string)
  | Slept (seconds : Q)
  | ReportCalled.

(** The module-level [SETTINGS] list, the [NetworkOptimizer] object and the
    host it runs on.  [clock] counts the waiting points passed so far.
    [report_created] tells whether [open(self.report_file, 'w')] has created
    the file, and [report_file] holds what [json.dump] has written to it
    once the dump is through; a file created and not written through holds
    no report. *)
Record World : Type := {
  host : Host;
  clock : nat;
  settings : list SettingState;
  results : list TestResult;
  original_states : gmap string string;
  has_blueutil : bool;
  report_file : option Report;
  report_created : bool
}.

Definition boot (h : Host) : World :=
  {| host := h; clock := 0; settings := SETTINGS; results := [];
     original_states := ∅; has_blueutil := false; report_file := None;
     report_created := false |}.

Definition set_host (w : World) (h : Host) : World :=
  {| host := h; clock := clock w; settings := settings w; results := results w;
     original_states := original_states w; has_blueutil := has_blueutil w;
     report_file := report_file w; report_created := report_created w |}.

Definition advance (w : World) : World :=
  {| host := host w; clock := S (clock w); settings := settings w;
     results := results w; original_states := original_states w;
     has_blueutil := has_blueutil w; report_file := report_file w;
     report_created := report_created w |}.

Definition set_captured (w : World) (ss : list SettingState)
    (os : gmap string string) : World :=
  {| host := host w; clock := clock w; settings := ss; results := results w;
     original_states := os; has_blueutil := has_blueutil w;
     report_file := report_file w; report_created := report_created w |}.

Definition set_results (w : World) (rs : list TestResult) : World :=
  {| host := host w; clock := clock w; settings := settings w; results := rs;
     original_states := original_states w; has_blueutil := has_blueutil w;
     report_file := report_file w; report_created := report_created w |}.

Definition set_has_blueutil (w : World) (b : bool) : World :=
  {| host := host w; clock := clock w; settings := settings w;
     results := results w; original_states := original_states w;
     has_blueutil := b; report_file := report_file w;
     report_created := report_created w |}.

Definition set_report_file (w : World) (r : Report) : World :=
  {| host := host w; clock := clock w; settings := settings w;
     results := results w; original_states := original_states w;
     has_blueutil := has_blueutil w; report_file := Some r;
     report_created := report_created w |}.

Definition set_report_created (w : World) : World :=
  {| host := host w; clock := clock w; settings := settings w;
     results := results w; original_states := original_states w;
     has_blueutil := has_blueutil w; report_file := report_file w;
     report_created := true |}.

(** A statement of the script: from a world to a result or an exception,
    the world it leaves, and the calls it made. *)
Definition Run (A : Type) : Type := World -> outcome A * World * list Event.

Definition ret {A : Type} (a : A) : Run A := fun w => (Returned a, w, []).

Definition raise {A : Type} (e : exn) : Run A := fun w => (Raised e, w, []).

Definition bind {A B : Type} (c : Run A) (k : A -> Run B) : Run B :=
  fun w =>
    match c w with
    | (Returned a, w1, ev1) =>
        let '(o, w2, ev2) := k a w1 in (o, w2, ev1 ++ ev2)
    | (Raised e, w1, ev1) => (Raised e, w1, ev1)
    end.

Declare Scope run_scope.
Delimit Scope run_scope with run.
Notation "x ← y ; z" := (bind y (fun x => z))
  (at level 20, y at level 100, z at level 200, only parsing) : run_scope.
Notation "' x ← y ; z" := (bind y (fun x => z))
  (at level 20, x pattern, y at level 100, z at level 200, only parsing) : run_scope.
Notation "x ;; z" := (bind x (fun _ => z))
  (at level 100, z at level 200, only parsing, right associativity) : run_scope.

Definition emit (ev : Event) : Run unit := fun w => (Returned tt, w, [ev]).

Definition gets {A : Type} (f : World -> A) : Run A := fun w => (Returned (f w), w, []).

Definition modify (f : World -> World) : Run unit := fun w => (Returned tt, f w, []).

Definition lift {A : Type} (c : outcome A) : Run A := fun w => (c, w, []).

(** [try: body finally: cleanup] *)
Definition try_finally {A : Type} (body : Run A) (cleanup : Run unit) : Run A :=
  fun w =>
    let '(o, w1, ev1) := body w in
    let '(oc, w2, ev2) := cleanup w1 in
    match oc with
    | Returned _ => (o, w2, ev1 ++ ev2)
    | Raised e => (Raised e, w2, ev1 ++ ev2)
    end.

(** [try: body except KeyboardInterrupt: handler] *)
Definition try_except_KeyboardInterrupt {A : Type} (body handler : Run A) : Run A :=
  fun w =>
    match body w with
    | (Raised KeyboardInterrupt, w1, ev1) =>
        let '(o, w2, ev2) := handler w1 in (o, w2, ev1 ++ ev2)
    | r => r
    end.

(** [for x in l: f x] *)
Fixpoint for_each {A : Type} (l : list A) (f : A -> Run unit) : Run unit :=
  match l with
  | [] => ret tt
  | x :: t => bind (f x) (fun _ => for_each t f)
  end.

Section WithEnv.

Variable env : Env.

Local Open Scope run_scope.

(** Reaching a waiting point. *)
Definition wait : Run Fault :=
  fun w => (Returned (fault_at env (clock w)), advance w, []).

(** [run_cmd]: its [except Exception] turns a failure into return code 1;
    a [KeyboardInterrupt] is not an [Exception] and passes through. *)
Definition run_cmd (cmd : Cmd) : Run (string * Z) :=
  f ← wait;
  match f with
  | Interrupt => raise KeyboardInterrupt
  | Failure => ret ("command failed"%string, 1%Z)
  | NoFault =>
      fun w => let '(res, h) := exec cmd (host w) in (Returned res, set_host w h, [])
  end.

(** [time.sleep] *)
Definition sleep (seconds : Q) : Run unit :=
  f ← wait;
  match f with
  | Interrupt => raise KeyboardInterrupt
  | _ => emit (Slept seconds)
  end.

Definition check_sudo : Run unit :=
  '(_, code) ← run_cmd SudoCheck;
  if negb (Z.eqb code 0) then raise (SystemExit 1) else ret tt.

Definition get_awdl_state : Run string :=
  '(output, _) ← run_cmd IfconfigAwdl0;
  ret (parse_awdl output).

Definition get_bluetooth_state : Run string :=
  '(output, code) ← run_cmd BlueutilPower;
  if Z.eqb code 0
  then ret (if String.eqb (strip output) "1" then "on" else "off")%string
  else
    '(output, _) ← run_cmd SystemProfilerBluetooth;
    ret (if contains "State: On" output then "on" else "off")%string.

Definition _check_blueutil : Run bool :=
  '(_, code) ← run_cmd WhichBlueutil;
  ret (Z.eqb code 0).

(** [NetworkOptimizer.__init__] *)
Definition __init__ : Run unit :=
  modify (fun w => set_captured (set_results w []) (settings w) ∅);;
  b ← _check_blueutil;
  modify (fun w => set_has_blueutil w b).

(** The body of the loop of [save_original_states], for entry [i]. *)
Definition save_setting (i : nat) : Run unit :=
  ss ← gets settings;
  match ss !! i with
  | Some setting =>
      '(output, _) ← run_cmd (get_cmd setting);
      let value := parse_current setting output in
      modify (fun w =>
                set_captured w
                  (<[i := with_original_value setting value]> (settings w))
                  (<[name setting := value]> (original_states w)))
  | None => ret tt
  end.

Definition save_original_states : Run unit :=
  emit SaveCalled;;
  for_each (seq 0 (length SETTINGS)) save_setting;;
  awdl ← get_awdl_state;
  modify (fun w => set_captured w (settings w) (<["AWDL" := awdl]> (original_states w)));;
  bt ← get_bluetooth_state;
  modify (fun w => set_captured w (settings w) (<["Bluetooth" := bt]> (original_states w))).

(** The body of the loop of [restore_original_states]. *)
Definition restore_setting (setting : SettingState) : Run unit :=
  match original_value setting with
  | Some value =>
      if String.eqb (name setting) "TCP Delayed ACK"
      then run_cmd (SysctlWrite "net.inet.tcp.delayed_ack" value);; ret tt
      else if String.eqb (name setting) "TCP Send/Recv Autotuning"
      then run_cmd (SysctlWrite "net.inet.tcp.doautorcvbuf" value);; ret tt
      else ret tt
  | None => ret tt
  end.

Definition restore_original_states : Run unit :=
  emit RestoreCalled;;
  ss ← gets settings;
  for_each ss restore_setting;;
  os ← gets original_states;
  (if bool_decide (os !! "AWDL" = Some "on")
   then run_cmd (IfconfigAwdl0Set true);; ret tt
   else ret tt);;
  hb ← gets has_blueutil;
  if hb
  then
    let bt_val := if bool_decide (os !! "Bluetooth" = Some "on") then "1" else "0" in
    run_cmd (BlueutilPowerSet bt_val);; ret tt
  else ret tt.

(** A call of [run_ping_test]: the whole batch is one waiting point. *)
Definition call_run_ping_test (label value : string) : Run TestResult :=
  emit (PingTestCalled label value);;
  t ← gets clock;
  f ← wait;
  match f with
  | Interrupt => raise KeyboardInterrupt
  | Failure => raise RuntimeError
  | NoFault => lift (run_ping_test label value (pings env t))
  end.

Definition apply_setting (nm : string) (enable : bool) : Run unit :=
  emit (ApplyCalled nm enable);;
  if String.eqb nm "TCP Delayed ACK"
  then run_cmd (SysctlWrite "net.inet.tcp.delayed_ack" (if enable then "3" else "0"));;
       ret tt
  else if String.eqb nm "TCP Send/Recv Autotuning"
  then run_cmd (SysctlWrite "net.inet.tcp.doautorcvbuf" (if enable then "1" else "0"));;
       ret tt
  else if String.eqb nm "AWDL"
  then run_cmd (IfconfigAwdl0Set enable);; ret tt
  else if String.eqb nm "Bluetooth"
  then
    hb ← gets has_blueutil;
    if hb
    then run_cmd (BlueutilPowerSet (if enable then "1" else "0"));; sleep 2
    else ret tt
  else ret tt.

Definition append_result (r : TestResult) : Run unit :=
  modify (fun w => set_results w (results w ++ [r])).

(** What a fault met at a waiting point raises. *)
Definition waiting : Run unit :=
  f ← wait;
  match f with
  | Interrupt => raise KeyboardInterrupt
  | Failure => raise RuntimeError
  | NoFault => ret tt
  end.

(** The report is built from the object's fields.  [open(..., 'w')] creates
    the file, [json.dump] writes the report into it, and the summary is
    printed after the file is closed: the script waits on the outside world
    at each of the three, and a fault at one of them leaves what the earlier
    ones did. *)
Definition call_generate_report : Run unit :=
  emit ReportCalled;;
  waiting;;
  modify set_report_created;;
  waiting;;
  modify (fun w =>
            set_report_file w (generate_report (original_states w) (results w)));;
  waiting.

Definition run_all_tests : Run unit :=
  save_original_states;;
  try_finally
    (r ← call_run_ping_test "Baseline" "current";
     append_result r;;
     apply_setting "TCP Delayed ACK" false;;
     r ← call_run_ping_test "TCP Delayed ACK" "disabled";
     append_result r;;
     apply_setting "TCP Delayed ACK" true;;
     apply_setting "AWDL" false;;
     sleep 1;;
     r ← call_run_ping_test "AWDL" "disabled";
     append_result r;;
     apply_setting "AWDL" true;;
     hb ← gets has_blueutil;
     (if hb
      then
        apply_setting "Bluetooth" false;;
        r ← call_run_ping_test "Bluetooth" "disabled";
        append_result r;;
        apply_setting "Bluetooth" true
      else ret tt);;
     apply_setting "TCP Delayed ACK" false;;
     apply_setting "AWDL" false;;
     hb ← gets has_blueutil;
     (if hb then apply_setting "Bluetooth" false else ret tt);;
     sleep 1;;
     r ← call_run_ping_test "All Optimizations" "enabled";
     append_result r)
    restore_original_states;;
  call_generate_report.

(** The [except KeyboardInterrupt] block of [main]. *)
Definition interrupted : Run unit :=
  restore_original_states;;
  raise (SystemExit 1).

Definition main : Run unit :=
  check_sudo;;
  __init__;;
  try_except_KeyboardInterrupt run_all_tests interrupted.

End WithEnv.

(** *** Notions used to state the properties *)

(** An outside world that never interrupts and never fails. *)
Definition quiet (env : Env) : Prop := forall t, fault_at env t = NoFault.

(** The command [restore_original_states] issues for one registry entry. *)
Definition restore_cmd (setting : SettingState) : option Cmd :=
  match original_value setting with
  | Some value =>
      if String.eqb (name setting) "TCP Delayed ACK"
      then Some (SysctlWrite "net.inet.tcp.delayed_ack" value)
      else if String.eqb (name setting) "TCP Send/Recv Autotuning"
      then Some (SysctlWrite "net.inet.tcp.doautorcvbuf" value)
      else None
  | None => None
  end.

(** All the commands of one restoration, in the order they are issued. *)
Definition restore_cmds (w : World) : list Cmd :=
  omap restore_cmd (settings w) ++
  (if bool_decide (original_states w !! "AWDL" = Some "on")
   then [IfconfigAwdl0Set true] else []) ++
  (if has_blueutil w
   then [BlueutilPowerSet
           (if bool_decide (original_states w !! "Bluetooth" = Some "on")
            then "1" else "0")]
   else []).

(** The host after a list of commands. *)
Definition run_cmds (cmds : list Cmd) (h : Host) : Host :=
  fold_left (fun h c => (exec c h).2) cmds h.

(** The commands that set something. *)
Definition is_write (c : Cmd) : bool :=
  match c with
  | SysctlWrite _ _ | IfconfigAwdl0Set _ | BlueutilPowerSet _ => true
  | _ => false
  end.

(** What a command run leaves alone in the process: everything but the host
    and the clock. *)
Definition same_object (w w' : World) : Prop :=
  settings w' = settings w /\ results w' = results w
  /\ original_states w' = original_states w
  /\ has_blueutil w' = has_blueutil w /\ report_file w' = report_file w
  /\ report_created w' = report_created w.




(** A statement that, with [has_blueutil] equal to [hb] and left so, always
    returns and makes exactly the calls [evs]. *)
Definition runs {A : Type} (hb : bool) (c : Run A) (evs : list Event) : Prop :=
  forall w,
    has_blueutil w = hb ->
    exists a w', c w = (Returned a, w', evs) /\ has_blueutil w' = hb.

(** The battery as the specification words it, kept for comparison:
    baseline, then every registry entry disabled, probed and re-enabled in
    turn, then all of them disabled together and probed. *)
Definition battery_by_registry (registry : list string) : list Event :=
  [PingTestCalled "Baseline" "current"] ++
  flat_map (fun nm => [ApplyCalled nm false;
                       PingTestCalled nm "disabled";
                       ApplyCalled nm true]) registry ++
  map (fun nm => ApplyCalled nm false) registry ++
  [PingTestCalled "All Optimizations" "enabled"].

(** The battery with its settle delays, as a quiet world sees it. *)
Definition quiet_battery (blueutil : bool) : list Event :=
  [PingTestCalled "Baseline" "current";
   ApplyCalled "TCP Delayed ACK" false;
   PingTestCalled "TCP Delayed ACK" "disabled";
   ApplyCalled "TCP Delayed ACK" true;
   ApplyCalled "AWDL" false;
   Slept 1;
   PingTestCalled "AWDL" "disabled";
   ApplyCalled "AWDL" true] ++
  (if blueutil
   then [ApplyCalled "Bluetooth" false; Slept 2;
         PingTestCalled "Bluetooth" "disabled";
         ApplyCalled "Bluetooth" true; Slept 2]
   else []) ++
  [ApplyCalled "TCP Delayed ACK" false; ApplyCalled "AWDL" false] ++
  (if blueutil then [ApplyCalled "Bluetooth" false; Slept 2] else []) ++
  [Slept 1; PingTestCalled "All Optimizations" "enabled"].

(** The experiment steps of a trace: settings applied and batches probed. *)
Definition is_experiment_step (ev : Event) : bool :=
  match ev with
  | ApplyCalled _ _ | PingTestCalled _ _ => true
  | _ => false
  end.

(** A world that never faults and loses every ping. *)
Definition silent_world : Env :=
  {| fault_at := fun _ => NoFault; pings := fun _ _ => None |}.

(** A world that interrupts at each of the waiting points [ts], and one in
    which the operation at waiting point [t] fails. *)
Definition interrupted_at (ts : list nat) : Env :=
  {| fault_at := fun t => if bool_decide (t ∈ ts) then Interrupt else NoFault;
     pings := fun _ _ => None |}.

Definition failing_at (t : nat) : Env :=
  {| fault_at := fun t' => if Nat.eqb t' t then Failure else NoFault;
     pings := fun _ _ => None |}.

(** The registry once both original values have been captured. *)
Definition captured_registry (delayed_ack doautorcvbuf : string) : list SettingState :=
  zip_with with_original_value SETTINGS [delayed_ack; doautorcvbuf].

(** A host with sudo cached and both registry settings at their defaults. *)
Definition macbook (awdl bluetooth blueutil : bool) : Host :=
  {| sysctl := <["net.inet.tcp.delayed_ack" := "3"]>
                 (<["net.inet.tcp.doautorcvbuf" := "1"]> ∅);
     awdl0_active := awdl;
     bluetooth_on := bluetooth;
     sudo_cached := true;
     blueutil_installed := blueutil |}.

(** The events of a whole process started on host [h]. *)
Definition trace_of (env : Env) (h : Host) : list Event := (main env (boot h)).2.

Definition exit_of (env : Env) (h : Host) : outcome unit := (main env (boot h)).1.1.

Definition final_of (env : Env) (h : Host) : World := (main env (boot h)).1.2.

End Optimizer.

(** ** The regular expression of both scripts: [time=([\d.]+)] *)

(** Text is ASCII; [float] is exact on decimal notation. *)

Module PingOutput.

Definition is_digit (c : ascii) : bool :=
  let n := nat_of_ascii c in Nat.leb 48 n && Nat.leb n 57.

(** The character class [[\d.]], on ASCII text. *)
Definition in_class (c : ascii) : bool := is_digit c || Ascii.eqb c ".".

Fixpoint take_while (p : ascii -> bool) (s : string) : string :=
  match s with
  | EmptyString => EmptyString
  | String c t => if p c then String c (take_while p t) else EmptyString
  end.

Fixpoint drop_while (p : ascii -> bool) (s : string) : string :=
  match s with
  | EmptyString => EmptyString
  | String c t => if p c then drop_while p t else s
  end.

Fixpoint drop (n : nat) (s : string) : string :=
  match n, s with
  | O, _ => s
  | S n', String _ t => drop n' t
  | S _, EmptyString => EmptyString
  end.

(** [re.search(r'time=([\d.]+)', s)]: group 1 of the leftmost match, the
    longest run of class characters after [time=]. *)
Fixpoint search (s : string) : option string :=
  match s with
  | EmptyString => None
  | String _ t =>
      if String.prefix "time=" s
      then match take_while in_class (drop 5 s) with
           | EmptyString => search t
           | g => Some g
           end
      else search t
  end.

(** The number a string of decimal digits denotes. *)
Definition digits_value (s : string) : N :=
  (fix go (acc : N) (s : string) : N :=
     match s with
     | EmptyString => acc
     | String c t => go (acc * 10 + (N_of_ascii c - 48))%N t
     end) 0%N s.

Definition all_digits (s : string) : bool :=
  match drop_while is_digit s with
  | EmptyString => true
  | _ => false
  end.

(** [float(g)] on a string of digits and dots: digits with at most one dot
    and at least one digit; anything else raises [ValueError]. *)
Definition float (g : string) : outcome Q :=
  let whole := take_while is_digit g in
  match drop_while is_digit g with
  | EmptyString =>
      match whole with
      | EmptyString => Raised ValueError
      | _ => Returned (inject_Z (Z.of_N (digits_value whole)))
      end
  | String c frac =>
      if Ascii.eqb c "." && all_digits frac
         && negb (String.eqb whole "" && String.eqb frac "")
      then Returned
             (Z.of_N (digits_value (whole ++ frac)) # pow10 (String.length frac))
      else Raised ValueError
  end.

(** [parse_time] of jitter-check.py, and the same two lines inlined in
    [run_ping_test]. *)
Definition parse_time (output : string) : outcome (option Q) :=
  match search output with
  | Some g => x ← float g; Returned (Some x)
  | None => Returned None
  end.

End PingOutput.

(** ** visualize_results.py: the charts *)

(** Only what the script computes from the report is modelled; the
    drawing itself is matplotlib's. *)

Module Visualize.

Import Optimizer.

(** [calc_jitter] of [create_jitter_comparison] *)
Definition calc_jitter (rtts : list Q) : list Q :=
  map (fun i => Qabs (nth i rtts 0 - nth (i - 1) rtts 0))
      (seq 1 (length rtts - 1)).

(** What stops the script: a subscript out of range, or an exception of
    the arithmetic. *)
Inductive raised : Type :=
  | IndexError
  | Arithmetic (e : exn).

(** [l[i]] *)
Definition item {A : Type} (l : list A) (i : nat) : raised + A :=
  match l !! i with
  | Some x => inr x
  | None => inl IndexError
  end.

(** The three figures under IMPROVEMENT, each formatted with [.1f]. *)
Record Improvement : Type := {
  faster_average : string;
  lower_max_spike : string;
  more_consistent : string
}.

(** [create_verdict_text]: the values it interpolates into the panel. *)
Definition create_verdict_text (report : Report) : raised + Improvement :=
  match item (tests report) 0 with
  | inl e => inl e
  | inr baseline =>
      match item (tests report) 2 with
      | inl e => inl e
      | inr awdl_off =>
          let b := test_result baseline in
          let a := test_result awdl_off in
          match
            (avg ← py_div (avg_latency_ms b) (avg_latency_ms a);
             mx ← py_div (max_latency_ms b) (max_latency_ms a);
             jit ← py_div (avg_jitter_ms b) (avg_jitter_ms a);
             Returned {| faster_average := format_f 1 avg;
                         lower_max_spike := format_f 1 mx;
                         more_consistent := format_f 1 jit |})
          with
          | Returned v => inr v
          | Raised e => inl (Arithmetic e)
          end
      end
  end.

End Visualize.

(** ** Further notions used to state the properties *)

Section MonitorNotions.

Import JitterCheck.

(** [statistics.mean(l) if l else 0] *)
Definition mean_or_zero (l : list Q) : Q :=
  match l with
  | [] => 0
  | _ :: _ => Qsum l / Qlen l
  end.

Definition status_eqb (a b : Status) : bool :=
  match a, b with
  | OK, OK | HighJitter, HighJitter | LagSpike, LagSpike
  | PacketLoss, PacketLoss => true
  | _, _ => false
  end.

(** The number of logged rows with a given status. *)
Definition count_status (s : Status) (rows : list Row) : nat :=
  length (List.filter (fun r => status_eqb (row_status r) s) rows).

(** The first entry [diagnosis] can get. *)
Definition loss_message : string :=
  "Packet Loss detected (Wi-Fi interference or hardware fault)".

End MonitorNotions.

Section OrchestratorNotions.

Import Optimizer.

Definition label_of (r : TestResult) : string * string :=
  (setting_name r, setting_value r).

(** A result that came out of [run_ping_test]. *)
Definition measured (r : TestResult) : Prop :=
  exists label value probes, run_ping_test label value probes = Returned r.

(** A statement that, with [has_blueutil] equal to [hb], always returns,
    has run exactly the commands [cmds] on the host, has appended results
    labelled [labels], each of a full batch, and has left the rest of the
    object alone. *)
Definition performs {A : Type} (hb : bool) (c : Run A) (cmds : list Cmd)
    (labels : list (string * string)) : Prop :=
  forall w,
    has_blueutil w = hb ->
    exists a w' rs,
      (c w).1 = (Returned a, w')
      /\ host w' = run_cmds cmds (host w)
      /\ results w' = results w ++ rs
      /\ map label_of rs = labels
      /\ Forall (fun r => packets_sent r = PINGS_PER_TEST) rs
      /\ settings w' = settings w
      /\ original_states w' = original_states w
      /\ has_blueutil w' = hb
      /\ report_file w' = report_file w
      /\ report_created w' = report_created w.

(** A statement that, whenever it returns, has appended results labelled
    [labels], each of them measured, and left [has_blueutil] equal to
    [hb]. *)
Definition appends_results {A : Type} (hb : bool) (c : Run A)
    (labels : list (string * string)) : Prop :=
  forall w a w',
    has_blueutil w = hb -> (c w).1 = (Returned a, w') ->
    has_blueutil w' = hb
    /\ exists rs,
         results w' = results w ++ rs /\ map label_of rs = labels
         /\ Forall measured rs.

(** A statement that never touches the report file, however it ends. *)
Definition keeps_report {A : Type} (c : Run A) : Prop :=
  forall w,
    report_file (c w).1.2 = report_file w
    /\ report_created (c w).1.2 = report_created w.

(** A statement that leaves the whole object and the report file alone,
    however it ends. *)
Definition keeps_object {A : Type} (c : Run A) : Prop :=
  forall w, same_object w (c w).1.2.

(** The commands [apply_setting] issues in a quiet world. *)
Definition apply_cmds (hb : bool) (nm : string) (enable : bool) : list Cmd :=
  if String.eqb nm "TCP Delayed ACK"
  then [SysctlWrite "net.inet.tcp.delayed_ack" (if enable then "3" else "0")]
  else if String.eqb nm "TCP Send/Recv Autotuning"
  then [SysctlWrite "net.inet.tcp.doautorcvbuf" (if enable then "1" else "0")]
  else if String.eqb nm "AWDL" then [IfconfigAwdl0Set enable]
  else if String.eqb nm "Bluetooth" && hb
  then [BlueutilPowerSet (if enable then "1" else "0")]
  else [].

(** The commands of the battery in a quiet world, and the labels of its
    results. *)
Definition battery_cmds (blueutil : bool) : list Cmd :=
  [SysctlWrite "net.inet.tcp.delayed_ack" "0";
   SysctlWrite "net.inet.tcp.delayed_ack" "3";
   IfconfigAwdl0Set false;
   IfconfigAwdl0Set true] ++
  (if blueutil then [BlueutilPowerSet "0"; BlueutilPowerSet "1"] else []) ++
  [SysctlWrite "net.inet.tcp.delayed_ack" "0"; IfconfigAwdl0Set false] ++
  (if blueutil then [BlueutilPowerSet "0"] else []).

Definition battery_labels (blueutil : bool) : list (string * string) :=
  [("Baseline", "current"); ("TCP Delayed ACK", "disabled"); ("AWDL", "disabled")] ++
  (if blueutil then [("Bluetooth", "disabled")] else []) ++
  [("All Optimizations", "enabled")].

(** The report file agrees with the run: it exists only once the whole
    battery has been measured, and a report written through is the one
    [generate_report] builds from the object's fields. *)
Definition report_sound (w : World) : Prop :=
  (report_created w = true ->
   map label_of (results w) = battery_labels (has_blueutil w)
   /\ Forall measured (results w))
  /\ (forall rep,
        report_file w = Some rep ->
        report_created w = true
        /\ rep = generate_report (original_states w) (results w)).

(** What [save_original_states] records for a sysctl of the host. *)
Definition captured_sysctl (h : Host) (oid : string) : string :=
  parse_sysctl (exec (SysctlRead oid) h).1.1.

Definition on_off (b : bool) : string := if b then "on" else "off".

(** Everything [save_original_states] records on a host, starting from an
    empty dictionary. *)
Definition captured_states (h : Host) : gmap string string :=
  <["Bluetooth" := on_off (bluetooth_on h)]>
    (<["AWDL" := on_off (awdl0_active h)]>
       (<["TCP Send/Recv Autotuning" := captured_sysctl h "net.inet.tcp.doautorcvbuf"]>
          (<["TCP Delayed ACK" := captured_sysctl h "net.inet.tcp.delayed_ack"]> ∅))).

(** A value that survives [parse_sysctl]: no colon, no surrounding white
    space. *)
Definition clean (v : string) : Prop := contains ":" v = false /\ strip v = v.

(** The registry settings of the host hold values that survive the parser. *)
Definition registry_clean (h : Host) : Prop :=
  forall oid v,
    In oid ["net.inet.tcp.delayed_ack"; "net.inet.tcp.doautorcvbuf"]%string ->
    sysctl h !! oid = Some v -> clean v.

(** What a command does to each field of the host. *)
Definition sysctl_step (sudo : bool) (m : gmap string string) (c : Cmd)
  : gmap string string :=
  match c with
  | SysctlWrite k v => if bool_decide (is_Some (m !! k)) && sudo then <[k := v]> m else m
  | _ => m
  end.

Definition awdl_step (sudo : bool) (a : bool) (c : Cmd) : bool :=
  match c with
  | IfconfigAwdl0Set up => if sudo then up else a
  | _ => a
  end.

Definition bluetooth_step (installed : bool) (b : bool) (c : Cmd) : bool :=
  match c with
  | BlueutilPowerSet v =>
      if installed
      then if String.eqb v "1" then true else if String.eqb v "0" then false else b
      else b
  | _ => b
  end.

Local Open Scope run_scope.

(** The body of the [try] block of [run_all_tests]. *)
Definition battery (env : Env) : Run unit :=
  r ← call_run_ping_test env "Baseline" "current";
  append_result r;;
  apply_setting env "TCP Delayed ACK" false;;
  r ← call_run_ping_test env "TCP Delayed ACK" "disabled";
  append_result r;;
  apply_setting env "TCP Delayed ACK" true;;
  apply_setting env "AWDL" false;;
  sleep env 1;;
  r ← call_run_ping_test env "AWDL" "disabled";
  append_result r;;
  apply_setting env "AWDL" true;;
  hb ← gets has_blueutil;
  (if hb
   then
     apply_setting env "Bluetooth" false;;
     r ← call_run_ping_test env "Bluetooth" "disabled";
     append_result r;;
     apply_setting env "Bluetooth" true
   else ret tt);;
  apply_setting env "TCP Delayed ACK" false;;
  apply_setting env "AWDL" false;;
  hb ← gets has_blueutil;
  (if hb then apply_setting env "Bluetooth" false else ret tt);;
  sleep env 1;;
  r ← call_run_ping_test env "All Optimizations" "enabled";
  append_result r.

End OrchestratorNotions.

(** * Properties *)

(** ** Comparisons *)

Lemma Qgtb_lt (x y : Q) : Qgtb x y = true <-> y < x.
Proof.
  unfold Qgtb. rewrite negb_true_iff. split.
  - intros H. apply Qnot_le_lt. intros Hle. apply Qle_bool_iff in Hle. congruence.
  - intros H. destruct (Qle_bool x y) eqn:E; [|reflexivity].
    apply Qle_bool_iff in E. exfalso. apply (Qlt_not_le _ _ H E).
Qed.

Lemma Qgtb_le (x y : Q) : Qgtb x y = false <-> x <= y.
Proof. unfold Qgtb. rewrite negb_false_iff. apply Qle_bool_iff. Qed.

Lemma Qnat_nonzero (n : nat) : n <> O -> Qeq_bool (JitterCheck.Qnat n) 0 = false.
Proof.
  intros Hn. destruct (Qeq_bool (JitterCheck.Qnat n) 0) eqn:E; [|reflexivity].
  apply Qeq_bool_iff in E. unfold JitterCheck.Qnat, Qeq in E. simpl in E. lia.
Qed.

(** ** The continuous monitor *)

Section Monitor.

Import JitterCheck.

Lemma iteration_prev_rtt (m : Monitor) (p : option Q) :
  prev_rtt (iteration m p).1 = p.
Proof. destruct p; reflexivity. Qed.

Lemma iteration_row_rtt (m : Monitor) (p : option Q) :
  row_rtt (iteration m p).2 = p.
Proof. destruct p; reflexivity. Qed.

Lemma iteration_row_jitter (m : Monitor) (p : option Q) :
  row_jitter (iteration m p).2 = jitter_against (prev_rtt m) p.
Proof. destruct p; [|destruct (prev_rtt m); reflexivity]. reflexivity. Qed.

Lemma loop_cons_rows (m : Monitor) (p : option Q) (rest : list (option Q)) :
  (loop m (p :: rest)).2 = (iteration m p).2 :: (loop (iteration m p).1 rest).2.
Proof.
  cbn [loop]. destruct (iteration m p) as [m1 row]. cbn [fst snd].
  destruct (loop m1 rest). reflexivity.
Qed.

Lemma loop_rows_jitter (probes : list (option Q)) (m : Monitor) :
  map row_jitter (loop m probes).2 =
  zip_with jitter_against (prev_rtt m :: probes) probes.
Proof.
  revert m. induction probes as [|p rest IH]; intros m; [reflexivity|].
  rewrite loop_cons_rows. cbn [map zip_with]. f_equal.
  - apply iteration_row_jitter.
  - rewrite IH, iteration_prev_rtt. reflexivity.
Qed.

(** C2.  With the thresholds of the script (spike 15.0 ms, jitter 5.0 ms),
    the RTT sequence 5, 6, 40, 41, 7 is logged with statuses OK, OK,
    LAG SPIKE, LAG SPIKE, HIGH JITTER.  An RTT above the spike threshold is
    a lag spike whatever its jitter, and an RTT at or below the threshold
    whose jitter exceeds 5.0 is high jitter. *)
Theorem classifier_statuses :
  (forall tgt,
      map row_status (analyze_lan tgt [Some 5; Some 6; Some 40; Some 41; Some 7]).1
      = [OK; OK; LagSpike; LagSpike; HighJitter])
  /\ (forall m r,
         SPIKE_THRESHOLD < r -> row_status (iteration m (Some r)).2 = LagSpike)
  /\ (forall m r p,
         prev_rtt m = Some p -> r <= SPIKE_THRESHOLD -> 5.0 < Qabs (r - p) ->
         row_status (iteration m (Some r)).2 = HighJitter).
Proof.
  split; [|split].
  - intros tgt. reflexivity.
  - intros m r H. unfold iteration.
    apply Qgtb_lt in H. rewrite H. reflexivity.
  - intros m r p Hp Hr Hj. unfold iteration. rewrite Hp.
    apply Qgtb_le in Hr. rewrite Hr. apply Qgtb_lt in Hj. rewrite Hj. reflexivity.
Qed.

Lemma classifier_statuses_witness :
  row_status (iteration start (Some 40)).2 = LagSpike
  /\ row_status (iteration (iteration start (Some 41)).1 (Some 7)).2 = HighJitter.
Proof.
  split.
  - apply (proj1 (proj2 classifier_statuses) start 40). reflexivity.
  - apply (proj2 (proj2 classifier_statuses) (iteration start (Some 41)).1 7 41);
      [reflexivity | vm_compute; discriminate | reflexivity].
Defined.

(** C3, as the script has it.  A failed probe is logged as PACKET LOSS with
    jitter 0 and clears the previous RTT.  In every probe sequence the
    jitter of a row is taken against the probe just before it and is 0 when
    that probe failed: the first success after a loss has jitter 0, adds no
    jitter value, and is never logged as HIGH JITTER. *)
Theorem loss_resets_jitter :
  (forall m,
      row_status (iteration m None).2 = PacketLoss
      /\ row_jitter (iteration m None).2 = 0.0
      /\ prev_rtt (iteration m None).1 = None
      /\ jitter_values (stats (iteration m None).1) = jitter_values (stats m))
  /\ (forall tgt probes,
         map row_jitter (analyze_lan tgt probes).1 =
         zip_with jitter_against (None :: probes) probes)
  /\ (forall m r,
         let after_loss := iteration (iteration m None).1 (Some r) in
         row_jitter after_loss.2 = 0.0
         /\ jitter_values (stats after_loss.1) = jitter_values (stats m)
         /\ row_status after_loss.2 =
            if Qgtb r SPIKE_THRESHOLD then LagSpike else OK).
Proof.
  split; [|split].
  - intros m. repeat split.
  - intros tgt probes. unfold analyze_lan.
    pose proof (loop_rows_jitter probes start) as H.
    destruct (loop start probes) as [m rows]. exact H.
  - intros m r. cbn. repeat split.
Qed.

(** C3, as the specification words it, fails: after 5 ms, a loss, and 14 ms the
    third row has jitter 0 and status OK, not jitter |14 - 5| = 9. *)
Lemma jitter_after_loss_not_carried :
  let rows := (analyze_lan "192.168.1.1" [Some 5; None; Some 14]).1 in
  map row_jitter rows = [0.0; 0.0; 0.0]
  /\ map row_status rows = [OK; PacketLoss; OK]
  /\ map row_jitter rows <> carried_forward_jitter None [Some 5; None; Some 14].
Proof.
  repeat split. cbv. intros H. discriminate H.
Qed.

(** C8.  Interrupted before any probe was counted, the handler returns
    before the summary object is built; once a probe was counted it always
    builds one, and no division fails. *)
Theorem no_summary_without_probes :
  (forall tgt, analyze_lan tgt [] = ([], Returned None))
  /\ (forall tgt st, sent st = O -> on_interrupt tgt st = Returned None)
  /\ (forall tgt st, sent st <> O ->
        exists js, on_interrupt tgt st = Returned (Some js)).
Proof.
  split; [|split].
  - intros tgt. reflexivity.
  - intros tgt st H. unfold on_interrupt. rewrite H. reflexivity.
  - intros tgt st H. unfold on_interrupt.
    destruct (Nat.eqb_spec (sent st) 0) as [E|_]; [contradiction|].
    unfold py_div. rewrite (Qnat_nonzero _ H).
    destruct (rtts st), (jitter_values st); cbn; eexists; reflexivity.
Qed.

Lemma no_summary_without_probes_witness :
  on_interrupt "192.168.1.1" (stats start) = Returned None
  /\ exists js,
       on_interrupt "192.168.1.1" (stats (iteration start (Some 12)).1)
       = Returned (Some js).
Proof.
  split.
  - apply (proj1 (proj2 no_summary_without_probes)). reflexivity.
  - apply (proj2 (proj2 no_summary_without_probes)). cbn. discriminate.
Defined.

End Monitor.

(** ** Ping batches and the report *)

Section Experiments.

Import Optimizer.

(** *** The collection loop and the statistics *)

Lemma omap_length_le {A B : Type} (f : A -> option B) (l : list A) :
  (length (omap f l) <= length l)%nat.
Proof.
  induction l as [|x l IH]; [reflexivity|].
  cbn [omap list_omap]. destruct (f x); cbn [length]; fold (omap f l); lia.
Qed.

Lemma omap_seq_length (probes : nat -> option Q) (s n : nat) :
  (length (omap probes (seq s n)) <= n)%nat.
Proof. etransitivity; [apply omap_length_le|]. rewrite length_seq. done. Qed.

Lemma omap_all_lost (probes : nat -> option Q) (s n : nat) :
  (forall i, (s <= i < s + n)%nat -> probes i = None) -> omap probes (seq s n) = [].
Proof.
  revert s. induction n as [|n IH]; intros s H; [reflexivity|].
  cbn [seq omap list_omap]. rewrite (H s) by lia.
  apply IH. intros i Hi. apply H. lia.
Qed.

Lemma collect_from (probes : nat -> option Q) (n s : nat) (acc : list Q) (lost : nat) :
  fold_left
    (fun '(rtts, lost) i =>
       match probes i with
       | Some r => (rtts ++ [r], lost)
       | None => (rtts, S lost)
       end)
    (seq s n) (acc, lost)
  = (acc ++ omap probes (seq s n),
     (lost + (n - length (omap probes (seq s n))))%nat).
Proof.
  revert s acc lost. induction n as [|n IH]; intros s acc lost.
  - cbn. rewrite app_nil_r. f_equal. lia.
  - cbn [seq fold_left omap list_omap]. destruct (probes s) as [r|] eqn:E.
    + rewrite IH. rewrite <- app_assoc. cbn [app length]. f_equal.
    + rewrite IH. f_equal.
      pose proof (omap_seq_length probes (S s) n). lia.
Qed.

Lemma collect_spec (n : nat) (probes : nat -> option Q) :
  collect n probes =
  (omap probes (seq 0 n), (n - length (omap probes (seq 0 n)))%nat).
Proof. unfold collect. rewrite collect_from. reflexivity. Qed.

Lemma adjacent_diffs_cons2 (a b : Q) (t : list Q) :
  adjacent_diffs (a :: b :: t) = Qabs (b - a) :: adjacent_diffs (b :: t).
Proof. reflexivity. Qed.

Lemma jitter_of_adjacent (l : list Q) : jitter_of l = adjacent_diffs l.
Proof.
  unfold jitter_of. induction l as [|a l IH]; [reflexivity|].
  destruct l as [|b t]; [reflexivity|].
  rewrite adjacent_diffs_cons2, <- IH.
  cbn [length]. rewrite !Nat.sub_succ, !Nat.sub_0_r.
  cbn [seq map]. f_equal.
  rewrite <- seq_shift, map_map. apply map_ext_in.
  intros i Hi. apply in_seq in Hi.
  destruct i as [|i]; [lia|]. cbn [nth Nat.sub]. rewrite Nat.sub_0_r. reflexivity.
Qed.

Lemma Qlen_nonzero {A : Type} (x : A) (t : list A) : Qeq_bool (Qlen (x :: t)) 0 = false.
Proof. apply (Qnat_nonzero (length (x :: t))). discriminate. Qed.

Lemma statistics_of_nonempty (label value : string) (x : Q) (t : list Q) (lost : nat) :
  let rtts := x :: t in
  exists avg mx mn,
    statistics_mean rtts = Returned avg /\ py_max rtts = Returned mx
    /\ py_min rtts = Returned mn
    /\ statistics_of label value rtts lost =
       Returned
         {| setting_name := label;
            setting_value := value;
            packets_sent := PINGS_PER_TEST;
            packets_lost := lost;
            avg_latency_ms := py_round avg 2;
            max_latency_ms := py_round mx 2;
            min_latency_ms := py_round mn 2;
            avg_jitter_ms :=
              match adjacent_diffs rtts with
              | [] => 0
              | d :: ds => py_round (Qsum (d :: ds) / Qlen (d :: ds)) 2
              end;
            spike_count := count_spikes rtts;
            spike_percentage :=
              py_round (Qnat (count_spikes rtts) / Qlen rtts * 100) 1;
            raw_rtts := rtts |}.
Proof.
  intros rtts. do 3 eexists. repeat split.
  unfold statistics_of. subst rtts. rewrite jitter_of_adjacent.
  cbn [statistics_mean py_max py_min mbind outcome_bind obind].
  unfold py_div. rewrite Qlen_nonzero.
  destruct (adjacent_diffs (x :: t)); reflexivity.
Qed.

(** C10.  [run_ping_test] returns a result for every sequence of probe
    outcomes; no division fails.  The result reports the batch size as
    packets sent, losses and raw RTTs add up to it, and the raw RTTs are the
    successful probes in order.  With no success every statistic is 0 and
    the raw series is empty.  Otherwise the average jitter is taken over the
    differences of neighbouring successes, losses in between
    notwithstanding, and the spike percentage over the number of
    successes. *)
Theorem run_ping_test_total (label value : string) (probes : nat -> option Q) :
  exists r,
    run_ping_test label value probes = Returned r
    /\ packets_sent r = PINGS_PER_TEST
    /\ (packets_lost r + length (raw_rtts r))%nat = packets_sent r
    /\ raw_rtts r = omap probes (seq 0 PINGS_PER_TEST)
    /\ ((forall i, (i < PINGS_PER_TEST)%nat -> probes i = None) -> raw_rtts r = [])
    /\ (raw_rtts r = [] ->
        avg_latency_ms r = 0 /\ min_latency_ms r = 0 /\ max_latency_ms r = 0
        /\ avg_jitter_ms r = 0 /\ spike_count r = O /\ spike_percentage r = 0)
    /\ avg_jitter_ms r =
       match adjacent_diffs (raw_rtts r) with
       | [] => 0
       | d :: ds => py_round (Qsum (d :: ds) / Qlen (d :: ds)) 2
       end
    /\ spike_count r = count_spikes (raw_rtts r)
    /\ spike_percentage r =
       match raw_rtts r with
       | [] => 0
       | _ :: _ => py_round (Qnat (spike_count r) / Qlen (raw_rtts r) * 100) 1
       end.
Proof.
  unfold run_ping_test. rewrite collect_spec.
  pose proof (omap_seq_length probes 0 PINGS_PER_TEST) as Hlen.
  pose proof (omap_all_lost probes 0 PINGS_PER_TEST) as Hnone.
  destruct (omap probes (seq 0 PINGS_PER_TEST)) as [|x t] eqn:E.
  - eexists. split; [reflexivity|]. cbn. repeat split.
  - destruct (statistics_of_nonempty label value x t
                (PINGS_PER_TEST - length (x :: t))) as (avg & mx & mn & _ & _ & _ & H).
    eexists. split; [exact H|]. cbn [packets_sent packets_lost raw_rtts avg_jitter_ms
      spike_count spike_percentage].
    repeat split; try discriminate; [lia|].
    intros Hall. apply Hnone. intros i Hi. apply Hall. lia.
Qed.

Lemma run_ping_test_total_witness :
  exists r,
    run_ping_test "Baseline" "current" (fun _ => None) = Returned r
    /\ spike_percentage r = 0 /\ packets_lost r = PINGS_PER_TEST.
Proof.
  destruct (run_ping_test_total "Baseline" "current" (fun _ => None))
    as (r & Hr & Hsent & Hsum & _ & Hnone & Hzero & _).
  assert (raw_rtts r = []) as E by (apply Hnone; reflexivity).
  exists r. split; [exact Hr|]. split; [apply Hzero, E|].
  rewrite E in Hsum. cbn [length] in Hsum. lia.
Defined.

(** *** Rounding and formatting *)

Global Instance round_half_even_comp : Proper (Qeq ==> eq) round_half_even.
Proof.
  intros x y H. unfold round_half_even.
  rewrite (Qfloor_comp _ _ H).
  assert (x - inject_Z (Qfloor y) == y - inject_Z (Qfloor y)) as E by (rewrite H; reflexivity).
  rewrite E. reflexivity.
Qed.

Global Instance Qgtb_comp : Proper (Qeq ==> Qeq ==> eq) Qgtb.
Proof. intros x y H x' y' H'. unfold Qgtb. rewrite H, H'. reflexivity. Qed.

Global Instance format_f_comp (n : nat) : Proper (Qeq ==> eq) (format_f n).
Proof.
  intros x y H. unfold format_f.
  assert (x * inject_Z (Z.pos (pow10 n)) == y * inject_Z (Z.pos (pow10 n))) as E
    by (rewrite H; reflexivity).
  rewrite (round_half_even_comp _ _ E).
  rewrite (Qgtb_comp 0 0 (Qeq_refl 0) x y H). reflexivity.
Qed.

Lemma round_half_even_floor (x : Q) : (Qfloor x <= round_half_even x)%Z.
Proof.
  unfold round_half_even.
  destruct (Qcompare _ _); [destruct (Z.even _)|..]; lia.
Qed.

Lemma round_half_even_ge_1 (x : Q) : 1 <= x -> (1 <= round_half_even x)%Z.
Proof.
  intros H. pose proof (round_half_even_floor x).
  pose proof (Qfloor_resp_le _ _ H) as H1. change (Qfloor 1) with 1%Z in H1. lia.
Qed.

Lemma round_half_even_nonneg (x : Q) : 0 <= x -> (0 <= round_half_even x)%Z.
Proof.
  intros H. pose proof (round_half_even_floor x).
  pose proof (Qfloor_resp_le _ _ H) as H1. change (Qfloor 0) with 0%Z in H1. lia.
Qed.

Lemma py_round_pos (x : Q) (n : nat) :
  1 <= x * inject_Z (Z.pos (pow10 n)) -> 0 < py_round x n.
Proof.
  intros H. apply round_half_even_ge_1 in H.
  unfold py_round, Qlt. simpl. lia.
Qed.

Lemma py_round_nonneg (x : Q) (n : nat) : 0 <= x -> 0 <= py_round x n.
Proof.
  intros H. unfold py_round, Qle. simpl. 
  assert (0 <= x * inject_Z (Z.pos (pow10 n))) as H1.
  { apply Qmult_le_0_compat; [exact H|]. unfold Qle. simpl. lia. }
  apply round_half_even_nonneg in H1. lia.
Qed.

Lemma py_round_zero (x : Q) (n : nat) : x == 0 -> py_round x n == 0.
Proof.
  intros H. unfold py_round.
  assert (x * inject_Z (Z.pos (pow10 n)) == 0) as E by (rewrite H; ring).
  rewrite E. reflexivity.
Qed.

(** *** What every produced result satisfies *)

Lemma Qsum_nonneg (l : list Q) : Forall (fun x => 0 <= x) l -> 0 <= Qsum l.
Proof.
  induction 1 as [|x l Hx _ IH]; cbn; [apply Qle_refl|].
  replace 0 with (0 + 0) by reflexivity. apply Qplus_le_compat; assumption.
Qed.

Lemma Qsum_ge_member (l : list Q) (e : Q) :
  Forall (fun x => 0 <= x) l -> In e l -> e <= Qsum l.
Proof.
  induction 1 as [|x l Hx Hl IH]; intros Hin; [destruct Hin|].
  cbn. destruct Hin as [->|Hin].
  - rewrite <- (Qplus_0_r e) at 1. apply Qplus_le_compat; [apply Qle_refl|].
    apply Qsum_nonneg, Hl.
  - rewrite <- (Qplus_0_l e). apply Qplus_le_compat; [exact Hx | apply IH, Hin].
Qed.

Lemma count_spikes_member (l : list Q) :
  count_spikes l <> O -> exists e, In e l /\ SPIKE_THRESHOLD < e.
Proof.
  unfold count_spikes. intros H.
  destruct (List.filter _ l) as [|e t] eqn:E; [contradiction|].
  assert (In e (List.filter (fun r => Qgtb r SPIKE_THRESHOLD) l)) as Hin
    by (rewrite E; left; reflexivity).
  apply filter_In in Hin. destruct Hin as [Hin Hgt].
  exists e. split; [exact Hin | apply Qgtb_lt, Hgt].
Qed.

Lemma omap_nonneg (probes : nat -> option Q) (l : list nat) :
  nonneg_probes probes -> Forall (fun x => 0 <= x) (omap probes l).
Proof.
  intros Hp. induction l as [|i l IH]; [constructor|].
  cbn [omap list_omap]. destruct (probes i) as [x|] eqn:E; [|exact IH].
  constructor; [exact (Hp i x E) | exact IH].
Qed.

Lemma Qlen_pos {A : Type} (x : A) (t : list A) : 0 < Qlen (x :: t).
Proof. unfold Qlen, Qlt. simpl. lia. Qed.

Lemma Qlen_le {A : Type} (l : list A) (n : nat) :
  (length l <= n)%nat -> Qlen l <= inject_Z (Z.of_nat n).
Proof. intros H. unfold Qlen. rewrite <- Zle_Qle. lia. Qed.

Lemma mean_times_100_ge_1 (x : Q) (t : list Q) :
  Forall (fun y => 0 <= y) (x :: t) ->
  (length (x :: t) <= PINGS_PER_TEST)%nat ->
  count_spikes (x :: t) <> O ->
  1 <= Qsum (x :: t) / Qlen (x :: t) * inject_Z (Z.pos (pow10 2)).
Proof.
  intros Hnn Hlen Hc.
  destruct (count_spikes_member _ Hc) as (e & Hin & He).
  pose proof (Qsum_ge_member _ _ Hnn Hin) as Hsum.
  pose proof (Qlen_pos x t) as Hpos.
  pose proof (Qlen_le _ _ Hlen) as Hle.
  assert (Qsum (x :: t) / Qlen (x :: t) * inject_Z (Z.pos (pow10 2))
          == (Qsum (x :: t) * 100) / Qlen (x :: t)) as E.
  { change (inject_Z (Z.pos (pow10 2))) with 100. field.
    intros H0. rewrite H0 in Hpos. discriminate Hpos. }
  rewrite E. apply Qle_shift_div_l; [exact Hpos|].
  rewrite Qmult_1_l. 
  apply Qle_trans with (inject_Z (Z.of_nat PINGS_PER_TEST)); [exact Hle|].
  apply Qle_trans with (SPIKE_THRESHOLD * 100); [vm_compute; discriminate|].
  apply Qmult_le_compat_r; [|vm_compute; discriminate].
  apply Qlt_le_weak. apply Qlt_le_trans with e; assumption.
Qed.

Lemma ratio_nonneg (c : nat) (x : Q) (t : list Q) :
  0 <= Qnat c / Qlen (x :: t) * 100.
Proof.
  apply Qmult_le_0_compat; [|vm_compute; discriminate].
  apply Qle_shift_div_l; [apply Qlen_pos|].
  rewrite Qmult_0_l. unfold Qnat, Qle. simpl. lia.
Qed.

Lemma produced_shape (r : TestResult) :
  produced r ->
  0 <= spike_percentage r
  /\ (0 < spike_percentage r -> 0 < avg_latency_ms r)
  /\ (0 < avg_latency_ms r -> raw_rtts r <> []).
Proof.
  intros [label value probes r' Hp Hr]. revert Hr.
  unfold run_ping_test. rewrite collect_spec.
  pose proof (omap_seq_length probes 0 PINGS_PER_TEST) as Hlen.
  pose proof (omap_nonneg probes (seq 0 PINGS_PER_TEST) Hp) as Hnn.
  destruct (omap probes (seq 0 PINGS_PER_TEST)) as [|x t].
  - cbn. intros [= <-]. cbn. repeat split; discriminate.
  - destruct (statistics_of_nonempty label value x t
                (PINGS_PER_TEST - length (x :: t)))
      as (avg & mx & mn & Havg & _ & _ & H).
    rewrite H. intros [= <-].
    cbn [spike_percentage avg_latency_ms raw_rtts].
    split; [apply py_round_nonneg, ratio_nonneg|]. split; [|discriminate].
    intros Hs. injection Havg as <-.
    apply py_round_pos, mean_times_100_ge_1; try assumption.
    intros Hc. rewrite Hc in Hs.
    assert (py_round (Qnat 0 / Qlen (x :: t) * 100) 1 == 0) as E.
    { apply py_round_zero. unfold Qdiv. change (Qnat 0) with 0. ring. }
    rewrite E in Hs. discriminate Hs.
Qed.

(** *** Recommendations *)

Lemma filter_none {A : Type} (f : A -> bool) (l : list A) :
  (forall x, In x l -> f x = false) -> List.filter f l = [].
Proof.
  induction l as [|x l IH]; intros H; [reflexivity|].
  cbn [List.filter]. rewrite (H x (or_introl eq_refl)).
  apply IH. intros y Hy. apply H. right. exact Hy.
Qed.

Lemma recommendations_unfold (os : gmap string string) (results : list TestResult) :
  recommendations (generate_report os results) =
  match List.filter (fun r => Qgtb (avg_latency_ms r) 0) results, results with
  | _ :: _, baseline :: rest =>
      map (recommend baseline)
        (List.filter
           (fun result =>
              Qgtb (float_sub (spike_percentage baseline) (spike_percentage result)) 5)
           rest)
  | _, _ => []
  end.
Proof.
  unfold generate_report.
  destruct (List.filter _ results); [reflexivity|]. destruct results; reflexivity.
Qed.

Lemma probes_of_list_nonneg (l : list (option Q)) :
  Forall (fun o => match o with Some x => 0 <= x | None => True end) l ->
  nonneg_probes (probes_of_list l).
Proof.
  intros H i x. unfold probes_of_list. revert i.
  induction H as [|o l Ho _ IH]; intros [|i]; cbn [nth]; try discriminate.
  - intros ->. exact Ho.
  - apply IH.
Qed.

(** *** Best fields *)

Lemma min_by_invariant {A : Type} (key : A -> Q) (t pre0 post0 : list A) (m : A) :
  (forall y, In y pre0 -> key m < key y) ->
  (forall y, In y post0 -> key m <= key y) ->
  exists pre post,
    pre0 ++ m :: post0 ++ t = pre ++ min_by key m t :: post
    /\ (forall y, In y pre -> key (min_by key m t) < key y)
    /\ (forall y, In y post -> key (min_by key m t) <= key y).
Proof.
  revert pre0 post0 m. induction t as [|y t IH]; intros pre0 post0 m Hpre Hpost.
  - exists pre0, post0. rewrite app_nil_r. auto.
  - unfold min_by. cbn [fold_left]. fold (min_by key (if Qgtb (key m) (key y) then y else m) t).
    destruct (Qgtb (key m) (key y)) eqn:E.
    + apply Qgtb_lt in E.
      destruct (IH (pre0 ++ m :: post0) [] y) as (pre & post & Heq & H1 & H2).
      * intros z Hz. apply in_app_or in Hz. destruct Hz as [Hz|[<-|Hz]].
        -- apply Qlt_trans with (key m); auto.
        -- exact E.
        -- apply Qlt_le_trans with (key m); auto.
      * intros z [].
      * exists pre, post. split; [|auto].
        rewrite <- Heq. rewrite <- !app_assoc. reflexivity.
    + apply Qgtb_le in E.
      destruct (IH pre0 (post0 ++ [y]) m) as (pre & post & Heq & H1 & H2).
      * exact Hpre.
      * intros z Hz. apply in_app_or in Hz. destruct Hz as [Hz|[<-|[]]]; auto.
      * exists pre, post. split; [|auto].
        rewrite <- Heq. rewrite <- !app_assoc. reflexivity.
Qed.

Lemma min_by_first_min (key : TestResult -> Q) (v : TestResult) (vs : list TestResult) :
  first_min key (v :: vs)
    {| best_setting := setting_name (min_by key v vs);
       best_value := key (min_by key v vs) |}.
Proof.
  destruct (min_by_invariant key vs [] [] v) as (pre & post & Heq & H1 & H2);
    [intros ? []..|].
  exists pre, (min_by key v vs), post. auto.
Qed.

(** C6, as the script has it.  The three best fields are taken over the
    results whose rounded average latency is positive, each naming the
    first of them with the least average latency, spike percentage and
    average jitter; when there is no such result the report has no analysis.
    A produced result with no successful probe is never among them, and
    every one among them had a successful probe. *)
Theorem best_fields (os : gmap string string) (results : list TestResult) :
  let valid := List.filter (fun r => Qgtb (avg_latency_ms r) 0) results in
  (valid = [] -> analysis (generate_report os results) = None)
  /\ (valid <> [] ->
      exists a,
        analysis (generate_report os results) = Some a
        /\ first_min avg_latency_ms valid (best_avg_latency a)
        /\ first_min spike_percentage valid (best_spike_rate a)
        /\ first_min avg_jitter_ms valid (best_jitter a))
  /\ (forall r, In r valid <-> In r results /\ 0 < avg_latency_ms r)
  /\ (forall r, produced r -> raw_rtts r = [] -> ~ In r valid)
  /\ (forall r, produced r -> In r valid -> raw_rtts r <> []).
Proof.
  intros valid.
  assert (forall r, In r valid <-> In r results /\ 0 < avg_latency_ms r) as Hvalid.
  { intros r. unfold valid. rewrite filter_In, Qgtb_lt. reflexivity. }
  assert (forall r, produced r -> In r valid -> raw_rtts r <> []) as Hsucc.
  { intros r Hp Hin. apply Hvalid in Hin. destruct Hin as [_ Hpos].
    destruct (produced_shape r Hp) as (_ & _ & H). exact (H Hpos). }
  split; [|split; [|split; [exact Hvalid|split; [|exact Hsucc]]]].
  - unfold generate_report. fold valid. intros ->. reflexivity.
  - unfold generate_report. fold valid. destruct valid as [|v vs]; [congruence|].
    intros _. eexists. split; [reflexivity|].
    cbn [best_avg_latency best_spike_rate best_jitter].
    repeat split; apply min_by_first_min.
  - intros r Hp Hraw Hin. exact (Hsucc r Hp Hin Hraw).
Qed.

Lemma best_fields_witness :
  match run_ping_test "Baseline" "current" (probes_of_list [Some 12; Some 18]) with
  | Returned b =>
      analysis (generate_report ∅ [b]) <> None
  | Raised _ => False
  end.
Proof.
  destruct (run_ping_test "Baseline" "current" (probes_of_list [Some 12; Some 18]))
    as [b|e] eqn:E; [|vm_compute in E; discriminate E].
  destruct (proj1 (proj2 (best_fields ∅ [b]))) as (a & Ha & _).
  - vm_compute in E. injection E as <-. vm_compute. discriminate.
  - rewrite Ha. discriminate.
Defined.

(** C6, as the specification words it, fails: an experiment whose only successful
    probe took 0.004 ms has an average latency that rounds to 0.00, so it is
    left out although it had a successful probe and a lower average latency
    than the baseline that is reported as best. *)
Lemma best_ignores_tiny_rtt :
  match run_ping_test "Baseline" "current" (probes_of_list [Some 10; Some 10]),
        run_ping_test "TCP Delayed ACK" "disabled" (probes_of_list [Some 0.004])
  with
  | Returned b, Returned x =>
      raw_rtts x <> []
      /\ (packets_lost x < packets_sent x)%nat
      /\ avg_latency_ms x < avg_latency_ms b
      /\ best_avg_latency <$> analysis (generate_report ∅ [b; x])
         = Some {| best_setting := "Baseline"; best_value := avg_latency_ms b |}
  | _, _ => False
  end.
Proof.
  vm_compute. repeat split; first [discriminate | reflexivity | repeat constructor].
Qed.

End Experiments.

(** ** The orchestrator *)

Section Orchestrator.

Import Optimizer.

(** *** Running statements *)

Lemma bind_returned {A B : Type} (c : Run A) (k : A -> Run B) w a w1 ev1 :
  c w = (Returned a, w1, ev1) ->
  bind c k w = ((k a w1).1.1, (k a w1).1.2, ev1 ++ (k a w1).2).
Proof. intros H. unfold bind. rewrite H. destruct (k a w1) as [[o w2] ev2]. reflexivity. Qed.

Lemma bind_raised {A B : Type} (c : Run A) (k : A -> Run B) w e w1 ev1 :
  c w = (Raised e, w1, ev1) -> bind c k w = (Raised e, w1, ev1).
Proof. intros H. unfold bind. rewrite H. reflexivity. Qed.

(** C7.  When the privilege check is not interrupted and fails, by sudo not
    being cached or by the check command itself failing, the process exits with status 1 before
    [save_original_states] is called: nothing has been captured, the
    registry still has no original value, and the host is untouched. *)
Theorem privilege_failure_exits_before_save (env : Env) (h : Host) :
  fault_at env 0 <> Interrupt ->
  sudo_cached h = false \/ fault_at env 0 = Failure ->
  exit_of env h = Raised (SystemExit 1)
  /\ (1 <> 0)%Z
  /\ ~ In SaveCalled (trace_of env h)
  /\ original_states (final_of env h) = ∅
  /\ settings (final_of env h) = SETTINGS
  /\ host (final_of env h) = h.
Proof.
  intros Hint Hfail.
  assert (main env (boot h) = (Raised (SystemExit 1), advance (boot h), [])) as E.
  { unfold main. apply bind_raised.
    unfold check_sudo, run_cmd. 
    destruct (fault_at env 0) eqn:F; [|contradiction|].
    - destruct Hfail as [Hs|Hf]; [|discriminate Hf].
      unfold bind, wait. cbn. rewrite F. cbn. rewrite Hs. reflexivity.
    - unfold bind, wait. cbn. rewrite F. reflexivity. }
  unfold exit_of, trace_of, final_of. rewrite E. cbn.
  repeat split; try discriminate. intros [].
Qed.

Lemma privilege_failure_exits_before_save_witness :
  exit_of silent_world
    {| sysctl := ∅; awdl0_active := true; bluetooth_on := true;
       sudo_cached := false; blueutil_installed := true |}
  = Raised (SystemExit 1).
Proof.
  apply (privilege_failure_exits_before_save silent_world).
  - discriminate.
  - left. reflexivity.
Defined.

(** *** Commands in a quiet world *)

Lemma same_object_refl w : same_object w w.
Proof. repeat split. Qed.

Lemma same_object_trans w1 w2 w3 :
  same_object w1 w2 -> same_object w2 w3 -> same_object w1 w3.
Proof.
  intros (a1 & a2 & a3 & a4 & a5 & a6) (b1 & b2 & b3 & b4 & b5 & b6).
  repeat split; congruence.
Qed.

Lemma run_cmd_quiet (env : Env) (c : Cmd) (w : World) :
  quiet env ->
  run_cmd env c w =
  (Returned (exec c (host w)).1, set_host (advance w) (exec c (host w)).2, []).
Proof.
  intros Hq. unfold run_cmd, bind, wait. rewrite Hq. cbn.
  destruct (exec c (host w)) as [res h']. reflexivity.
Qed.

Lemma bind_emit {B : Type} (ev : Event) (k : unit -> Run B) (w : World) :
  bind (emit ev) k w = ((k tt w).1.1, (k tt w).1.2, ev :: (k tt w).2).
Proof. unfold bind, emit. destruct (k tt w) as [[o w2] ev2]. reflexivity. Qed.

Lemma bind_gets {A B : Type} (f : World -> A) (k : A -> Run B) (w : World) :
  bind (gets f) k w = k (f w) w.
Proof. unfold bind, gets. destruct (k (f w) w) as [[o w2] ev2]. reflexivity. Qed.

Lemma bind_ret {A B : Type} (a : A) (k : A -> Run B) (w : World) :
  bind (ret a) k w = k a w.
Proof. unfold bind, ret. destruct (k a w) as [[o w2] ev2]. reflexivity. Qed.

Lemma bind_modify {B : Type} (f : World -> World) (k : unit -> Run B) (w : World) :
  bind (modify f) k w = k tt (f w).
Proof. unfold bind, modify. destruct (k tt (f w)) as [[o w2] ev2]. reflexivity. Qed.

Lemma bind_assoc {A B C : Type} (c : Run A) (k1 : A -> Run B) (k2 : B -> Run C)
    (w : World) :
  bind (bind c k1) k2 w = bind c (fun a => bind (k1 a) k2) w.
Proof.
  unfold bind. destruct (c w) as [[[a|e] w1] ev1]; [|reflexivity].
  destruct (k1 a w1) as [[[b|e] w2] ev2]; [|reflexivity].
  destruct (k2 b w2) as [[o w3] ev3]. rewrite app_assoc. reflexivity.
Qed.

Lemma bind_silent {A B : Type} (c : Run A) (k : A -> Run B) w a w1 :
  c w = (Returned a, w1, []) -> bind c k w = k a w1.
Proof.
  intros H. unfold bind. rewrite H. destruct (k a w1) as [[o w2] ev2]. reflexivity.
Qed.

Lemma bind_run_cmd_quiet {B : Type} (env : Env) (c : Cmd) (k : string * Z -> Run B)
    (w : World) :
  quiet env ->
  bind (run_cmd env c) k w =
  k (exec c (host w)).1 (set_host (advance w) (exec c (host w)).2).
Proof. intros Hq. apply bind_silent, run_cmd_quiet, Hq. Qed.

Lemma waiting_quiet (env : Env) (w : World) :
  quiet env -> waiting env w = (Returned tt, advance w, []).
Proof. intros Hq. unfold waiting, bind, wait. rewrite Hq. reflexivity. Qed.

Lemma report_quiet (env : Env) (w : World) :
  quiet env ->
  call_generate_report env w =
  (Returned tt,
   advance
     (set_report_file (advance (set_report_created (advance w)))
        (generate_report (original_states w) (results w))),
   [ReportCalled]).
Proof.
  intros Hq. unfold call_generate_report.
  rewrite bind_emit, (bind_silent _ _ _ _ _ (waiting_quiet env w Hq)), bind_modify.
  rewrite (bind_silent _ _ _ _ _ (waiting_quiet env _ Hq)), bind_modify.
  rewrite waiting_quiet by assumption. reflexivity.
Qed.

Lemma restore_setting_quiet (env : Env) (s : SettingState) (w : World) :
  quiet env ->
  exists w',
    restore_setting env s w = (Returned tt, w', [])
    /\ host w' = run_cmds (omap restore_cmd [s]) (host w)
    /\ same_object w w'.
Proof.
  intros Hq. unfold restore_setting. cbn [omap list_omap].
  unfold restore_cmd.
  destruct (original_value s) as [v|]; [|exists w; repeat split].
  destruct (String.eqb (name s) "TCP Delayed ACK").
  { rewrite bind_run_cmd_quiet by assumption. eexists. repeat split. }
  destruct (String.eqb (name s) "TCP Send/Recv Autotuning").
  { rewrite bind_run_cmd_quiet by assumption. eexists. repeat split. }
  exists w. repeat split.
Qed.

Lemma run_cmds_app (l1 l2 : list Cmd) (h : Host) :
  run_cmds (l1 ++ l2) h = run_cmds l2 (run_cmds l1 h).
Proof. apply fold_left_app. Qed.

Lemma restore_loop_quiet (env : Env) (ss : list SettingState) (w : World) :
  quiet env ->
  exists w',
    for_each ss (restore_setting env) w = (Returned tt, w', [])
    /\ host w' = run_cmds (omap restore_cmd ss) (host w)
    /\ same_object w w'.
Proof.
  intros Hq. revert w. induction ss as [|s ss IH]; intros w.
  - exists w. repeat split.
  - destruct (restore_setting_quiet env s w Hq) as (w1 & E1 & H1 & F1).
    destruct (IH w1) as (w2 & E2 & H2 & F2).
    exists w2. split; [|split].
    + cbn [for_each]. rewrite (bind_silent _ _ _ _ _ E1). exact E2.
    + rewrite H2, H1. change (omap restore_cmd (s :: ss))
        with (omap restore_cmd ([s] ++ ss)).
      rewrite omap_app, run_cmds_app. reflexivity.
    + eapply same_object_trans; eassumption.
Qed.

Lemma restore_quiet (env : Env) (w : World) :
  quiet env ->
  exists w',
    restore_original_states env w = (Returned tt, w', [RestoreCalled])
    /\ host w' = run_cmds (restore_cmds w) (host w)
    /\ same_object w w'.
Proof.
  intros Hq. unfold restore_original_states, restore_cmds.
  destruct (restore_loop_quiet env (settings w) w Hq) as (w1 & E1 & H1 & F1).
  destruct F1 as (Fs & Fr & Fo & Fb & Ff & Fc).
  rewrite bind_emit, bind_gets, (bind_silent _ _ _ _ _ E1), bind_gets, Fo.
  rewrite !run_cmds_app, <- H1.
  destruct (bool_decide (original_states w !! "AWDL" = Some "on"));
    rewrite ?bind_assoc, ?bind_run_cmd_quiet, ?bind_ret, bind_gets by assumption;
    cbn [has_blueutil set_host advance]; rewrite Fb;
    destruct (has_blueutil w) eqn:Ehb;
    rewrite ?bind_run_cmd_quiet by assumption;
    cbn [fst snd ret];
    (eexists; split; [reflexivity|]; split; [reflexivity|];
     repeat split; cbn; congruence).
Qed.

(** *** What the writes do to the host *)

Lemma exec_sysctl_write (k v : string) (h : Host) :
  (exec (SysctlWrite k v) h).2 =
  if bool_decide (is_Some (sysctl h !! k)) && sudo_cached h
  then set_sysctl h k v else h.
Proof.
  unfold exec. destruct (sysctl h !! k) eqn:E.
  - rewrite bool_decide_eq_true_2 by eauto. destruct (sudo_cached h); reflexivity.
  - rewrite bool_decide_eq_false_2 by (intros [? [=]]). reflexivity.
Qed.

Lemma exec_awdl0_set (up : bool) (h : Host) :
  (exec (IfconfigAwdl0Set up) h).2 = if sudo_cached h then set_awdl0 h up else h.
Proof. unfold exec. destruct (sudo_cached h); reflexivity. Qed.

Lemma exec_blueutil_set (v : string) (h : Host) :
  (exec (BlueutilPowerSet v) h).2 =
  if blueutil_installed h
  then if String.eqb v "1" then set_bluetooth h true
       else if String.eqb v "0" then set_bluetooth h false else h
  else h.
Proof.
  unfold exec. destruct (blueutil_installed h); [|reflexivity].
  destruct (String.eqb v "1"); [reflexivity|].
  destruct (String.eqb v "0"); reflexivity.
Qed.

Ltac host_simpl :=
  repeat (cbn [andb sysctl awdl0_active bluetooth_on sudo_cached blueutil_installed
               set_sysctl set_awdl0 set_bluetooth];
          match goal with
          | H : ?x = _ |- context [?x] => rewrite H
          end);
  cbn [andb sysctl awdl0_active bluetooth_on sudo_cached blueutil_installed
       set_sysctl set_awdl0 set_bluetooth].

Ltac host_cases h :=
  destruct (sudo_cached h) eqn:?, (blueutil_installed h) eqn:?;
  repeat match goal with
    | |- context [bool_decide (is_Some (sysctl h !! ?k))] =>
        destruct (bool_decide (is_Some (sysctl h !! k))) eqn:?
    | |- context [String.eqb ?a ?b] => destruct (String.eqb a b) eqn:?
    end;
  try match goal with
      | H : false = true |- _ => discriminate H
      | H : true = false |- _ => discriminate H
      end;
  host_simpl; reflexivity.

Lemma exec_write_idem (c : Cmd) (h : Host) :
  is_write c = true -> (exec c (exec c h).2).2 = (exec c h).2.
Proof.
  destruct c as [| |?|k v| |up| |bv|]; try discriminate; intros _.
  - rewrite !exec_sysctl_write.
    destruct (bool_decide (is_Some (sysctl h !! k)) && sudo_cached h) eqn:E;
      [|rewrite E; reflexivity].
    cbn [set_sysctl sysctl sudo_cached]. rewrite lookup_insert_eq.
    rewrite bool_decide_eq_true_2 by eauto.
    apply andb_true_iff in E. destruct E as [_ ->]. cbn [andb].
    unfold set_sysctl. cbn [sysctl awdl0_active bluetooth_on sudo_cached
      blueutil_installed]. rewrite insert_insert_eq. reflexivity.
  - rewrite !exec_awdl0_set.
    destruct (sudo_cached h) eqn:E; cbn [set_awdl0 sudo_cached]; rewrite E; reflexivity.
  - rewrite !exec_blueutil_set.
    destruct (blueutil_installed h) eqn:E; [|rewrite E; reflexivity].
    destruct (String.eqb bv "1"); [cbn [set_bluetooth blueutil_installed]; rewrite E; reflexivity|].
    destruct (String.eqb bv "0"); cbn [set_bluetooth blueutil_installed]; rewrite E; reflexivity.
Qed.

Lemma sysctl_present_after (k k' v : string) (h : Host) :
  bool_decide (is_Some (sysctl (set_sysctl h k v) !! k'))
  = bool_decide (is_Some (sysctl h !! k')) || bool_decide (k = k').
Proof.
  cbn [set_sysctl sysctl]. destruct (decide (k = k')) as [->|Hne].
  - rewrite lookup_insert_eq, (bool_decide_eq_true_2 (k' = k')) by reflexivity.
    rewrite orb_true_r. apply bool_decide_eq_true_2. eauto.
  - rewrite lookup_insert_ne by assumption.
    rewrite (bool_decide_eq_false_2 (k = k')) by assumption.
    rewrite orb_false_r. reflexivity.
Qed.

(** Two writes either commute or the later one hides the earlier one. *)
Lemma exec_write_swap (c d : Cmd) (h : Host) :
  is_write c = true -> is_write d = true ->
  (exec d (exec c h).2).2 = (exec c (exec d h).2).2
  \/ (exec d (exec c h).2).2 = (exec d h).2.
Proof.
  destruct c as [| |?|k v| |up| |bv|]; try discriminate;
  destruct d as [| |?|k' v'| |up'| |bv'|]; try discriminate; intros _ _;
  rewrite ?exec_sysctl_write, ?exec_awdl0_set, ?exec_blueutil_set.
  - (* sysctl, sysctl *)
    destruct (bool_decide (is_Some (sysctl h !! k)) && sudo_cached h) eqn:E;
    destruct (bool_decide (is_Some (sysctl h !! k')) && sudo_cached h) eqn:E';
      rewrite ?exec_sysctl_write, ?sysctl_present_after; cbn [set_sysctl sudo_cached];
      rewrite ?E, ?E'.
    + destruct (decide (k = k')) as [<-|Hne].
      * right. rewrite (bool_decide_eq_true_2 (k = k)), orb_true_r by reflexivity.
        apply andb_true_iff in E. destruct E as [_ ->]. cbn [andb].
        unfold set_sysctl. cbn [sysctl awdl0_active bluetooth_on sudo_cached
          blueutil_installed]. rewrite insert_insert_eq. reflexivity.
      * left. rewrite (bool_decide_eq_false_2 (k = k')), (bool_decide_eq_false_2 (k' = k)),
          !orb_false_r, E, E' by (first [assumption | intros ?; subst; exact (Hne eq_refl)]).
        unfold set_sysctl. cbn [sysctl awdl0_active bluetooth_on sudo_cached
          blueutil_installed]. f_equal. apply insert_insert_ne. intros ?; subst; exact (Hne eq_refl).
    + left. destruct (decide (k = k')) as [<-|Hne]; [rewrite E in E'; discriminate|].
      rewrite (bool_decide_eq_false_2 (k = k')), orb_false_r, E' by (first [assumption | intros ?; subst; exact (Hne eq_refl)]).
      reflexivity.
    + left. destruct (decide (k = k')) as [<-|Hne]; [rewrite E in E'; discriminate|].
      rewrite (bool_decide_eq_false_2 (k' = k)), orb_false_r, E by (first [assumption | intros ?; subst; exact (Hne eq_refl)]).
      reflexivity.
    + left. reflexivity.
  - left. host_cases h.
  - left. host_cases h.
  - left. host_cases h.
  - right. host_cases h.
  - left. host_cases h.
  - left. host_cases h.
  - left. host_cases h.
  - destruct (String.eqb bv' "1") eqn:E1'; [right; host_cases h |].
    destruct (String.eqb bv' "0") eqn:E0'; [right; host_cases h |].
    left. host_cases h.
Qed.

Lemma run_cmds_absorb (cmds : list Cmd) (c : Cmd) (h : Host) :
  Forall (fun d => is_write d = true) cmds -> is_write c = true ->
  (exec c (run_cmds cmds (exec c h).2)).2 = (exec c (run_cmds cmds h)).2.
Proof.
  intros Hw Hc. revert h. induction Hw as [|d rest Hd _ IH]; intros h.
  - apply exec_write_idem, Hc.
  - cbn [run_cmds fold_left]. fold (run_cmds rest (exec d (exec c h).2).2).
    fold (run_cmds rest (exec d h).2).
    destruct (exec_write_swap c d h Hc Hd) as [E|E]; rewrite E.
    + apply IH.
    + reflexivity.
Qed.

Lemma run_cmds_idem (cmds : list Cmd) (h : Host) :
  Forall (fun d => is_write d = true) cmds ->
  run_cmds cmds (run_cmds cmds h) = run_cmds cmds h.
Proof.
  induction cmds as [|c cmds IH] using rev_ind; intros Hw; [reflexivity|].
  apply Forall_app in Hw. destruct Hw as [Hw Hc].
  apply Forall_inv in Hc.
  rewrite !run_cmds_app. cbn [run_cmds fold_left].
  fold (run_cmds cmds (exec c (run_cmds cmds h)).2).
  rewrite run_cmds_absorb by assumption. rewrite IH by assumption. reflexivity.
Qed.

Lemma restore_cmd_write (s : SettingState) (c : Cmd) :
  restore_cmd s = Some c -> is_write c = true.
Proof.
  unfold restore_cmd. destruct (original_value s); [|discriminate].
  repeat (destruct (String.eqb _ _)); intros [= <-]; reflexivity.
Qed.

Lemma restore_cmds_write (w : World) :
  Forall (fun d => is_write d = true) (restore_cmds w).
Proof.
  unfold restore_cmds. rewrite !Forall_app. repeat split.
  - induction (settings w) as [|s ss IH]; [constructor|].
    cbn [omap list_omap]. destruct (restore_cmd s) eqn:E; [|exact IH].
    constructor; [exact (restore_cmd_write s c E) | exact IH].
  - destruct (bool_decide _); repeat constructor.
  - destruct (has_blueutil w); repeat constructor.
Qed.

(** C9.  In a world that does not disturb it, [restore_original_states]
    called twice in a row leaves the host as one call does, whatever was
    captured; the captured state itself is not changed by either call. *)
Theorem restore_idempotent (env : Env) (w : World) :
  quiet env ->
  let once := restore_original_states env w in
  let twice := restore_original_states env once.1.2 in
  once.1.1 = Returned tt /\ twice.1.1 = Returned tt
  /\ host twice.1.2 = host once.1.2
  /\ original_states twice.1.2 = original_states w
  /\ settings twice.1.2 = settings w.
Proof.
  intros Hq once twice. subst once twice.
  destruct (restore_quiet env w Hq) as (w1 & E1 & H1 & F1). rewrite E1. cbn [fst snd].
  destruct (restore_quiet env w1 Hq) as (w2 & E2 & H2 & F2). rewrite E2. cbn [fst snd].
  destruct F1 as (Fs & Fr & Fo & Fb & Ff & Fc). destruct F2 as (Gs & Gr & Go & Gb & Gf & Gc).
  repeat split; try congruence.
  rewrite H2, H1.
  assert (restore_cmds w1 = restore_cmds w) as ->
    by (unfold restore_cmds; rewrite Fs, Fo, Fb; reflexivity).
  apply run_cmds_idem, restore_cmds_write.
Qed.

Lemma restore_idempotent_witness :
  let w := set_captured (boot (macbook false false true))
             (captured_registry "3" "1")
             (<["Bluetooth" := "on"]> (<["AWDL" := "on"]> ∅)) in
  let once := restore_original_states silent_world w in
  host (restore_original_states silent_world once.1.2).1.2 = host once.1.2.
Proof.
  intros w once.
  apply (restore_idempotent silent_world w). intros t. reflexivity.
Defined.

(** *** Whole runs in a quiet world *)

Lemma runs_ret {A : Type} (hb : bool) (a : A) : runs hb (ret a) [].
Proof. intros w H. exists a, w. split; [reflexivity | exact H]. Qed.

Lemma runs_emit (hb : bool) (ev : Event) : runs hb (emit ev) [ev].
Proof. intros w H. exists tt, w. split; [reflexivity | exact H]. Qed.

Lemma runs_gets {A : Type} (hb : bool) (f : World -> A) : runs hb (gets f) [].
Proof. intros w H. exists (f w), w. split; [reflexivity | exact H]. Qed.

Lemma runs_modify (hb : bool) (f : World -> World) :
  (forall w, has_blueutil (f w) = has_blueutil w) -> runs hb (modify f) [].
Proof.
  intros Hf w H. exists tt, (f w). split; [reflexivity | rewrite Hf; exact H].
Qed.

Lemma runs_bind {A B : Type} (hb : bool) (c : Run A) (k : A -> Run B)
    (e1 e2 : list Event) :
  runs hb c e1 -> (forall a, runs hb (k a) e2) -> runs hb (bind c k) (e1 ++ e2).
Proof.
  intros Hc Hk w H. destruct (Hc w H) as (a & w1 & E1 & H1).
  destruct (Hk a w1 H1) as (b & w2 & E2 & H2).
  exists b, w2. split; [|exact H2]. unfold bind. rewrite E1, E2. reflexivity.
Qed.

Lemma runs_bind_hb {B : Type} (hb : bool) (k : bool -> Run B) (e : list Event) :
  runs hb (k hb) e -> runs hb (bind (gets has_blueutil) k) e.
Proof.
  intros Hk w H. destruct (Hk w H) as (b & w2 & E2 & H2).
  exists b, w2. split; [|exact H2]. rewrite bind_gets, H. exact E2.
Qed.

Lemma runs_if {A : Type} (hb b : bool) (c1 c2 : Run A) (e1 e2 : list Event) :
  runs hb c1 e1 -> runs hb c2 e2 ->
  runs hb (if b then c1 else c2) (if b then e1 else e2).
Proof. destruct b; auto. Qed.

Lemma runs_for_each {A : Type} (hb : bool) (l : list A) (f : A -> Run unit) :
  (forall x, runs hb (f x) []) -> runs hb (for_each l f) [].
Proof.
  intros Hf. induction l as [|x l IH]; [apply runs_ret|].
  cbn [for_each]. change (@nil Event) with (@nil Event ++ []).
  apply runs_bind; [apply Hf | intros _; exact IH].
Qed.

Lemma runs_try_finally {A : Type} (hb : bool) (body : Run A) (cleanup : Run unit)
    (e1 e2 : list Event) :
  runs hb body e1 -> runs hb cleanup e2 ->
  runs hb (try_finally body cleanup) (e1 ++ e2).
Proof.
  intros Hb Hc w H. destruct (Hb w H) as (a & w1 & E1 & H1).
  destruct (Hc w1 H1) as (u & w2 & E2 & H2).
  exists a, w2. split; [|exact H2]. unfold try_finally. rewrite E1, E2. reflexivity.
Qed.

Section Quiet.

Variable env : Env.
Hypothesis Hq : quiet env.

Lemma runs_run_cmd (hb : bool) (c : Cmd) : runs hb (run_cmd env c) [].
Proof.
  intros w H. rewrite (run_cmd_quiet env c w Hq). do 2 eexists.
  split; [reflexivity | exact H].
Qed.

Lemma runs_sleep (hb : bool) (s : Q) : runs hb (sleep env s) [Slept s].
Proof.
  intros w H. unfold sleep, bind, wait. rewrite Hq. cbn.
  do 2 eexists. split; [reflexivity | exact H].
Qed.

Lemma runs_ping (hb : bool) (label value : string) :
  runs hb (call_run_ping_test env label value) [PingTestCalled label value].
Proof.
  intros w H. unfold call_run_ping_test.
  rewrite bind_emit, bind_gets. unfold bind, wait. rewrite Hq. cbn.
  destruct (run_ping_test_total label value (pings env (clock w))) as (r & Hr & _).
  rewrite Hr. do 2 eexists. split; [reflexivity | exact H].
Qed.

Lemma runs_report (hb : bool) : runs hb (call_generate_report env) [ReportCalled].
Proof.
  intros w H. rewrite (report_quiet env w Hq).
  do 2 eexists. split; [reflexivity | exact H].
Qed.

Ltac runs_step :=
  first
    [ apply runs_ret | apply runs_emit | apply runs_gets | apply runs_run_cmd
    | apply runs_sleep | apply runs_ping
    | apply runs_modify; intros ?; reflexivity
    | eapply runs_bind_hb
    | eapply runs_bind; [|intros ?]
    | eapply runs_if
    | match goal with
      | x : (_ * _)%type |- _ => destruct x
      | |- runs _ (match ?x with _ => _ end) _ => destruct x
      end ].

Lemma runs_get_awdl_state (hb : bool) : runs hb (get_awdl_state env) [].
Proof.
  unfold get_awdl_state. change (@nil Event) with (@nil Event ++ []).
  eapply runs_bind; [apply runs_run_cmd|]. intros [output code]. apply runs_ret.
Qed.

Lemma runs_get_bluetooth_state (hb : bool) : runs hb (get_bluetooth_state env) [].
Proof.
  unfold get_bluetooth_state. change (@nil Event) with (@nil Event ++ []).
  eapply runs_bind; [apply runs_run_cmd|]. intros [output code].
  destruct (Z.eqb code 0); [apply runs_ret|].
  change (@nil Event) with (@nil Event ++ []).
  eapply runs_bind; [apply runs_run_cmd|]. intros [output' code']. apply runs_ret.
Qed.

Lemma runs_save_setting (hb : bool) (i : nat) : runs hb (save_setting env i) [].
Proof.
  unfold save_setting. intros w H. rewrite bind_gets.
  destruct (settings w !! i) as [setting|]; [|exists tt, w; split; [reflexivity|exact H]].
  rewrite (bind_run_cmd_quiet env _ _ w Hq).
  destruct (exec (get_cmd setting) (host w)) as [[output code] h'].
  do 2 eexists. split; [reflexivity | exact H].
Qed.

Lemma runs_save (hb : bool) : runs hb (save_original_states env) [SaveCalled].
Proof.
  unfold save_original_states.
  change [SaveCalled] with ([SaveCalled] ++ [] ++ [] ++ [] ++ [] ++ []).
  apply runs_bind; [apply runs_emit | intros _].
  apply runs_bind; [apply runs_for_each, runs_save_setting | intros _].
  apply runs_bind; [apply runs_get_awdl_state | intros awdl].
  apply runs_bind; [apply runs_modify; intros ?; reflexivity | intros _].
  apply runs_bind; [apply runs_get_bluetooth_state | intros bt].
  apply runs_modify. intros ?. reflexivity.
Qed.

Lemma runs_restore (hb : bool) :
  runs hb (restore_original_states env) [RestoreCalled].
Proof.
  intros w H. destruct (restore_quiet env w Hq) as (w' & E & _ & F).
  exists tt, w'. split; [exact E|]. destruct F as (_ & _ & _ & -> & _). exact H.
Qed.

Lemma runs_apply_setting (hb : bool) (nm : string) (enable : bool) :
  exists evs,
    runs hb (apply_setting env nm enable) evs
    /\ evs = ApplyCalled nm enable ::
             (if String.eqb nm "Bluetooth" && hb then [Slept 2] else []).
Proof.
  unfold apply_setting. eexists. split.
  - eapply runs_bind; [apply runs_emit | intros _].
    eapply runs_if; [repeat runs_step|].
    eapply runs_if; [repeat runs_step|].
    eapply runs_if; [repeat runs_step|].
    eapply runs_if; [|apply runs_ret].
    eapply runs_bind_hb. eapply runs_if; repeat runs_step.
  - cbn [app]. f_equal.
    destruct (String.eqb nm "TCP Delayed ACK") eqn:E1;
      [apply String.eqb_eq in E1; subst; reflexivity|].
    destruct (String.eqb nm "TCP Send/Recv Autotuning") eqn:E2;
      [apply String.eqb_eq in E2; subst; reflexivity|].
    destruct (String.eqb nm "AWDL") eqn:E3;
      [apply String.eqb_eq in E3; subst; reflexivity|].
    destruct (String.eqb nm "Bluetooth"), hb; reflexivity.
Qed.

Lemma runs_append_result (hb : bool) (r : TestResult) : runs hb (append_result r) [].
Proof. apply runs_modify. intros ?. reflexivity. Qed.

Lemma runs_apply (hb : bool) (nm : string) (enable : bool) :
  runs hb (apply_setting env nm enable)
    (ApplyCalled nm enable ::
     (if String.eqb nm "Bluetooth" && hb then [Slept 2] else [])).
Proof.
  destruct (runs_apply_setting hb nm enable) as (evs & H & ->). exact H.
Qed.

Ltac step :=
  first
    [ apply runs_append_result | apply runs_apply | apply runs_ping
    | apply runs_sleep | apply runs_ret | apply runs_save | apply runs_restore
    | apply runs_report
    | eapply runs_bind_hb
    | eapply runs_bind; [|intros ?]
    | eapply runs_try_finally
    | eapply runs_if ].

Lemma runs_run_all_tests (hb : bool) :
  exists evs,
    runs hb (run_all_tests env) evs
    /\ evs = [SaveCalled] ++ quiet_battery hb ++ [RestoreCalled; ReportCalled].
Proof.
  unfold run_all_tests. eexists. split.
  - repeat step.
  - destruct hb; reflexivity.
Qed.

End Quiet.

Lemma check_sudo_quiet (env : Env) (w : World) :
  quiet env -> sudo_cached (host w) = true ->
  check_sudo env w = (Returned tt, advance w, []).
Proof.
  intros Hq Hs. unfold check_sudo. rewrite bind_run_cmd_quiet by assumption.
  cbn. rewrite Hs. destruct w; reflexivity.
Qed.

Lemma init_quiet (env : Env) (w : World) :
  quiet env ->
  exists w',
    __init__ env w = (Returned tt, w', [])
    /\ has_blueutil w' = blueutil_installed (host w).
Proof.
  intros Hq. unfold __init__, _check_blueutil.
  rewrite bind_modify, bind_assoc, bind_run_cmd_quiet by assumption.
  cbn [exec host set_captured set_results].
  destruct (blueutil_installed (host w)); cbn; eexists; split; reflexivity.
Qed.

(** C4, as [run_all_tests] has it.  Undisturbed and with sudo cached, the run
    captures the state, then probes in a fixed order: the baseline; TCP
    Delayed ACK disabled, probed, re-enabled; AWDL disabled, probed,
    re-enabled; Bluetooth likewise when blueutil is installed; then TCP
    Delayed ACK, AWDL and, with blueutil, Bluetooth disabled together and
    probed; then the restoration and the report.  The registry entry TCP
    Send/Recv Autotuning is never applied. *)
Theorem battery_order (env : Env) (h : Host) :
  quiet env -> sudo_cached h = true ->
  exit_of env h = Returned tt
  /\ trace_of env h =
     [SaveCalled] ++ quiet_battery (blueutil_installed h)
     ++ [RestoreCalled; ReportCalled]
  /\ (forall enable,
        ~ In (ApplyCalled "TCP Send/Recv Autotuning" enable) (trace_of env h)).
Proof.
  intros Hq Hs.
  assert (main env (boot h) = (Returned tt, (main env (boot h)).1.2,
            [SaveCalled] ++ quiet_battery (blueutil_installed h)
            ++ [RestoreCalled; ReportCalled])) as E.
  { unfold main.
    rewrite (bind_silent _ _ _ _ _ (check_sudo_quiet env (boot h) Hq Hs)).
    destruct (init_quiet env (advance (boot h)) Hq) as (w' & Ei & Hb).
    rewrite (bind_silent _ _ _ _ _ Ei).
    destruct (runs_run_all_tests env Hq (blueutil_installed h)) as (evs & Hr & ->).
    destruct (Hr w' Hb) as ([] & w'' & Er & _).
    unfold try_except_KeyboardInterrupt. rewrite Er. reflexivity. }
  unfold exit_of, trace_of. rewrite E. cbn [fst snd].
  split; [reflexivity|]. split; [reflexivity|].
  intros enable Hin. destruct (blueutil_installed h), enable; cbn in Hin;
    repeat (destruct Hin as [Hin|Hin]; [discriminate Hin|]); exact Hin.
Qed.

Lemma battery_order_witness :
  trace_of silent_world (macbook true true false) =
  [SaveCalled;
   PingTestCalled "Baseline" "current";
   ApplyCalled "TCP Delayed ACK" false;
   PingTestCalled "TCP Delayed ACK" "disabled";
   ApplyCalled "TCP Delayed ACK" true;
   ApplyCalled "AWDL" false; Slept 1;
   PingTestCalled "AWDL" "disabled";
   ApplyCalled "AWDL" true;
   ApplyCalled "TCP Delayed ACK" false; ApplyCalled "AWDL" false; Slept 1;
   PingTestCalled "All Optimizations" "enabled";
   RestoreCalled; ReportCalled].
Proof.
  apply (proj1 (proj2 (battery_order silent_world (macbook true true false)
                         (fun t => eq_refl) eq_refl))).
Defined.

(** C4, as the specification words it, fails: TCP Send/Recv Autotuning is
    in the registry but is never disabled nor probed, so the steps of a run
    are not the battery drawn from the registry, with or without the two
    toggles kept outside it. *)
Lemma battery_skips_autotuning :
  let tr := trace_of silent_world (macbook true true true) in
  In "TCP Send/Recv Autotuning" (map name SETTINGS)
  /\ ~ In (PingTestCalled "TCP Send/Recv Autotuning" "disabled") tr
  /\ ~ In (ApplyCalled "TCP Send/Recv Autotuning" false) tr
  /\ List.filter is_experiment_step tr <> battery_by_registry (map name SETTINGS)
  /\ List.filter is_experiment_step tr <>
     battery_by_registry (map name SETTINGS ++ ["AWDL"; "Bluetooth"]).
Proof.
  split; [right; left; reflexivity|].
  assert (trace_of silent_world (macbook true true true) =
          [SaveCalled] ++ quiet_battery true ++ [RestoreCalled; ReportCalled]) as E
    by (vm_compute; reflexivity).
  cbv zeta. rewrite E. repeat split.
  - intros Hin. cbn in Hin.
    repeat (destruct Hin as [Hin|Hin]; [discriminate Hin|]). exact Hin.
  - intros Hin. cbn in Hin.
    repeat (destruct Hin as [Hin|Hin]; [discriminate Hin|]). exact Hin.
  - cbn. discriminate.
  - cbn. discriminate.
Qed.

(** *** Any world: what is called, and what can end a statement early *)









































(** The three ways a run can end, each with the restoration called. *)
Example three_endings :
  (let h := macbook true true true in
   exit_of silent_world h = Returned tt
   /\ In RestoreCalled (trace_of silent_world h))
  /\ (let h := macbook true true true in
      exit_of (failing_at 6) h = Raised RuntimeError
      /\ trace_of (failing_at 6) h =
         [SaveCalled; PingTestCalled "Baseline" "current"; RestoreCalled])
  /\ (let h := macbook true true true in
      exit_of (interrupted_at [6%nat]) h = Raised (SystemExit 1)
      /\ trace_of (interrupted_at [6%nat]) h =
         [SaveCalled; PingTestCalled "Baseline" "current";
          RestoreCalled; RestoreCalled]).
Proof.
  vm_compute. repeat split; auto 30.
Qed.

End Orchestrator.

(** ** Ping output *)

Section PingOutputFacts.

Import PingOutput.

Lemma float_nonneg (g : string) (x : Q) : float g = Returned x -> 0 <= x.
Proof.
  unfold float. destruct (drop_while is_digit g) as [|c frac].
  - destruct (take_while is_digit g); [discriminate|]. intros [= <-].
    unfold Qle. simpl. lia.
  - destruct (_ && _); [|discriminate]. intros [= <-]. unfold Qle. simpl. lia.
Qed.

Lemma search_none (s : string) :
  Optimizer.contains "time=" s = false -> search s = None.
Proof.
  induction s as [|c t IH]; [reflexivity|].
  intros H. cbn [Optimizer.contains] in H. apply orb_false_iff in H.
  destruct H as [Hp Ht]. cbn [search]. rewrite Hp. apply IH, Ht.
Qed.

Lemma append_cons (c : ascii) (s t : string) :
  (String c s ++ t)%string = String c (s ++ t).
Proof. reflexivity. Qed.

Lemma prefix_time_append (pre rest : string) :
  Optimizer.contains "time=" pre = false ->
  pre <> ""%string ->
  String.prefix "time=" (pre ++ "time=" ++ rest) = false.
Proof.
  intros Hc Hne.
  assert (String.prefix "time=" pre = false) as Hp.
  { destruct pre as [|c p]; [contradiction|].
    cbn [Optimizer.contains] in Hc. apply orb_false_iff in Hc. apply Hc. }
  clear Hc.
  destruct pre as [|c1 [|c2 [|c3 [|c4 [|c5 p]]]]]; [contradiction|..];
    rewrite ?append_cons; cbn [String.prefix] in Hp |- *;
    repeat match goal with
      | |- context [ascii_dec ?a ?b] => destruct (ascii_dec a b) as [<-|?]
      | H : context [ascii_dec ?a ?b] |- _ => destruct (ascii_dec a b) as [<-|?]
      end;
    try reflexivity; try discriminate; try exact Hp.
  all: try (destruct p; discriminate Hp).
Qed.

Lemma search_here (X : string) :
  search ("time=" ++ X) =
  match take_while in_class X with
  | EmptyString => search X
  | String a b => Some (String a b)
  end.
Proof. destruct X; reflexivity. Qed.

Lemma search_found (pre g rest : string) :
  Optimizer.contains "time=" pre = false ->
  g <> ""%string -> take_while in_class (g ++ rest) = g ->
  search (pre ++ "time=" ++ g ++ rest) = Some g.
Proof.
  intros Hc Hg Ht. induction pre as [|c p IH].
  - change ("" ++ "time=" ++ g ++ rest)%string with ("time=" ++ g ++ rest)%string.
    rewrite search_here, Ht. destruct g; [contradiction | reflexivity].
  - pose proof (prefix_time_append (String c p) (g ++ rest) Hc ltac:(discriminate)) as Hp.
    rewrite append_cons in Hp |- *. cbn [search]. rewrite Hp.
    apply IH. cbn [Optimizer.contains] in Hc. apply orb_false_iff in Hc. apply Hc.
Qed.

Lemma digits_then_dot (a rest : string) :
  all_digits a = true ->
  take_while is_digit (a ++ "." ++ rest) = a
  /\ drop_while is_digit (a ++ "." ++ rest) = String "." rest.
Proof.
  unfold all_digits. induction a as [|c a IH]; intros H; [split; reflexivity|].
  cbn [drop_while] in H. destruct (is_digit c) eqn:E; [|discriminate].
  destruct (IH H) as [IH1 IH2]. rewrite append_cons.
  cbn [take_while drop_while]. rewrite E, IH1, IH2. split; reflexivity.
Qed.

Lemma all_digits_whole (a : string) :
  all_digits a = true -> take_while is_digit a = a /\ drop_while is_digit a = ""%string.
Proof.
  unfold all_digits. induction a as [|c a IH]; intros H; [split; reflexivity|].
  cbn [drop_while] in H. destruct (is_digit c) eqn:E; [|discriminate].
  destruct (IH H) as [IH1 IH2]. cbn [take_while drop_while]. rewrite E, IH1, IH2.
  split; reflexivity.
Qed.

Lemma float_decimal (a b : string) :
  all_digits a = true -> all_digits b = true -> (a ++ b)%string <> ""%string ->
  float (a ++ "." ++ b)
  = Returned (Z.of_N (digits_value (a ++ b)) # pow10 (String.length b)).
Proof.
  intros Ha Hb Hne. unfold float.
  destruct (digits_then_dot a b Ha) as [-> ->]. rewrite Hb.
  cbn [Ascii.eqb Bool.eqb andb].
  destruct (String.eqb a "" && String.eqb b "") eqn:E; [|reflexivity].
  apply andb_true_iff in E. destruct E as [E1 E2].
  apply String.eqb_eq in E1, E2. subst. contradiction.
Qed.

Lemma float_whole (a : string) :
  all_digits a = true -> a <> ""%string ->
  float a = Returned (inject_Z (Z.of_N (digits_value a))).
Proof.
  intros Ha Hne. unfold float. destruct (all_digits_whole a Ha) as [-> ->].
  destruct a; [contradiction | reflexivity].
Qed.

Lemma float_two_dots (a b c : string) :
  all_digits a = true -> all_digits b = true ->
  float (a ++ "." ++ b ++ "." ++ c) = Raised ValueError.
Proof.
  intros Ha Hb. unfold float.
  destruct (digits_then_dot a (b ++ "." ++ c) Ha) as [-> ->].
  unfold all_digits at 1. destruct (digits_then_dot b c Hb) as [_ ->].
  cbn [Ascii.eqb Bool.eqb andb]. reflexivity.
Qed.

Lemma take_while_class (g rest : string) :
  drop_while in_class g = ""%string -> take_while in_class rest = ""%string ->
  take_while in_class (g ++ rest) = g.
Proof.
  intros Hg Hr. induction g as [|c g IH]; [exact Hr|].
  cbn [drop_while] in Hg. destruct (in_class c) eqn:E; [|discriminate].
  rewrite append_cons. cbn [take_while]. rewrite E, (IH Hg). reflexivity.
Qed.

Lemma class_app (a b : string) :
  drop_while in_class a = ""%string -> drop_while in_class b = ""%string ->
  drop_while in_class (a ++ b) = ""%string.
Proof.
  intros Ha Hb. induction a as [|c a IH]; [exact Hb|].
  cbn [drop_while] in Ha. destruct (in_class c) eqn:E; [|discriminate].
  rewrite append_cons. cbn [drop_while]. rewrite E. apply IH, Ha.
Qed.

Lemma class_of_digits (a : string) :
  all_digits a = true -> drop_while in_class a = ""%string.
Proof.
  unfold all_digits. induction a as [|c a IH]; intros H; [reflexivity|].
  cbn [drop_while] in H |- *. unfold in_class.
  destruct (is_digit c); [|discriminate]. cbn [orb]. apply IH, H.
Qed.

Lemma parse_time_found (pre g rest : string) :
  Optimizer.contains "time=" pre = false ->
  g <> ""%string -> drop_while in_class g = ""%string ->
  take_while in_class rest = ""%string ->
  parse_time (pre ++ "time=" ++ g ++ rest) = (x ← float g; Returned (Some x)).
Proof.
  intros Hc Hg Hcl Hr. unfold parse_time.
  rewrite (search_found pre g rest Hc Hg (take_while_class g rest Hcl Hr)).
  reflexivity.
Qed.

(** X15.  [parse_time], and the same two lines of [run_ping_test]: a ping
    output without [time=] counts as a loss; a parsed RTT is never
    negative; from a line whose first [time=] is followed by a decimal or
    a whole number it returns that number, whatever comes before and
    after; and a number with two dots, which the regular expression
    accepts, makes [float] raise ValueError. *)
Theorem parse_time_cases :
  (forall s, Optimizer.contains "time=" s = false -> parse_time s = Returned None)
  /\ (forall s x, parse_time s = Returned (Some x) -> 0 <= x)
  /\ (forall pre a b rest,
         Optimizer.contains "time=" pre = false ->
         all_digits a = true -> all_digits b = true -> (a ++ b)%string <> ""%string ->
         take_while in_class rest = ""%string ->
         parse_time (pre ++ "time=" ++ (a ++ "." ++ b) ++ rest)
         = Returned (Some (Z.of_N (digits_value (a ++ b)) # pow10 (String.length b))))
  /\ (forall pre a rest,
         Optimizer.contains "time=" pre = false ->
         all_digits a = true -> a <> ""%string ->
         take_while in_class rest = ""%string ->
         parse_time (pre ++ "time=" ++ a ++ rest)
         = Returned (Some (inject_Z (Z.of_N (digits_value a)))))
  /\ (forall pre a b c rest,
         Optimizer.contains "time=" pre = false ->
         all_digits a = true -> all_digits b = true -> all_digits c = true ->
         take_while in_class rest = ""%string ->
         parse_time (pre ++ "time=" ++ (a ++ "." ++ b ++ "." ++ c) ++ rest)
         = Raised ValueError).
Proof.
  split; [|split; [|split; [|split]]].
  - intros s H. unfold parse_time. rewrite (search_none s H). reflexivity.
  - intros s x. unfold parse_time. destruct (search s) as [g|]; [|discriminate].
    destruct (float g) as [y|e] eqn:E; [|discriminate].
    intros [= <-]. exact (float_nonneg g y E).
  - intros pre a b rest Hc Ha Hb Hne Hr.
    rewrite parse_time_found; [rewrite (float_decimal a b Ha Hb Hne); reflexivity
                              |exact Hc| |
                              |exact Hr].
    + destruct a; discriminate.
    + apply class_app; [apply class_of_digits, Ha|].
      apply (class_app "."); [reflexivity | apply class_of_digits, Hb].
  - intros pre a rest Hc Ha Hne Hr.
    rewrite parse_time_found; [rewrite (float_whole a Ha Hne); reflexivity
                              |exact Hc|exact Hne| |exact Hr].
    apply class_of_digits, Ha.
  - intros pre a b c rest Hc Ha Hb Hcc Hr.
    rewrite parse_time_found; [rewrite (float_two_dots a b c Ha Hb); reflexivity
                              |exact Hc| |
                              |exact Hr].
    + destruct a; discriminate.
    + apply class_app; [apply class_of_digits, Ha|].
      apply (class_app "."); [reflexivity|].
      apply class_app; [apply class_of_digits, Hb|].
      apply (class_app "."); [reflexivity | apply class_of_digits, Hcc].
Qed.

Lemma parse_time_cases_witness :
  parse_time ("64 bytes from 192.168.0.243: icmp_seq=0 ttl=64 " ++ "time=" ++
              ("3" ++ "." ++ "456") ++ " ms")
  = Returned (Some 3.456).
Proof.
  apply (proj1 (proj2 (proj2 parse_time_cases))
           "64 bytes from 192.168.0.243: icmp_seq=0 ttl=64 " "3" "456" " ms");
    first [reflexivity | discriminate].
Defined.

End PingOutputFacts.

(** ** More on the continuous monitor *)

Section MonitorAccounting.

Import JitterCheck.

Lemma loop_cons_state (m : Monitor) (p : option Q) (rest : list (option Q)) :
  (loop m (p :: rest)).1 = (loop (iteration m p).1 rest).1.
Proof.
  cbn [loop]. destruct (iteration m p) as [m1 row]. cbn [fst snd].
  destruct (loop m1 rest). reflexivity.
Qed.

Lemma loop_accounting (probes : list (option Q)) (m : Monitor) :
  let m' := (loop m probes).1 in
  let rows := (loop m probes).2 in
  sent (stats m') = (sent (stats m) + length probes)%nat
  /\ rtts (stats m') = rtts (stats m) ++ omap id probes
  /\ received (stats m') = (received (stats m) + length (omap id probes))%nat
  /\ seq m' = (seq m + length probes)%nat
  /\ map row_seq rows = List.seq (seq m) (length probes)
  /\ map row_rtt rows = probes.
Proof.
  revert m. induction probes as [|p rest IH]; intros m.
  - cbn. rewrite app_nil_r. repeat split; lia.
  - cbn zeta. rewrite loop_cons_state, loop_cons_rows.
    destruct (IH (iteration m p).1) as (H1 & H2 & H3 & H4 & H5 & H6).
    rewrite H1, H2, H3, H4. cbn [map length List.seq]. rewrite H5, H6.
    rewrite iteration_row_rtt.
    destruct p as [r|]; cbn; rewrite <- ?app_assoc; repeat split; try lia.
Qed.
Lemma iteration_counters (m : Monitor) (p : option Q) :
  let m1 := (iteration m p).1 in
  let row := (iteration m p).2 in
  spikes (stats m1) = (spikes (stats m) + count_status LagSpike [row])%nat
  /\ high_jitter_events (stats m1)
     = (high_jitter_events (stats m) + count_status HighJitter [row])%nat
  /\ count_status LagSpike [row] = Optimizer.count_spikes (omap id [p])
  /\ (count_status PacketLoss [row] + length (omap id [p]) = 1)%nat
  /\ (count_status OK [row] + count_status HighJitter [row]
      + count_status LagSpike [row] + count_status PacketLoss [row] = 1)%nat.
Proof.
  destruct p as [r|]; [|cbn; repeat split; lia].
  unfold iteration, count_status, Optimizer.count_spikes.
  cbn [fst snd stats spikes high_jitter_events row_status List.filter omap list_omap id].
  change Optimizer.SPIKE_THRESHOLD with SPIKE_THRESHOLD.
  destruct (Qgtb r SPIKE_THRESHOLD); [cbn; repeat split; lia|].
  destruct (Qgtb _ 5.0); cbn; repeat split; lia.
Qed.

Lemma count_status_cons (s : Status) (row : Row) (rows : list Row) :
  count_status s (row :: rows) = (count_status s [row] + count_status s rows)%nat.
Proof.
  unfold count_status. cbn [List.filter].
  destruct (status_eqb (row_status row) s); reflexivity.
Qed.

Lemma omap_id_cons (p : option Q) (rest : list (option Q)) :
  omap id (p :: rest) = omap id [p] ++ omap id rest.
Proof. destruct p; reflexivity. Qed.

Lemma count_spikes_app (a b : list Q) :
  Optimizer.count_spikes (a ++ b)
  = (Optimizer.count_spikes a + Optimizer.count_spikes b)%nat.
Proof. unfold Optimizer.count_spikes. rewrite List.filter_app, length_app. reflexivity. Qed.

Lemma loop_counters (probes : list (option Q)) (m : Monitor) :
  let m' := (loop m probes).1 in
  let rows := (loop m probes).2 in
  spikes (stats m') = (spikes (stats m) + count_status LagSpike rows)%nat
  /\ high_jitter_events (stats m')
     = (high_jitter_events (stats m) + count_status HighJitter rows)%nat
  /\ count_status LagSpike rows = Optimizer.count_spikes (omap id probes)
  /\ (count_status PacketLoss rows + length (omap id probes) = length probes)%nat
  /\ (count_status OK rows + count_status HighJitter rows
      + count_status LagSpike rows + count_status PacketLoss rows
      = length probes)%nat.
Proof.
  revert m. induction probes as [|p rest IH]; intros m.
  - cbn. repeat split; lia.
  - cbn zeta. rewrite loop_cons_state, loop_cons_rows.
    destruct (IH (iteration m p).1) as (H1 & H2 & H3 & H4 & H5).
    destruct (iteration_counters m p) as (I1 & I2 & I3 & I4 & I5).
    rewrite H1, H2, I1, I2.
    set (rows := (loop (iteration m p).1 rest).2) in *.
    rewrite (count_status_cons OK _ rows), (count_status_cons HighJitter _ rows),
      (count_status_cons LagSpike _ rows), (count_status_cons PacketLoss _ rows).
    rewrite omap_id_cons, count_spikes_app, length_app. cbn [length].
    repeat split; lia.
Qed.

Lemma loop_jitter_lossfree (rs : list Q) (m : Monitor) :
  jitter_values (stats (loop m (map Some rs)).1)
  = jitter_values (stats m) ++
    match prev_rtt m with
    | Some p => Optimizer.adjacent_diffs (p :: rs)
    | None => Optimizer.adjacent_diffs rs
    end.
Proof.
  revert m. induction rs as [|r rest IH]; intros m.
  - cbn. destruct (prev_rtt m); cbn; rewrite app_nil_r; reflexivity.
  - cbn [map]. rewrite loop_cons_state, IH. 
    rewrite iteration_prev_rtt.
    unfold iteration. cbn [fst stats jitter_values].
    destruct (prev_rtt m) as [p|].
    + rewrite adjacent_diffs_cons2, <- app_assoc. reflexivity.
    + reflexivity.
Qed.

Lemma loop_jitter_length (probes : list (option Q)) (m : Monitor) :
  let m' := (loop m probes).1 in
  let s := length (omap id probes) in
  (length (jitter_values (stats m')) <= length (jitter_values (stats m)) + s)%nat
  /\ (prev_rtt m = None -> s <> O ->
      (S (length (jitter_values (stats m'))) <= length (jitter_values (stats m)) + s)%nat).
Proof.
  revert m. induction probes as [|p rest IH]; intros m.
  - cbn. split; [lia|]. intros _ H. contradiction.
  - cbn zeta. rewrite loop_cons_state.
    destruct (IH (iteration m p).1) as (H1 & H2).
    rewrite iteration_prev_rtt in H2.
    destruct p as [r|].
    + cbn [omap list_omap id length]. fold (omap id rest).
      unfold iteration in H1 |- *. cbn [fst stats jitter_values] in H1 |- *.
      destruct (prev_rtt m) as [p|].
      * rewrite length_app in H1. cbn [length] in H1. split; [lia|]. discriminate.
      * split; [lia|]. intros _ _. lia.
    + cbn [omap list_omap id]. fold (omap id rest).
      change (jitter_values (stats (iteration m None).1)) with (jitter_values (stats m)) in *.
      split; [exact H1|]. intros _ Hs. apply H2; [reflexivity | exact Hs].
Qed.

Lemma loop_jitter_nonneg (probes : list (option Q)) (m : Monitor) :
  Forall (fun j => 0 <= j) (jitter_values (stats m)) ->
  Forall (fun j => 0 <= j) (jitter_values (stats (loop m probes).1)).
Proof.
  revert m. induction probes as [|p rest IH]; intros m H; [exact H|].
  rewrite loop_cons_state. apply IH.
  destruct p as [r|]; [|exact H].
  unfold iteration. cbn [fst stats jitter_values].
  destruct (prev_rtt m) as [p|]; [|exact H].
  apply Forall_app. split; [exact H|]. constructor; [apply Qabs_nonneg | constructor].
Qed.

Lemma analyze_lan_eq (tgt : string) (probes : list (option Q)) :
  analyze_lan tgt probes
  = ((loop start probes).2, on_interrupt tgt (stats (loop start probes).1)).
Proof. unfold analyze_lan. destruct (loop start probes). reflexivity. Qed.

(** X1.  However long the monitor ran, its counters agree with what it
    logged: [sent] is the number of probes, [rtts] holds exactly the
    successful RTTs in order (a lost probe contributes nothing to the
    averages), [received] is their number and never exceeds [sent], and the
    rows are numbered 1, 2, 3, ... with one row per probe. *)
Theorem monitor_accounting (tgt : string) (probes : list (option Q)) :
  let st := stats (loop start probes).1 in
  let rows := (analyze_lan tgt probes).1 in
  sent st = length probes
  /\ rtts st = omap id probes
  /\ received st = length (rtts st)
  /\ (received st <= sent st)%nat
  /\ seq (loop start probes).1 = S (length probes)
  /\ map row_seq rows = List.seq 1 (length probes)
  /\ map row_rtt rows = probes.
Proof.
  cbn zeta. rewrite analyze_lan_eq. cbn [fst].
  destruct (loop_accounting probes start) as (H1 & H2 & H3 & H4 & H5 & H6).
  cbn [start stats sent rtts received seq app Nat.add] in H1, H2, H3, H4, H5.
  rewrite H1, H2, H3, H4, H5, H6.
  repeat split. apply omap_length_le.
Qed.

(** X2.  The event counters agree with the status column: [spikes] is the
    number of rows logged LAG SPIKE, which is the number of RTTs above the
    threshold; [high_jitter_events] is the number of rows logged HIGH
    JITTER; the rows logged PACKET LOSS are the probes not received; and
    every probe is logged with exactly one of the four statuses. *)
Theorem monitor_counters (tgt : string) (probes : list (option Q)) :
  let st := stats (loop start probes).1 in
  let rows := (analyze_lan tgt probes).1 in
  spikes st = count_status LagSpike rows
  /\ spikes st = Optimizer.count_spikes (rtts st)
  /\ high_jitter_events st = count_status HighJitter rows
  /\ (count_status PacketLoss rows + received st = sent st)%nat
  /\ (count_status OK rows + high_jitter_events st + spikes st
      + count_status PacketLoss rows = sent st)%nat.
Proof.
  cbn zeta. rewrite analyze_lan_eq. cbn [fst].
  destruct (loop_accounting probes start) as (H1 & H2 & H3 & _).
  destruct (loop_counters probes start) as (C1 & C2 & C3 & C4 & C5).
  cbn [start stats sent rtts received spikes high_jitter_events app Nat.add]
    in H1, H2, H3, C1, C2.
  rewrite H1, H2, H3, C1, C2, <- C3. repeat split; assumption.
Qed.

(** X3.  When no probe is lost, the jitter values of the monitor are the
    differences of neighbouring RTTs: the series [run_ping_test] averages
    and the visualizer plots.  In general the monitor has fewer jitter
    values than successes, none of them negative; and across a loss the
    series differ: after [a], a loss and [b] the monitor has no jitter value
    where the other two have [|b - a|]. *)
Theorem jitter_series_agree :
  (forall rs : list Q,
      jitter_values (stats (loop start (map Some rs)).1) = Optimizer.jitter_of rs
      /\ Visualize.calc_jitter rs = Optimizer.jitter_of rs
      /\ Optimizer.jitter_of rs = Optimizer.adjacent_diffs rs)
  /\ (forall probes : list (option Q),
         let st := stats (loop start probes).1 in
         (length (jitter_values st) <= Nat.pred (received st))%nat
         /\ Forall (fun j => 0 <= j) (jitter_values st))
  /\ (forall a b : Q,
         let st := stats (loop start [Some a; None; Some b]).1 in
         rtts st = [a; b] /\ jitter_values st = []
         /\ Visualize.calc_jitter (rtts st) = [Qabs (b - a)]).
Proof.
  split; [|split].
  - intros rs. split; [|split; [reflexivity | apply jitter_of_adjacent]].
    rewrite loop_jitter_lossfree, jitter_of_adjacent. reflexivity.
  - intros probes. cbn zeta. split.
    + destruct (loop_accounting probes start) as (_ & _ & H3 & _).
      destruct (loop_jitter_length probes start) as (J1 & J2).
      cbn [start stats received jitter_values length Nat.add prev_rtt] in H3, J1, J2.
      rewrite H3. destruct (length (omap id probes)) as [|n]; [exact J1|].
      specialize (J2 eq_refl ltac:(discriminate)). cbn [Nat.pred]. lia.
    + apply loop_jitter_nonneg. constructor.
  - intros a b. repeat split.
Qed.

End MonitorAccounting.

(** ** Bounds on the statistics *)

Section Bounds.

Import Optimizer.

Lemma round_half_even_ceil (x : Q) : (round_half_even x <= Qfloor x + 1)%Z.
Proof.
  unfold round_half_even.
  destruct (Qcompare _ _); [destruct (Z.even _)|..]; lia.
Qed.

Lemma round_half_even_mono (x y : Q) :
  x <= y -> (round_half_even x <= round_half_even y)%Z.
Proof.
  intros H. pose proof (Qfloor_resp_le _ _ H) as Hf.
  destruct (Z.eq_dec (Qfloor x) (Qfloor y)) as [E|Hne].
  - unfold round_half_even. rewrite <- E.
    assert (x - inject_Z (Qfloor x) <= y - inject_Z (Qfloor x)) as Hd.
    { apply Qplus_le_compat; [exact H | apply Qle_refl]. }
    destruct (Qcompare (x - inject_Z (Qfloor x)) (1 # 2)) eqn:Cx;
      destruct (Qcompare (y - inject_Z (Qfloor x)) (1 # 2)) eqn:Cy;
      try (destruct (Z.even (Qfloor x)); lia); try lia; exfalso.
    + apply Qeq_alt in Cx. apply Qlt_alt in Cy. rewrite Cx in Hd.
      exact (Qlt_not_le _ _ Cy Hd).
    + apply Qgt_alt in Cx. apply Qeq_alt in Cy. rewrite Cy in Hd.
      exact (Qlt_not_le _ _ Cx Hd).
    + apply Qgt_alt in Cx. apply Qlt_alt in Cy.
      apply (Qlt_not_le _ _ Cx). apply Qle_trans with (y - inject_Z (Qfloor x)).
      * exact Hd.
      * apply Qlt_le_weak, Cy.
  - pose proof (round_half_even_ceil x). pose proof (round_half_even_floor y). lia.
Qed.

Lemma py_round_mono (x y : Q) (n : nat) : x <= y -> py_round x n <= py_round y n.
Proof.
  intros H. unfold py_round, Qle. cbn [Qnum Qden].
  apply Z.mul_le_mono_nonneg_r; [lia|].
  apply round_half_even_mono.
  apply Qmult_le_compat_r; [exact H|]. unfold Qle. simpl. lia.
Qed.

Lemma fold_max_spec (t : list Q) (x : Q) :
  let m := fold_left (fun m y => if Qgtb y m then y else m) t x in
  In m (x :: t) /\ x <= m /\ (forall y, In y t -> y <= m).
Proof.
  revert x. induction t as [|a t IH]; intros x.
  - cbn. split; [left; reflexivity|]. split; [apply Qle_refl|]. intros y [].
  - cbn [fold_left]. destruct (Qgtb a x) eqn:E.
    + destruct (IH a) as (Hin & Hle & Hall). apply Qgtb_lt in E.
      split; [right; exact Hin|]. split.
      * apply Qle_trans with a; [apply Qlt_le_weak, E | exact Hle].
      * intros y [<-|Hy]; [exact Hle | apply Hall, Hy].
    + destruct (IH x) as (Hin & Hle & Hall). apply Qgtb_le in E.
      split; [destruct Hin as [<-|Hin]; [left; reflexivity | right; right; exact Hin]|].
      split; [exact Hle|].
      intros y [<-|Hy]; [apply Qle_trans with x; assumption | apply Hall, Hy].
Qed.

Lemma fold_min_spec (t : list Q) (x : Q) :
  let m := fold_left (fun m y => if Qgtb m y then y else m) t x in
  In m (x :: t) /\ m <= x /\ (forall y, In y t -> m <= y).
Proof.
  revert x. induction t as [|a t IH]; intros x.
  - cbn. split; [left; reflexivity|]. split; [apply Qle_refl|]. intros y [].
  - cbn [fold_left]. destruct (Qgtb x a) eqn:E.
    + destruct (IH a) as (Hin & Hle & Hall). apply Qgtb_lt in E.
      split; [right; exact Hin|]. split.
      * apply Qle_trans with a; [exact Hle | apply Qlt_le_weak, E].
      * intros y [<-|Hy]; [exact Hle | apply Hall, Hy].
    + destruct (IH x) as (Hin & Hle & Hall). apply Qgtb_le in E.
      split; [destruct Hin as [<-|Hin]; [left; reflexivity | right; right; exact Hin]|].
      split; [exact Hle|].
      intros y [<-|Hy]; [apply Qle_trans with x; assumption | apply Hall, Hy].
Qed.

Lemma Qlen_cons {A : Type} (x : A) (l : list A) : Qlen (x :: l) == 1 + Qlen l.
Proof.
  unfold Qlen. cbn [length]. rewrite Nat2Z.inj_succ, <- Z.add_1_l, inject_Z_plus.
  reflexivity.
Qed.

Lemma Qsum_le_bound (l : list Q) (M : Q) :
  (forall y, In y l -> y <= M) -> Qsum l <= Qlen l * M.
Proof.
  induction l as [|a l IH]; intros H.
  - cbn. unfold Qlen. cbn. rewrite Qmult_0_l. apply Qle_refl.
  - rewrite Qlen_cons. cbn [Qsum fold_right]. fold (Qsum l).
    rewrite Qmult_plus_distr_l, Qmult_1_l.
    apply Qplus_le_compat; [apply H; left; reflexivity|].
    apply IH. intros y Hy. apply H. right. exact Hy.
Qed.

Lemma Qsum_ge_bound (l : list Q) (M : Q) :
  (forall y, In y l -> M <= y) -> Qlen l * M <= Qsum l.
Proof.
  induction l as [|a l IH]; intros H.
  - cbn. unfold Qlen. cbn. rewrite Qmult_0_l. apply Qle_refl.
  - rewrite Qlen_cons. cbn [Qsum fold_right]. fold (Qsum l).
    rewrite Qmult_plus_distr_l, Qmult_1_l.
    apply Qplus_le_compat; [apply H; left; reflexivity|].
    apply IH. intros y Hy. apply H. right. exact Hy.
Qed.

Lemma mean_le_max (x : Q) (t : list Q) (M : Q) :
  (forall y, In y (x :: t) -> y <= M) -> Qsum (x :: t) / Qlen (x :: t) <= M.
Proof.
  intros H. apply Qle_shift_div_r; [apply Qlen_pos|].
  rewrite Qmult_comm. apply Qsum_le_bound, H.
Qed.

Lemma mean_ge_min (x : Q) (t : list Q) (M : Q) :
  (forall y, In y (x :: t) -> M <= y) -> M <= Qsum (x :: t) / Qlen (x :: t).
Proof.
  intros H. apply Qle_shift_div_l; [apply Qlen_pos|].
  rewrite Qmult_comm. apply Qsum_ge_bound, H.
Qed.

Lemma py_max_bounds (x : Q) (t : list Q) (m : Q) :
  py_max (x :: t) = Returned m -> In m (x :: t) /\ forall y, In y (x :: t) -> y <= m.
Proof.
  intros [= <-]. destruct (fold_max_spec t x) as (Hin & Hx & Hall).
  split; [exact Hin|]. intros y [<-|Hy]; [exact Hx | apply Hall, Hy].
Qed.

Lemma py_min_bounds (x : Q) (t : list Q) (m : Q) :
  py_min (x :: t) = Returned m -> In m (x :: t) /\ forall y, In y (x :: t) -> m <= y.
Proof.
  intros [= <-]. destruct (fold_min_spec t x) as (Hin & Hx & Hall).
  split; [exact Hin|]. intros y [<-|Hy]; [exact Hx | apply Hall, Hy].
Qed.

Lemma py_round_comp (x y : Q) (n : nat) : x == y -> py_round x n = py_round y n.
Proof.
  intros H. unfold py_round.
  assert (x * inject_Z (Z.pos (pow10 n)) == y * inject_Z (Z.pos (pow10 n))) as E
    by (rewrite H; reflexivity).
  rewrite (round_half_even_comp _ _ E). reflexivity.
Qed.

Lemma count_spikes_le (l : list Q) : (count_spikes l <= length l)%nat.
Proof. unfold count_spikes. apply List.filter_length_le. Qed.

Lemma adjacent_diffs_nonneg (l : list Q) : Forall (fun d => 0 <= d) (adjacent_diffs l).
Proof.
  induction l as [|a l IH]; [constructor|].
  destruct l as [|b t]; [constructor|].
  rewrite adjacent_diffs_cons2. constructor; [apply Qabs_nonneg | exact IH].
Qed.

Lemma mean_nonneg (l : list Q) :
  Forall (fun d => 0 <= d) l -> 0 <= Qsum l / Qlen l.
Proof.
  intros H. destruct l as [|x t]; [vm_compute; discriminate|].
  apply Qle_shift_div_l; [apply Qlen_pos|]. rewrite Qmult_0_l.
  apply Qsum_nonneg, H.
Qed.

Lemma spike_ratio_le_100 (x : Q) (t : list Q) :
  Qnat (count_spikes (x :: t)) / Qlen (x :: t) * 100 <= 100.
Proof.
  rewrite <- (Qmult_1_l 100) at 2.
  apply Qmult_le_compat_r; [|vm_compute; discriminate].
  apply Qle_shift_div_r; [apply Qlen_pos|]. rewrite Qmult_1_l.
  unfold Qnat, Qlen. rewrite <- Zle_Qle. pose proof (count_spikes_le (x :: t)). lia.
Qed.

(** X4.  In every result of [run_ping_test] the rounded minimum, average
    and maximum latency are in that order, the average jitter is not
    negative, the spike count is at most the number of successful pings,
    and the spike percentage lies between 0 and 100.  When no parsed RTT is
    negative the minimum latency is not negative either. *)
Theorem run_ping_test_bounds (label value : string) (probes : nat -> option Q)
    (r : TestResult) :
  run_ping_test label value probes = Returned r ->
  min_latency_ms r <= avg_latency_ms r
  /\ avg_latency_ms r <= max_latency_ms r
  /\ 0 <= avg_jitter_ms r
  /\ (spike_count r <= length (raw_rtts r))%nat
  /\ 0 <= spike_percentage r /\ spike_percentage r <= 100
  /\ (nonneg_probes probes -> 0 <= min_latency_ms r).
Proof.
  unfold run_ping_test. rewrite collect_spec.
  pose proof (omap_nonneg probes (seq 0 PINGS_PER_TEST)) as Hnn.
  destruct (omap probes (seq 0 PINGS_PER_TEST)) as [|x t].
  - cbn. intros [= <-]. cbn. repeat split; try apply Qle_refl; try lia;
      vm_compute; discriminate.
  - destruct (statistics_of_nonempty label value x t
                (PINGS_PER_TEST - length (x :: t)))
      as (avg & mx & mn & Havg & Hmx & Hmn & H).
    pose proof (adjacent_diffs_nonneg (x :: t)) as Hd.
    remember (adjacent_diffs (x :: t)) as ad eqn:Ead in H, Hd. clear Ead.
    rewrite H. intros [= <-].
    cbn [min_latency_ms avg_latency_ms max_latency_ms avg_jitter_ms spike_count
         spike_percentage raw_rtts].
    injection Havg as <-.
    destruct (py_max_bounds _ _ _ Hmx) as (_ & Hmax).
    destruct (py_min_bounds _ _ _ Hmn) as (Hmin_in & Hmin).
    split; [apply py_round_mono; exact (mean_ge_min x t mn Hmin)|].
    split; [apply py_round_mono; exact (mean_le_max x t mx Hmax)|].
    split.
    { destruct ad as [|d ds]; [apply Qle_refl|].
      apply py_round_nonneg. exact (mean_nonneg (d :: ds) Hd). }
    split; [apply count_spikes_le|].
    split; [apply py_round_nonneg, ratio_nonneg|].
    split.
    { apply Qle_trans with (py_round 100 1); [|vm_compute; discriminate].
      apply py_round_mono, spike_ratio_le_100. }
    intros Hp. apply py_round_nonneg.
    specialize (Hnn Hp). rewrite List.Forall_forall in Hnn. apply Hnn, Hmin_in.
Qed.

Lemma run_ping_test_bounds_witness :
  let r := {| setting_name := "AWDL"; setting_value := "disabled";
              packets_sent := 200; packets_lost := 197;
              avg_latency_ms := 11.00; max_latency_ms := 20.00; min_latency_ms := 4.00;
              avg_jitter_ms := 13.50; spike_count := 1;
              spike_percentage := 33.3; raw_rtts := [4; 20; 9] |} in
  min_latency_ms r <= avg_latency_ms r /\ avg_latency_ms r <= max_latency_ms r.
Proof.
  intros r.
  destruct (run_ping_test_bounds "AWDL" "disabled"
              (probes_of_list [Some 4; None; Some 20; Some 9]) r) as (H1 & H2 & _).
  - vm_compute. reflexivity.
  - split; assumption.
Defined.
End Bounds.

(** ** Double precision *)

Section DoublePrecision.

Lemma b64_comp (x y : Q) : x == y -> b64 x = b64 y.
Proof. intros H. unfold b64. rewrite (Qred_complete x y H). reflexivity. Qed.

Lemma round_half_even_near (y : Q) :
  - (1 # 2) <= inject_Z (round_half_even y) - y <= 1 # 2.
Proof.
  unfold round_half_even. cbv zeta.
  pose proof (Qfloor_le y) as Hlo. pose proof (Qlt_floor y) as Hhi.
  rewrite inject_Z_plus in Hhi. change (inject_Z 1) with 1 in Hhi.
  destruct (Qcompare (y - inject_Z (Qfloor y)) (1 # 2)) eqn:C.
  - apply Qeq_alt in C.
    destruct (Z.even (Qfloor y)); rewrite ?inject_Z_plus;
      change (inject_Z 1) with 1; lra.
  - apply Qlt_alt in C. lra.
  - apply Qgt_alt in C. rewrite inject_Z_plus. change (inject_Z 1) with 1. lra.
Qed.

Lemma Qlog2_le (q : Q) : 0 < q -> 2 ^ Qlog2 q <= q.
Proof.
  intros Hq. unfold Qlog2. cbv zeta.
  destruct (Qle_bool _ q) eqn:E; [apply Qle_bool_iff, E|].
  destruct q as [n d]. cbn [Qnum Qden] in *.
  assert (0 < n)%Z as Hn by (unfold Qlt in Hq; cbn in Hq; lia).
  pose proof (Z.log2_spec n Hn) as [Hn1 _].
  pose proof (Z.log2_spec (Zpos d) (Pos2Z.is_pos d)) as [_ Hd2].
  pose proof (Z.log2_nonneg n) as Hn0. pose proof (Z.log2_nonneg (Zpos d)) as Hd0.
  set (a := Z.log2 n) in *. set (b := Z.log2 (Zpos d)) in *.
  assert (2 ^ (a - b - 1) * 2 ^ (b + 1) == 2 ^ a) as Hp.
  { rewrite <- Qpower_plus by discriminate. replace (a - b - 1 + (b + 1))%Z with a by lia.
    reflexivity. }
  assert (inject_Z (2 ^ a) == 2 ^ a) as Ha by (apply (Zpower_Qpower 2 a); lia).
  assert (inject_Z (2 ^ (b + 1)) == 2 ^ (b + 1)) as Hb by (apply (Zpower_Qpower 2 (b + 1)); lia).
  assert (0 < 2 ^ (a - b - 1)) as Hpos by (apply Qpower_0_lt; reflexivity).
  assert (inject_Z (Zpos d) <= 2 ^ (b + 1)) as Hd.
  { rewrite <- Hb. rewrite <- Zle_Qle. lia. }
  assert (2 ^ a <= inject_Z n) as Hna.
  { rewrite <- Ha. rewrite <- Zle_Qle. exact Hn1. }
  assert (n # d == inject_Z n / inject_Z (Zpos d)) as -> by (rewrite Qmake_Qdiv; reflexivity).
  apply Qle_shift_div_l; [reflexivity|].
  apply Qle_trans with (2 ^ (a - b - 1) * 2 ^ (b + 1)).
  - apply Qmult_le_l; assumption.
  - rewrite Hp. exact Hna.
Qed.

Lemma b64_near (x : Q) :
  Qabs x < 128 -> - half_ulp <= b64 x - x <= half_ulp.
Proof.
  intros Hx. unfold b64. cbv zeta.
  pose proof (Qred_correct x) as Hq. set (q := Qred x) in *.
  unfold half_ulp.
  destruct (Qeq_bool q 0) eqn:E.
  - apply Qeq_bool_eq in E. lra.
  - apply Qeq_bool_neq in E.
    assert (0 < Qabs q) as Hpos.
    { destruct (Q_dec q 0) as [[H|H]|H]; [| |contradiction];
        apply Qabs_case; intros H'; lra. }
    pose proof (Qlog2_le (Qabs q) Hpos) as Hl.
    assert (Qlog2 (Qabs q) < 7)%Z as Hl7.
    { apply (Qpower_lt_compat_l_inv 2); [|reflexivity].
      apply Qle_lt_trans with (Qabs q); [exact Hl|]. rewrite Hq. exact Hx. }
    set (e := Z.max (Qlog2 (Qabs q) - 52) (-1074)).
    assert (e <= -46)%Z as He by lia.
    assert (0 < 2 ^ e) as Hp by (apply Qpower_0_lt; reflexivity).
    assert (2 ^ e <= 1 # 70368744177664) as HP.
    { apply (Qpower_le_compat_l 2) in He; [exact He | discriminate]. }
    pose proof (round_half_even_near (q / 2 ^ e)) as Hr.
    set (m := inject_Z (round_half_even (q / 2 ^ e))) in *.
    assert (q == (q / 2 ^ e) * 2 ^ e) as Hy by (field; lra).
    set (y := q / 2 ^ e) in *. set (p := 2 ^ e) in *.
    rewrite <- Hq. nra.
Qed.

Lemma float_sub_comp (a a' b b' : Q) :
  a == a' -> b == b' -> float_sub a b = float_sub a' b'.
Proof.
  intros Ha Hb. unfold float_sub. rewrite (b64_comp a a' Ha), (b64_comp b b' Hb).
  reflexivity.
Qed.

Lemma float_sub_near (a b : Q) :
  0 <= a <= 100 -> 0 <= b <= 100 ->
  - (3 * half_ulp) <= float_sub a b - (a - b) <= 3 * half_ulp.
Proof.
  intros Ha Hb. unfold float_sub.
  assert (Qabs a < 128) as Ha' by (apply Qabs_Qlt_condition; lra).
  assert (Qabs b < 128) as Hb' by (apply Qabs_Qlt_condition; lra).
  pose proof (b64_near a Ha') as Na. pose proof (b64_near b Hb') as Nb.
  unfold half_ulp in *.
  assert (Qabs (b64 a - b64 b) < 128) as Hc by (apply Qabs_Qlt_condition; lra).
  pose proof (b64_near _ Hc) as Nc. unfold half_ulp in Nc. lra.
Qed.

Lemma tenths_range (x : Q) (k : Z) : tenths x k -> 0 <= x <= 100.
Proof.
  intros [[H0 H1] E]. rewrite Zle_Qle in H0, H1.
  change (inject_Z 0) with 0 in H0. change (inject_Z 1000) with 1000 in H1. lra.
Qed.

Lemma float_sub_above (a b : Q) (ka kb : Z) :
  tenths a ka -> tenths b kb -> 5 < a - b -> Qgtb (float_sub a b) 5 = true.
Proof.
  intros Ta Tb H.
  pose proof (float_sub_near a b (tenths_range _ _ Ta) (tenths_range _ _ Tb)) as N.
  destruct Ta as [_ Ea], Tb as [_ Eb].
  assert (51 <= ka - kb)%Z as Hk.
  { assert (inject_Z 50 < inject_Z (ka - kb)) as Hq.
    { unfold Z.sub. rewrite inject_Z_plus, inject_Z_opp. change (inject_Z 50) with 50. lra. }
    rewrite <- Zlt_Qlt in Hq. lia. }
  unfold Z.sub in Hk. rewrite Zle_Qle, inject_Z_plus, inject_Z_opp in Hk. change (inject_Z 51) with 51 in Hk.
  unfold Qgtb. apply negb_true_iff. apply not_true_is_false.
  intros Hle. apply Qle_bool_iff in Hle. unfold half_ulp in N. lra.
Qed.

Lemma float_sub_below (a b : Q) (ka kb : Z) :
  tenths a ka -> tenths b kb -> a - b < 5 -> Qgtb (float_sub a b) 5 = false.
Proof.
  intros Ta Tb H.
  pose proof (float_sub_near a b (tenths_range _ _ Ta) (tenths_range _ _ Tb)) as N.
  destruct Ta as [_ Ea], Tb as [_ Eb].
  assert (ka - kb <= 49)%Z as Hk.
  { assert (inject_Z (ka - kb) < inject_Z 50) as Hq.
    { unfold Z.sub. rewrite inject_Z_plus, inject_Z_opp. change (inject_Z 50) with 50. lra. }
    rewrite <- Zlt_Qlt in Hq. lia. }
  unfold Z.sub in Hk. rewrite Zle_Qle, inject_Z_plus, inject_Z_opp in Hk. change (inject_Z 49) with 49 in Hk.
  unfold Qgtb. apply negb_false_iff. apply Qle_bool_iff. unfold half_ulp in N. lra.
Qed.

Lemma round_half_even_unique (y : Q) (m : Z) :
  - (1 # 2) < y - inject_Z m < 1 # 2 -> round_half_even y = m.
Proof.
  intros H. pose proof (round_half_even_near y) as N.
  assert (inject_Z (-1) < inject_Z (round_half_even y - m) < inject_Z 1) as [H1 H2].
  { unfold Z.sub. rewrite inject_Z_plus, inject_Z_opp.
    change (inject_Z (-1)) with (-1). change (inject_Z 1) with 1. lra. }
  rewrite <- Zlt_Qlt in H1, H2. lia.
Qed.

Lemma float_sub_text (a b : Q) (ka kb : Z) :
  tenths a ka -> tenths b kb -> 5 <= a - b ->
  format_f 1 (float_sub a b) = format_f 1 (a - b).
Proof.
  intros Ta Tb H.
  pose proof (float_sub_near a b (tenths_range _ _ Ta) (tenths_range _ _ Tb)) as N.
  destruct Ta as [_ Ea], Tb as [_ Eb]. unfold half_ulp in N.
  assert (inject_Z (ka - kb) == inject_Z ka - inject_Z kb) as Ek
    by (unfold Z.sub; rewrite inject_Z_plus, inject_Z_opp; reflexivity).
  unfold format_f. change (inject_Z (Z.pos (pow10 1))) with 10.
  rewrite (round_half_even_unique (float_sub a b * 10) (ka - kb)) by (rewrite Ek; lra).
  rewrite (round_half_even_unique ((a - b) * 10) (ka - kb)) by (rewrite Ek; lra).
  assert (Qgtb 0 (float_sub a b) = false) as -> by (apply Qgtb_le; lra).
  assert (Qgtb 0 (a - b) = false) as -> by (apply Qgtb_le; lra).
  reflexivity.
Qed.

End DoublePrecision.

(** ** The recommendation rule *)

Section Recommendations.
Import Optimizer.

Lemma produced_tenths (r : TestResult) :
  produced r -> exists k, tenths (spike_percentage r) k.
Proof.
  intros [label value probes r' Hp Hr]. revert Hr.
  unfold run_ping_test. rewrite collect_spec.
  destruct (omap probes (seq 0 PINGS_PER_TEST)) as [|x t].
  - cbn. intros [= <-]. exists 0%Z. split; [lia | reflexivity].
  - destruct (statistics_of_nonempty label value x t
                (PINGS_PER_TEST - length (x :: t))) as (avg & mx & mn & _ & _ & _ & H).
    rewrite H. intros [= <-]. cbn [spike_percentage].
    pose proof (ratio_nonneg (count_spikes (x :: t)) x t) as H0.
    pose proof (spike_ratio_le_100 x t) as H1.
    set (ratio := Qnat (count_spikes (x :: t)) / Qlen (x :: t) * 100) in *.
    exists (round_half_even (ratio * inject_Z (Z.pos (pow10 1)))).
    change (inject_Z (Z.pos (pow10 1))) with 10. split; [split|].
    + change 0%Z with (round_half_even 0). apply round_half_even_mono. lra.
    + change 1000%Z with (round_half_even 1000). apply round_half_even_mono. lra.
    + unfold py_round. change (inject_Z (Z.pos (pow10 1))) with 10.
      generalize (round_half_even (ratio * 10)). intros k.
      unfold Qeq. cbn. lia.
Qed.

(** C5.  For results that [run_ping_test] produced, the recommendations of
    [generate_report] are, in order, one for each experiment after the
    baseline for which the baseline's spike percentage minus its own, as
    the program subtracts them, is greater than 5, and no other.  A
    recommendation carries the name of the setting, the value to set, the
    spike reduction with one decimal and the jitter change with two.  The
    rule takes every experiment whose percentage lies more than 5 below the
    baseline's and none whose percentage lies less than 5 below it, and the
    reduction it prints is the difference of the two percentages; only at a
    difference of exactly 5 does the rounding of the subtraction decide.  A
    baseline at 30 % spikes and jitter 10 with one experiment at 5 % and
    jitter 2 yields exactly one recommendation, for that experiment, with
    spike reduction 25.0% and jitter change 8.00ms. *)
Theorem recommendations_rule (os : gmap string string)
    (baseline : TestResult) (rest : list TestResult) :
  Forall produced (baseline :: rest) ->
  recommendations (generate_report os (baseline :: rest)) =
    map (fun result =>
           {| setting := setting_name result;
              action := "Set to " ++ setting_value result;
              spike_reduction :=
                format_f 1 (float_sub (spike_percentage baseline)
                              (spike_percentage result)) ++ "%";
              jitter_change :=
                format_f 2 (float_sub (avg_jitter_ms baseline)
                              (avg_jitter_ms result)) ++ "ms" |})
      (List.filter
         (fun result =>
            Qgtb (float_sub (spike_percentage baseline) (spike_percentage result)) 5)
         rest)
  /\ (forall result,
         In result rest ->
         (5 < spike_percentage baseline - spike_percentage result ->
          Qgtb (float_sub (spike_percentage baseline) (spike_percentage result)) 5
          = true)
         /\ (spike_percentage baseline - spike_percentage result < 5 ->
             Qgtb (float_sub (spike_percentage baseline) (spike_percentage result)) 5
             = false)
         /\ (5 <= spike_percentage baseline - spike_percentage result ->
             format_f 1 (float_sub (spike_percentage baseline)
                           (spike_percentage result))
             = format_f 1 (spike_percentage baseline - spike_percentage result)))
  /\ (forall x,
         rest = [x] ->
         spike_percentage baseline == 30 -> avg_jitter_ms baseline == 10 ->
         spike_percentage x == 5 -> avg_jitter_ms x == 2 ->
         recommendations (generate_report os (baseline :: rest)) =
         [ {| setting := setting_name x;
              action := "Set to " ++ setting_value x;
              spike_reduction := "25.0%";
              jitter_change := "8.00ms" |} ]).
Proof.
  intros Hprod.
  inversion Hprod as [|? ? Hb Hrest]; subst.
  destruct (produced_tenths _ Hb) as [kb Tb].
  rewrite List.Forall_forall in Hrest.
  assert (recommendations (generate_report os (baseline :: rest)) =
          map (recommend baseline)
            (List.filter
               (fun result =>
                  Qgtb (float_sub (spike_percentage baseline)
                          (spike_percentage result)) 5)
               rest)) as Hrecs.
  { rewrite recommendations_unfold.
    destruct (List.filter (fun r => Qgtb (avg_latency_ms r) 0) (baseline :: rest))
      as [|v vs] eqn:Ev; [|reflexivity].
    rewrite filter_none; [reflexivity|].
    intros r Hr.
    destruct (produced_shape _ Hb) as (_ & Hpos & _).
    destruct (produced_tenths r (Hrest r Hr)) as [kr Tr].
    apply (float_sub_below _ _ kb kr Tb Tr).
    assert (spike_percentage baseline <= 0) as Hb0.
    { apply Qnot_lt_le. intros Hs. apply Hpos in Hs. apply Qgtb_lt in Hs.
      cbn [List.filter] in Ev. rewrite Hs in Ev. discriminate Ev. }
    pose proof (tenths_range _ _ Tr) as Rr. lra. }
  split; [exact Hrecs|]. split.
  - intros result Hin.
    destruct (produced_tenths result (Hrest result Hin)) as [kr Tr].
    split; [apply (float_sub_above _ _ kb kr Tb Tr)|].
    split; [apply (float_sub_below _ _ kb kr Tb Tr)
           |apply (float_sub_text _ _ kb kr Tb Tr)].
  - intros x -> Hbs Hbj Hxs Hxj. rewrite Hrecs. cbn [List.filter].
    rewrite (float_sub_comp _ 30 _ 5 Hbs Hxs).
    assert (Qgtb (float_sub 30 5) 5 = true) as -> by (vm_compute; reflexivity).
    cbn [map]. unfold recommend.
    rewrite (float_sub_comp _ 30 _ 5 Hbs Hxs), (float_sub_comp _ 10 _ 2 Hbj Hxj).
    assert (format_f 1 (float_sub 30 5) = "25.0"%string) as ->
      by (vm_compute; reflexivity).
    assert (format_f 2 (float_sub 10 2) = "8.00"%string) as ->
      by (vm_compute; reflexivity).
    reflexivity.
Qed.

Lemma recommendations_rule_witness :
  match
    run_ping_test "Baseline" "current"
      (probes_of_list [Some 5; Some 5; Some 5; Some 5; Some 5; Some 5; Some 5;
                       Some 20; Some 57.5; Some 20]),
    run_ping_test "settingX" "disabled"
      (probes_of_list [Some 1; Some 1; Some 1; Some 1; Some 1; Some 1; Some 1;
                       Some 1; Some 1; Some 1; Some 20; Some 1; Some 1; Some 1;
                       Some 1; Some 1; Some 1; Some 1; Some 1; Some 1])
  with
  | Returned b, Returned x =>
      recommendations (generate_report ∅ [b; x]) =
      [ {| setting := "settingX";
           action := "Set to disabled";
           spike_reduction := "25.0%";
           jitter_change := "8.00ms" |} ]
  | _, _ => False
  end.
Proof.
  destruct (run_ping_test "Baseline" _ _) as [b|] eqn:Eb;
    [|vm_compute in Eb; discriminate Eb].
  destruct (run_ping_test "settingX" _ _) as [x|] eqn:Ex;
    [|vm_compute in Ex; discriminate Ex].
  assert (Forall produced [b; x]) as Hprod.
  { repeat constructor.
    - eapply produced_by; [|exact Eb]. apply probes_of_list_nonneg.
      repeat constructor; discriminate.
    - eapply produced_by; [|exact Ex]. apply probes_of_list_nonneg.
      repeat constructor; discriminate. }
  vm_compute in Eb. injection Eb as <-. vm_compute in Ex. injection Ex as <-.
  apply (proj2 (proj2 (recommendations_rule ∅ _ _ Hprod)) _ eq_refl);
    reflexivity.
Defined.

(** At a difference of exactly 5 the doubles decide.  A baseline with one
    spike in twelve replies stands at 8.3 %, an experiment with one spike in
    thirty at 3.3 %: the two percentages differ by 5, not by more, and the
    experiment is recommended all the same, with a reduction of 5.0%,
    because the doubles nearest to 8.3 and 3.3 differ by a little more
    than 5. *)
Lemma recommendation_at_exactly_five :
  match
    run_ping_test "Baseline" "current"
      (probes_of_list [Some 5; Some 5; Some 5; Some 5; Some 5; Some 5; Some 5;
                       Some 5; Some 5; Some 5; Some 5; Some 20]),
    run_ping_test "settingX" "disabled"
      (probes_of_list [Some 1; Some 1; Some 1; Some 1; Some 1; Some 1; Some 1;
                       Some 1; Some 1; Some 1; Some 1; Some 1; Some 1; Some 1;
                       Some 1; Some 1; Some 1; Some 1; Some 1; Some 1; Some 1;
                       Some 1; Some 1; Some 1; Some 1; Some 1; Some 1; Some 1;
                       Some 1; Some 20])
  with
  | Returned b, Returned x =>
      spike_percentage b == 8.3 /\ spike_percentage x == 3.3
      /\ ~ 5 < spike_percentage b - spike_percentage x
      /\ recommendations (generate_report ∅ [b; x]) =
         [ {| setting := "settingX";
              action := "Set to disabled";
              spike_reduction := "5.0%";
              jitter_change := "0.70ms" |} ]
  | _, _ => False
  end.
Proof.
  vm_compute. repeat split; try reflexivity. discriminate.
Qed.

End Recommendations.

(** ** The summary of the continuous monitor *)

Section MonitorSummary.

Import JitterCheck.

Lemma on_interrupt_fields (tgt : string) (st : Stats) :
  sent st <> O ->
  let loss_pct := (Qnat (sent st) - Qnat (received st)) / Qnat (sent st) * 100 in
  let avg_jitter := mean_or_zero (jitter_values st) in
  exists mx,
    match rtts st with
    | [] => mx = 0
    | _ :: _ => py_max (rtts st) = Returned mx
    end
    /\ on_interrupt tgt st =
       Returned (Some
         {| target := tgt;
            duration_seconds := Qnat (sent st) * INTERVAL;
            total_packets := sent st;
            packet_loss_pct := py_round loss_pct 2;
            avg_latency_ms := py_round (mean_or_zero (rtts st)) 2;
            max_latency_ms := py_round mx 2;
            avg_jitter_ms := py_round avg_jitter 2;
            stability_score :=
              if Qgtb loss_pct 0 || Qgtb avg_jitter 5 then "POOR" else "GOOD";
            diagnosis :=
              (if Qgtb loss_pct 0 then [loss_message] else []) ++
              (if Qgtb avg_jitter 4
               then ["High Jitter (Mouse floatiness imminent)"%string]
               else []) ++
              (if Qgtb (Qnat (spikes st)) (Qnat (sent st) * 0.05)
               then ["Frequent Latency Spikes (Background process interruption)"%string]
               else []) |}).
Proof.
  intros H. unfold on_interrupt.
  destruct (Nat.eqb_spec (sent st) 0) as [E|_]; [contradiction|].
  unfold py_div. rewrite (Qnat_nonzero _ H).
  destruct (rtts st), (jitter_values st); cbn; eexists; split; reflexivity.
Qed.

Lemma loss_pct_bounds (s r : nat) :
  s <> O -> (r <= s)%nat ->
  let loss_pct := (Qnat s - Qnat r) / Qnat s * 100 in
  0 <= loss_pct /\ loss_pct <= 100
  /\ (r = s -> loss_pct == 0) /\ (r = O -> loss_pct == 100)
  /\ (Qgtb loss_pct 0 = true <-> (r < s)%nat).
Proof.
  intros Hs Hr loss_pct.
  assert (0 < Qnat s) as Hpos by (unfold Qnat, Qlt; simpl; lia).
  assert (Qnat r <= Qnat s) as Hle by (unfold Qnat; rewrite <- Zle_Qle; lia).
  assert (0 <= Qnat r) as Hr0 by (unfold Qnat, Qle; simpl; lia).
  assert (0 <= (Qnat s - Qnat r) / Qnat s) as H0.
  { apply Qle_shift_div_l; [exact Hpos|]. rewrite Qmult_0_l.
    unfold Qminus. rewrite <- (Qplus_opp_r (Qnat r)).
    apply Qplus_le_compat; [exact Hle | apply Qle_refl]. }
  assert ((Qnat s - Qnat r) / Qnat s <= 1) as H1.
  { apply Qle_shift_div_r; [exact Hpos|]. rewrite Qmult_1_l.
    unfold Qminus. rewrite <- (Qplus_0_r (Qnat s)) at 2.
    apply Qplus_le_compat; [apply Qle_refl|].
    apply (Qopp_le_compat 0 (Qnat r)), Hr0. }
  split; [|split; [|split; [|split]]].
  - subst loss_pct. apply Qmult_le_0_compat; [exact H0 | discriminate].
  - subst loss_pct. rewrite <- (Qmult_1_l 100) at 2.
    apply Qmult_le_compat_r; [exact H1 | discriminate].
  - intros ->. subst loss_pct. unfold Qdiv, Qminus. rewrite Qplus_opp_r. ring.
  - intros ->. subst loss_pct. change (Qnat 0) with 0. field.
    intros E. rewrite E in Hpos. discriminate Hpos.
  - rewrite Qgtb_lt. subst loss_pct. split.
    + intros Hlt. destruct (Nat.eq_dec r s) as [->|Hne]; [|lia].
      exfalso. revert Hlt. unfold Qdiv, Qminus. rewrite Qplus_opp_r.
      rewrite !Qmult_0_l. discriminate.
    + intros Hlt.
      apply (Qlt_le_trans _ ((Qnat s - Qnat r) / Qnat s * 1)).
      * rewrite Qmult_1_r. apply Qlt_shift_div_l; [exact Hpos|].
        rewrite Qmult_0_l. unfold Qnat, Qminus.
        rewrite <- inject_Z_opp, <- inject_Z_plus. 
        change 0 with (inject_Z 0). rewrite <- Zlt_Qlt. lia.
      * apply Qmult_le_l; [|discriminate].
        apply Qlt_shift_div_l; [exact Hpos|].
        rewrite Qmult_0_l. unfold Qnat, Qminus.
        rewrite <- inject_Z_opp, <- inject_Z_plus. 
        change 0 with (inject_Z 0). rewrite <- Zlt_Qlt. lia.
Qed.

Lemma mean_or_zero_nonneg (l : list Q) :
  Forall (fun j => 0 <= j) l -> 0 <= mean_or_zero l.
Proof.
  intros H. destruct l as [|x t]; [apply Qle_refl|]. exact (mean_nonneg (x :: t) H).
Qed.

(** X5.  Interrupted after at least one probe, the monitor produces a
    summary for the target it was given whose packet count is the number
    of probes and whose duration is that count times the interval.  The
    loss percentage lies between 0 and 100, the average latency does not
    exceed the maximum, and the average jitter is not negative.  With no
    loss the loss percentage is 0; with every probe lost it is 100 and the
    three averages are 0. *)
Theorem summary_numbers (tgt : string) (probes : list (option Q)) :
  probes <> [] ->
  exists js,
    (analyze_lan tgt probes).2 = Returned (Some js)
    /\ target js = tgt
    /\ total_packets js = length probes
    /\ duration_seconds js == Qnat (length probes) * INTERVAL
    /\ 0 <= packet_loss_pct js /\ packet_loss_pct js <= 100
    /\ avg_latency_ms js <= max_latency_ms js
    /\ 0 <= avg_jitter_ms js
    /\ (length (omap id probes) = length probes -> packet_loss_pct js == 0)
    /\ (omap id probes = [] ->
        packet_loss_pct js == 100 /\ avg_latency_ms js == 0
        /\ max_latency_ms js == 0 /\ avg_jitter_ms js == 0).
Proof.
  intros Hne. rewrite analyze_lan_eq. cbn [snd].
  destruct (loop_accounting probes start) as (H1 & H2 & H3 & _).
  cbn [start stats sent rtts received app Nat.add] in H1, H2, H3.
  pose proof (loop_jitter_nonneg probes start (List.Forall_nil _)) as Hj.
  destruct (loop_jitter_length probes start) as (J1 & _).
  cbn [start stats jitter_values length Nat.add] in J1.
  set (st := stats (loop start probes).1) in *.
  assert (sent st <> O) as Hs.
  { rewrite H1. destruct probes; [contradiction | discriminate]. }
  assert (received st <= sent st)%nat as Hr.
  { rewrite H1, H3. apply omap_length_le. }
  destruct (on_interrupt_fields tgt st Hs) as (mx & Hmx & ->).
  destruct (loss_pct_bounds (sent st) (received st) Hs Hr) as (L0 & L100 & Lz & La & _).
  eexists. split; [reflexivity|].
  cbn [target total_packets duration_seconds packet_loss_pct avg_latency_ms
       max_latency_ms avg_jitter_ms].
  split; [reflexivity|]. split; [exact H1|]. split; [rewrite H1; reflexivity|].
  split; [apply py_round_nonneg, L0|].
  split.
  { apply Qle_trans with (py_round 100 2); [|vm_compute; discriminate].
    apply py_round_mono, L100. }
  split.
  { apply py_round_mono. destruct (rtts st) as [|x t]; [subst mx; apply Qle_refl|].
    destruct (py_max_bounds _ _ _ Hmx) as (_ & Hmax).
    exact (mean_le_max x t mx Hmax). }
  split; [apply py_round_nonneg, mean_or_zero_nonneg, Hj|].

  split.
  { intros Hall. apply py_round_zero, Lz. rewrite H1, H3. exact Hall. }
  intros Hnone. rewrite Hnone in H2, H3, J1. cbn [length] in H3, J1.
  rewrite H2 in Hmx. subst mx. rewrite H2.
  destruct (jitter_values st) as [|? ?]; [|cbn [length] in J1; lia].
  split; [|repeat split; apply py_round_zero; reflexivity].
  rewrite (py_round_comp _ 100 2 (La H3)). reflexivity.
Qed.

Lemma summary_numbers_witness :
  exists js,
    (analyze_lan "192.168.1.1" [Some 5; None; Some 7]).2 = Returned (Some js)
    /\ total_packets js = 3%nat.
Proof.
  destruct (summary_numbers "192.168.1.1" [Some 5; None; Some 7])
    as (js & H & _ & Ht & _); [discriminate|].
  exists js. split; assumption.
Defined.

(** X6.  The stability score of the summary is GOOD exactly when no probe
    was lost and the mean jitter is at most 5 ms; the packet-loss message
    is in the diagnosis exactly when a probe was lost; and an empty
    diagnosis implies the score GOOD. *)
Theorem summary_verdict (tgt : string) (probes : list (option Q)) :
  probes <> [] ->
  exists js,
    (analyze_lan tgt probes).2 = Returned (Some js)
    /\ (stability_score js = "GOOD"%string <->
        length (omap id probes) = length probes
        /\ mean_or_zero (jitter_values (stats (loop start probes).1)) <= 5)
    /\ (In loss_message (diagnosis js) <-> (length (omap id probes) < length probes)%nat)
    /\ (diagnosis js = [] -> stability_score js = "GOOD"%string).
Proof.
  intros Hne. rewrite analyze_lan_eq. cbn [snd].
  destruct (loop_accounting probes start) as (H1 & H2 & H3 & _).
  cbn [start stats sent rtts received app Nat.add] in H1, H2, H3.
  set (st := stats (loop start probes).1) in *.
  assert (sent st <> O) as Hs.
  { rewrite H1. destruct probes; [contradiction | discriminate]. }
  assert (received st <= sent st)%nat as Hr.
  { rewrite H1, H3. apply omap_length_le. }
  destruct (on_interrupt_fields tgt st Hs) as (mx & Hmx & ->).
  destruct (loss_pct_bounds (sent st) (received st) Hs Hr) as (_ & _ & _ & _ & Hl).
  eexists. split; [reflexivity|].
  cbn [stability_score diagnosis].
  destruct (Qgtb ((Qnat (sent st) - Qnat (received st)) / Qnat (sent st) * 100) 0) eqn:El.
  - assert (length (omap id probes) < length probes)%nat as Hlt.
    { rewrite <- H3, <- H1. apply Hl. reflexivity. }
    cbn [orb app]. split; [|split].
    + split; [discriminate | intros [E _]; lia].
    + split; [intros _; exact Hlt | intros _; left; reflexivity].
    + discriminate.
  - assert (~ (length (omap id probes) < length probes)%nat) as Hge.
    { rewrite <- H3, <- H1. intros H. apply Hl in H. discriminate H. }
    pose proof (omap_length_le id probes) as Hle.
    cbn [orb app]. split; [|split].
    + destruct (Qgtb (mean_or_zero (jitter_values st)) 5) eqn:Ej.
      * apply Qgtb_lt in Ej. split; [discriminate|].
        intros [_ H]. exfalso. exact (Qlt_not_le _ _ Ej H).
      * apply Qgtb_le in Ej. split; [intros _; split; [lia | exact Ej] | reflexivity].
    + split; [|intros H; contradiction].
      intros Hin. exfalso. 
      destruct (Qgtb (mean_or_zero (jitter_values st)) 4);
        destruct (Qgtb (Qnat (spikes st)) (Qnat (sent st) * 0.05));
        cbn in Hin; unfold loss_message in Hin;
        repeat (destruct Hin as [Hin|Hin]; [discriminate Hin|]); exact Hin.
    + destruct (Qgtb (mean_or_zero (jitter_values st)) 4) eqn:E4; [discriminate|].
      intros _. apply Qgtb_le in E4.
      destruct (Qgtb (mean_or_zero (jitter_values st)) 5) eqn:E5; [|reflexivity].
      apply Qgtb_lt in E5. exfalso. apply (Qlt_not_le _ _ E5).
      apply Qle_trans with 4; [exact E4 | discriminate].
Qed.

Lemma summary_verdict_witness :
  exists js,
    (analyze_lan "192.168.1.1" [Some 5; None; Some 7]).2 = Returned (Some js)
    /\ In loss_message (diagnosis js).
Proof.
  destruct (summary_verdict "192.168.1.1" [Some 5; None; Some 7])
    as (js & H & _ & Hl & _); [discriminate|].
  exists js. split; [exact H|]. apply Hl. cbn. lia.
Defined.

End MonitorSummary.

(** ** The output parsers *)

Section Parsers.
Import Optimizer.

Lemma rev_app_append (a b acc : string) :
  String.rev_app (a ++ b) acc = String.rev_app b (String.rev_app a acc).
Proof.
  revert acc. induction a as [|c a IH]; intros acc; [reflexivity|].
  cbn. apply IH.
Qed.

Lemma rev_app_rev_app (v acc acc' : string) :
  String.rev_app (String.rev_app v acc) acc' = String.rev_app acc (v ++ acc')%string.
Proof.
  revert acc acc'. induction v as [|c v IH]; intros acc acc'; [reflexivity|].
  cbn. rewrite IH. reflexivity.
Qed.

Lemma append_empty_r (s : string) : (s ++ "")%string = s.
Proof. induction s as [|c s IH]; [reflexivity|]. rewrite append_cons, IH. reflexivity. Qed.

Lemma contains_colon_cons (c : ascii) (t : string) :
  contains ":" (String c t) = Ascii.eqb c ":" || contains ":" t.
Proof.
  cbn [contains String.prefix]. f_equal.
  destruct (ascii_dec ":" c) as [<-|Hne].
  - destruct t; reflexivity.
  - symmetry. apply Ascii.eqb_neq. intros ->. exact (Hne eq_refl).
Qed.

Lemma take_until_rev_app (v acc : string) :
  contains ":" v = false ->
  take_until ":" (String.rev_app v acc) = String.rev_app v (take_until ":" acc).
Proof.
  revert acc. induction v as [|c v IH]; intros acc H; [reflexivity|].
  rewrite contains_colon_cons in H. apply orb_false_iff in H. destruct H as [Hc Hv].
  cbn [String.rev_app]. rewrite (IH _ Hv). cbn [take_until]. rewrite Hc. reflexivity.
Qed.

Lemma contains_colon_append (a b : string) :
  contains ":" (a ++ ":" ++ b) = true.
Proof.
  induction a as [|c a IH].
  - change ("" ++ ":" ++ b)%string with (String ":" b).
    rewrite contains_colon_cons. reflexivity.
  - rewrite append_cons, contains_colon_cons, IH. apply orb_true_r.
Qed.

Lemma last_field_of_line (oid v : string) :
  contains ":" v = false ->
  last_field ":" (oid ++ ":" ++ (" " ++ v)) = String " " v.
Proof.
  intros Hc. unfold last_field, String.rev.
  rewrite !rev_app_append.
  rewrite (take_until_rev_app _ _ Hc).
  change (take_until ":" (String.rev_app " " (String.rev_app ":" (String.rev_app oid ""))))
    with " "%string.
  rewrite rev_app_rev_app, append_empty_r. reflexivity.
Qed.

(** The white space [strip] removes includes the separators U+001C to
    U+001F, U+0085 and U+00A0. *)
Lemma strip_separators :
  strip (String "028" (String "133" (String "3" (String "160" (String "031" "")))))
  = "3"%string.
Proof. reflexivity. Qed.

(** X7.  [parse_sysctl] recovers a value from the line sysctl prints for
    it, [oid: value], whatever the name of the setting, provided the value
    has no colon and no white space at either end.  Such a value printed
    alone, without the name, also parses to itself. *)
Theorem parse_sysctl_round_trip (oid v : string) :
  contains ":" v = false -> strip v = v ->
  parse_sysctl (oid ++ ": " ++ v) = v
  /\ parse_sysctl v = v.
Proof.
  intros Hc Hs. split.
  - unfold parse_sysctl.
    change (oid ++ ": " ++ v)%string with (oid ++ ":" ++ (" " ++ v))%string.
    rewrite contains_colon_append, (last_field_of_line oid v Hc).
    unfold strip. change (lstrip (String " " v)) with (lstrip v). exact Hs.
  - unfold parse_sysctl. rewrite Hc. exact Hs.
Qed.

Lemma parse_sysctl_round_trip_witness :
  parse_sysctl ("net.inet.tcp.delayed_ack" ++ ": " ++ "3") = "3"%string.
Proof.
  apply (proj1 (parse_sysctl_round_trip "net.inet.tcp.delayed_ack" "3" eq_refl eq_refl)).
Defined.

End Parsers.

(** ** Commands and results of a quiet run *)

Section Tracking.
Import Optimizer.

Lemma performs_ret {A : Type} (hb : bool) (a : A) : performs hb (ret a) [] [].
Proof.
  intros w H. exists a, w, []. rewrite app_nil_r. repeat split; [constructor | exact H].
Qed.

Lemma performs_bind {A B : Type} (hb : bool) (c : Run A) (k : A -> Run B)
    (c1 c2 : list Cmd) (l1 l2 : list (string * string)) :
  performs hb c c1 l1 -> (forall a, performs hb (k a) c2 l2) ->
  performs hb (bind c k) (c1 ++ c2) (l1 ++ l2).
Proof.
  intros Hc Hk w H.
  destruct (Hc w H) as (a & w1 & rs1 & E1 & Hh1 & Hr1 & Hl1 & Hp1 & Hs1 & Ho1 & Hb1 & Hf1 & Hc1).
  destruct (Hk a w1 Hb1)
    as (b & w2 & rs2 & E2 & Hh2 & Hr2 & Hl2 & Hp2 & Hs2 & Ho2 & Hb2 & Hf2 & Hc2).
  exists b, w2, (rs1 ++ rs2).
  split.
  { unfold bind. destruct (c w) as [[o wa] eva]. cbn [fst] in E1.
    injection E1 as -> ->. destruct (k a w1) as [[o' wb] evb]. cbn [fst] in E2.
    injection E2 as -> ->. reflexivity. }
  rewrite run_cmds_app, <- Hh1, Hh2, Hr2, Hr1, <- app_assoc, map_app, Hl1, Hl2.
  repeat split; try congruence. apply Forall_app. split; assumption.
Qed.

Lemma performs_bind_hb {B : Type} (hb : bool) (k : bool -> Run B)
    (cmds : list Cmd) (labels : list (string * string)) :
  performs hb (k hb) cmds labels -> performs hb (bind (gets has_blueutil) k) cmds labels.
Proof. intros Hk w H. rewrite bind_gets, H. exact (Hk w H). Qed.

Lemma performs_append (hb : bool) (r : TestResult) :
  packets_sent r = PINGS_PER_TEST ->
  performs hb (append_result r) [] [label_of r].
Proof.
  intros Hp w H. exists tt, (set_results w (results w ++ [r])), [r].
  repeat split; [|exact H]. constructor; [exact Hp | constructor].
Qed.

Lemma run_ping_test_returns (label value : string) (probes : nat -> option Q) :
  exists r,
    run_ping_test label value probes = Returned r
    /\ label_of r = (label, value) /\ packets_sent r = PINGS_PER_TEST.
Proof.
  unfold run_ping_test. rewrite collect_spec.
  destruct (omap probes (seq 0 PINGS_PER_TEST)) as [|x t].
  - eexists. split; [reflexivity|]. split; reflexivity.
  - destruct (statistics_of_nonempty label value x t
                (PINGS_PER_TEST - length (x :: t))) as (avg & mx & mn & _ & _ & _ & H).
    eexists. split; [exact H|]. split; reflexivity.
Qed.

Section QuietTracking.

Variable env : Env.
Hypothesis Hq : quiet env.

Lemma performs_run_cmd (hb : bool) (c : Cmd) : performs hb (run_cmd env c) [c] [].
Proof.
  intros w H. rewrite (run_cmd_quiet env c w Hq). cbn [fst].
  do 2 eexists. exists []. rewrite app_nil_r.
  repeat split; [constructor | exact H].
Qed.

Lemma performs_sleep (hb : bool) (s : Q) : performs hb (sleep env s) [] [].
Proof.
  intros w H. unfold sleep, bind, wait. rewrite Hq. cbn.
  do 2 eexists. exists []. rewrite app_nil_r.
  repeat split; [constructor | exact H].
Qed.

Lemma performs_ping (hb : bool) (label value : string) (k : TestResult -> Run unit)
    (cmds : list Cmd) (labels : list (string * string)) :
  (forall r, label_of r = (label, value) -> packets_sent r = PINGS_PER_TEST ->
             performs hb (k r) cmds labels) ->
  performs hb (bind (call_run_ping_test env label value) k) cmds labels.
Proof.
  intros Hk w H.
  destruct (run_ping_test_returns label value (pings env (clock w))) as (r & Hr & Hl & Hp).
  assert (call_run_ping_test env label value w
          = (Returned r, advance w, [PingTestCalled label value])) as E.
  { unfold call_run_ping_test. rewrite bind_emit, bind_gets.
    unfold bind, wait. rewrite Hq. cbn. rewrite Hr. reflexivity. }
  rewrite (bind_returned _ _ _ _ _ _ E). cbn [fst snd].
  destruct (Hk r Hl Hp (advance w) H) as (a & w' & rs & E' & Hrest).
  exists a, w', rs. split; [|exact Hrest].
  destruct (k r (advance w)) as [[o wb] evb]. exact E'.
Qed.

Lemma performs_emit_bind {B : Type} (hb : bool) (ev : Event) (k : unit -> Run B)
    (cmds : list Cmd) (labels : list (string * string)) :
  performs hb (k tt) cmds labels -> performs hb (bind (emit ev) k) cmds labels.
Proof.
  intros Hk w H. rewrite bind_emit. cbn [fst]. 
  destruct (Hk w H) as (a & w' & rs & E & Hrest).
  exists a, w', rs. split; [|exact Hrest].
  destruct (k tt w) as [[o wb] evb]. exact E.
Qed.

Lemma performs_cmd_then {B : Type} (hb : bool) (c : Cmd) (k : Run B) :
  performs hb k [] [] -> performs hb (bind (run_cmd env c) (fun _ => k)) [c] [].
Proof.
  intros Hk. change [c] with ([c] ++ []). change (@nil (string * string)) with (@nil (string * string) ++ []).
  apply performs_bind; [apply performs_run_cmd | intros _; exact Hk].
Qed.

Lemma performs_apply (hb : bool) (nm : string) (enable : bool) :
  performs hb (apply_setting env nm enable) (apply_cmds hb nm enable) [].
Proof.
  unfold apply_setting, apply_cmds. apply performs_emit_bind.
  destruct (String.eqb nm "TCP Delayed ACK");
    [apply performs_cmd_then, performs_ret|].
  destruct (String.eqb nm "TCP Send/Recv Autotuning");
    [apply performs_cmd_then, performs_ret|].
  destruct (String.eqb nm "AWDL"); [apply performs_cmd_then, performs_ret|].
  destruct (String.eqb nm "Bluetooth"); [|apply performs_ret].
  apply performs_bind_hb. destruct hb; [|apply performs_ret].
  apply performs_cmd_then, performs_sleep.
Qed.

End QuietTracking.
End Tracking.

Section Battery.
Import Optimizer.

Section QuietBattery.

Variable env : Env.
Hypothesis Hq : quiet env.

Lemma run_all_tests_eq :
  run_all_tests env =
  bind (save_original_states env)
    (fun _ =>
       bind (try_finally (battery env) (restore_original_states env))
         (fun _ => call_generate_report env)).
Proof. reflexivity. Qed.

Lemma performs_if {A : Type} (hb b : bool) (c1 c2 : Run A) (a1 a2 : list Cmd)
    (l1 l2 : list (string * string)) :
  performs hb c1 a1 l1 -> performs hb c2 a2 l2 ->
  performs hb (if b then c1 else c2) (if b then a1 else a2) (if b then l1 else l2).
Proof. destruct b; auto. Qed.

Lemma performs_append_as (hb : bool) (r : TestResult) (lv : string * string) :
  label_of r = lv -> packets_sent r = PINGS_PER_TEST ->
  performs hb (append_result r) [] [lv].
Proof. intros <-. apply performs_append. Qed.

Ltac perform :=
  first
    [ apply performs_ret
    | apply (performs_sleep env Hq)
    | apply (performs_apply env Hq)
    | eapply performs_append_as; eassumption
    | apply (performs_ping env Hq); intros ? ? ?
    | eapply performs_bind_hb
    | eapply performs_bind; [|intros ?]
    | eapply performs_if ].

Lemma performs_battery (hb : bool) :
  exists cmds labels,
    performs hb (battery env) cmds labels
    /\ cmds = battery_cmds hb /\ labels = battery_labels hb.
Proof.
  unfold battery. do 2 eexists. split.
  - repeat perform.
  - unfold apply_cmds. cbn. destruct hb; split; reflexivity.
Qed.

End QuietBattery.
End Battery.

(** ** What the capture records *)

Section Capture.
Import Optimizer.

Variable env : Env.
Hypothesis Hq : quiet env.

Lemma set_host_same (w : World) : set_host w (host w) = w.
Proof. destruct w; reflexivity. Qed.

Lemma init_quiet_fields (w : World) :
  exists w',
    __init__ env w = (Returned tt, w', [])
    /\ host w' = host w /\ settings w' = settings w /\ results w' = []
    /\ original_states w' = ∅
    /\ has_blueutil w' = blueutil_installed (host w)
    /\ report_file w' = report_file w.
Proof.
  unfold __init__, _check_blueutil.
  rewrite bind_modify, bind_assoc, bind_run_cmd_quiet by assumption.
  cbn [exec host set_captured set_results].
  destruct (blueutil_installed (host w)); cbn; eexists; repeat split.
Qed.

Lemma save_setting_quiet (i : nat) (s : SettingState) (oid : string) (w : World) :
  settings w !! i = Some s -> get_cmd s = SysctlRead oid ->
  save_setting env i w =
  (Returned tt,
   set_captured (advance w)
     (<[i := with_original_value s (parse_current s (exec (SysctlRead oid) (host w)).1.1)]>
        (settings w))
     (<[name s := parse_current s (exec (SysctlRead oid) (host w)).1.1]>
        (original_states w)),
   []).
Proof.
  intros Hs Hc. unfold save_setting. rewrite bind_gets, Hs, Hc.
  rewrite bind_run_cmd_quiet by assumption.
  assert ((exec (SysctlRead oid) (host w)).2 = host w) as ->.
  { cbn [exec]. destruct (sysctl (host w) !! oid); reflexivity. }
  destruct (exec (SysctlRead oid) (host w)) as [[output code] h'].
  cbn [fst snd]. unfold modify. 
  rewrite <- (set_host_same (advance w)) at 2 3 4. reflexivity.
Qed.

Lemma get_awdl_state_quiet (w : World) :
  get_awdl_state env w = (Returned (on_off (awdl0_active (host w))), advance w, []).
Proof.
  unfold get_awdl_state. rewrite bind_run_cmd_quiet by assumption.
  cbn [exec fst snd]. rewrite <- (set_host_same (advance w)) at 2.
  destruct (awdl0_active (host w)); vm_compute; reflexivity.
Qed.

Lemma get_bluetooth_state_quiet (w : World) :
  exists w',
    get_bluetooth_state env w = (Returned (on_off (bluetooth_on (host w))), w', [])
    /\ host w' = host w /\ same_object w w'.
Proof.
  unfold get_bluetooth_state. rewrite bind_run_cmd_quiet by assumption.
  cbn [exec]. destruct (blueutil_installed (host w)).
  - cbn [fst snd Z.eqb]. exists (advance w).
    rewrite <- (set_host_same (advance w)) at 2.
    split; [|split; [reflexivity | repeat split]].
    destruct (bluetooth_on (host w)); reflexivity.
  - cbn [fst snd Z.eqb]. rewrite bind_run_cmd_quiet by assumption.
    cbn [exec host set_host advance fst snd].
    exists (advance (advance w)).
    split; [|split; [reflexivity | repeat split]].
    destruct (bluetooth_on (host w)); destruct w; reflexivity.
Qed.

Lemma save_quiet (w : World) :
  settings w = SETTINGS ->
  let v1 := captured_sysctl (host w) "net.inet.tcp.delayed_ack" in
  let v2 := captured_sysctl (host w) "net.inet.tcp.doautorcvbuf" in
  exists w',
    save_original_states env w = (Returned tt, w', [SaveCalled])
    /\ host w' = host w
    /\ settings w' = captured_registry v1 v2
    /\ original_states w' =
       <["Bluetooth" := on_off (bluetooth_on (host w))]>
         (<["AWDL" := on_off (awdl0_active (host w))]>
            (<["TCP Send/Recv Autotuning" := v2]>
               (<["TCP Delayed ACK" := v1]> (original_states w))))
    /\ results w' = results w
    /\ has_blueutil w' = has_blueutil w
    /\ report_file w' = report_file w.
Proof.
  intros Hs v1 v2. unfold save_original_states.
  rewrite bind_emit. cbn [length SETTINGS seq for_each].
  rewrite !bind_assoc.
  erewrite (bind_silent _ _ _ _ _ (save_setting_quiet 0 _ "net.inet.tcp.delayed_ack" w _ _)).
  cbv beta. rewrite ?bind_assoc.
  erewrite (bind_silent _ _ _ _ _ (save_setting_quiet 1 _ "net.inet.tcp.doautorcvbuf" _ _ _)).
  cbv beta. rewrite ?bind_assoc, bind_ret.
  rewrite (bind_silent _ _ _ _ _ (get_awdl_state_quiet _)).
  rewrite bind_modify.
  match goal with
  | |- context [bind (get_bluetooth_state env) _ ?w0] =>
      destruct (get_bluetooth_state_quiet w0) as (w1 & E1 & H1 & F1)
  end.
  rewrite (bind_silent _ _ _ _ _ E1). unfold modify. cbn [fst snd].
  destruct F1 as (Fs & Fr & Fo & Fb & Ff & Fc).
  eexists. split; [reflexivity|].
  cbn [host settings original_states results has_blueutil report_file set_captured]. 
  rewrite H1, Fs, Fr, Fo, Fb, Ff.
  cbn [host settings original_states results has_blueutil report_file set_captured advance].
  rewrite Hs. repeat split.
  Unshelve.
  all: try (rewrite Hs; reflexivity); try reflexivity.
Qed.

End Capture.

Section RoundTrip.
Import Optimizer.

Lemma captured_sysctl_present (h : Host) (oid v : string) :
  sysctl h !! oid = Some v -> clean v -> captured_sysctl h oid = v.
Proof.
  intros Hv [Hc Hs]. unfold captured_sysctl. cbn [exec]. rewrite Hv. cbn [fst].
  unfold parse_sysctl.
  change (oid ++ ": " ++ v)%string with (oid ++ ":" ++ (" " ++ v))%string.
  rewrite contains_colon_append, (last_field_of_line oid v Hc).
  unfold strip. change (lstrip (String " " v)) with (lstrip v). exact Hs.
Qed.

(** Overwriting: a later write of the same sysctl hides an earlier one. *)
Lemma sysctl_write_hides (k v v' : string) (h : Host) :
  (exec (SysctlWrite k v') (exec (SysctlWrite k v) h).2).2
  = (exec (SysctlWrite k v') h).2.
Proof.
  rewrite !exec_sysctl_write.
  destruct (bool_decide (is_Some (sysctl h !! k)) && sudo_cached h) eqn:B;
    [|rewrite B; reflexivity].
  cbn [set_sysctl sysctl sudo_cached]. rewrite lookup_insert_eq.
  rewrite bool_decide_eq_true_2 by eauto.
  apply andb_true_iff in B. destruct B as [_ ->]. cbn [andb].
  unfold set_sysctl. cbn [sysctl awdl0_active bluetooth_on sudo_cached blueutil_installed].
  rewrite insert_insert_eq. reflexivity.
Qed.

End RoundTrip.

(** ** The host, field by field *)

Section Fields.
Import Optimizer.

Lemma exec_fields (c : Cmd) (h : Host) :
  (exec c h).2 =
  {| sysctl := sysctl_step (sudo_cached h) (sysctl h) c;
     awdl0_active := awdl_step (sudo_cached h) (awdl0_active h) c;
     bluetooth_on := bluetooth_step (blueutil_installed h) (bluetooth_on h) c;
     sudo_cached := sudo_cached h;
     blueutil_installed := blueutil_installed h |}.
Proof.
  destruct h as [m a b s i]. destruct c as [| |oid|k v| |up| |bv|]; cbn [exec snd
    sysctl awdl0_active bluetooth_on sudo_cached blueutil_installed sysctl_step awdl_step
    bluetooth_step].
  - destruct s; reflexivity.
  - destruct i; reflexivity.
  - destruct (m !! oid); reflexivity.
  - destruct (m !! k) eqn:E.
    + rewrite bool_decide_eq_true_2 by eauto. destruct s; reflexivity.
    + rewrite bool_decide_eq_false_2 by (intros [? [=]]). reflexivity.
  - reflexivity.
  - destruct s; reflexivity.
  - destruct i; reflexivity.
  - destruct i; [|reflexivity].
    destruct (String.eqb bv "1"); [reflexivity|]. destruct (String.eqb bv "0"); reflexivity.
  - reflexivity.
Qed.

Lemma run_cmds_fields (cmds : list Cmd) (h : Host) :
  run_cmds cmds h =
  {| sysctl := fold_left (sysctl_step (sudo_cached h)) cmds (sysctl h);
     awdl0_active := fold_left (awdl_step (sudo_cached h)) cmds (awdl0_active h);
     bluetooth_on := fold_left (bluetooth_step (blueutil_installed h)) cmds (bluetooth_on h);
     sudo_cached := sudo_cached h;
     blueutil_installed := blueutil_installed h |}.
Proof.
  revert h. induction cmds as [|c cmds IH]; intros h; [destruct h; reflexivity|].
  cbn [run_cmds fold_left]. fold (run_cmds cmds (exec c h).2).
  rewrite IH, exec_fields. reflexivity.
Qed.

Lemma sysctl_step_hides (s : bool) (m : gmap string string) (k v v' : string) :
  sysctl_step s (sysctl_step s m (SysctlWrite k v)) (SysctlWrite k v')
  = sysctl_step s m (SysctlWrite k v').
Proof.
  cbn [sysctl_step].
  destruct (bool_decide (is_Some (m !! k)) && s) eqn:B; [|rewrite B; reflexivity].
  rewrite lookup_insert_eq, bool_decide_eq_true_2 by eauto.
  apply andb_true_iff in B. destruct B as [_ ->]. cbn [andb].
  apply insert_insert_eq.
Qed.

Lemma sysctl_step_back (s : bool) (m : gmap string string) (k v' : string) :
  (forall v, m !! k = Some v -> v' = v) ->
  sysctl_step s m (SysctlWrite k v') = m.
Proof.
  intros H. cbn [sysctl_step]. destruct (m !! k) as [v|] eqn:E.
  - destruct (_ && _); [|reflexivity]. rewrite (H v eq_refl). apply insert_id, E.
  - rewrite bool_decide_eq_false_2 by (intros [? [=]]). reflexivity.
Qed.

Lemma battery_then_restore (h : Host) :
  sudo_cached h = true ->
  registry_clean h ->
  let hb := blueutil_installed h in
  run_cmds
    ([SysctlWrite "net.inet.tcp.delayed_ack" (captured_sysctl h "net.inet.tcp.delayed_ack");
      SysctlWrite "net.inet.tcp.doautorcvbuf" (captured_sysctl h "net.inet.tcp.doautorcvbuf")]
     ++ (if awdl0_active h then [IfconfigAwdl0Set true] else [])
     ++ (if hb then [BlueutilPowerSet (if bluetooth_on h then "1" else "0")] else []))
    (run_cmds (battery_cmds hb) h)
  = h.
Proof.
  intros Hs Hc hb. subst hb. rewrite <- run_cmds_app, run_cmds_fields, Hs.
  destruct h as [m a b s i]. cbn [sysctl awdl0_active bluetooth_on sudo_cached
    blueutil_installed] in *. subst s. f_equal.
  - set (h := {| sysctl := m; awdl0_active := a; bluetooth_on := b;
                 sudo_cached := true; blueutil_installed := i |}) in *.
    assert (forall oid v,
               In oid ["net.inet.tcp.delayed_ack"; "net.inet.tcp.doautorcvbuf"]%string
               /\ m !! oid = Some v ->
               captured_sysctl h oid = v) as Hv.
    { intros oid v [Hin E]. apply captured_sysctl_present; [exact E | exact (Hc oid v Hin E)]. }
    assert (fold_left (sysctl_step true)
              (battery_cmds i ++
               [SysctlWrite "net.inet.tcp.delayed_ack"
                  (captured_sysctl h "net.inet.tcp.delayed_ack");
                SysctlWrite "net.inet.tcp.doautorcvbuf"
                  (captured_sysctl h "net.inet.tcp.doautorcvbuf")] ++
               (if a then [IfconfigAwdl0Set true] else []) ++
               (if i then [BlueutilPowerSet (if b then "1" else "0")] else [])) m
            = sysctl_step true
                (sysctl_step true
                   (sysctl_step true
                      (sysctl_step true
                         (sysctl_step true m (SysctlWrite "net.inet.tcp.delayed_ack" "0"))
                         (SysctlWrite "net.inet.tcp.delayed_ack" "3"))
                      (SysctlWrite "net.inet.tcp.delayed_ack" "0"))
                   (SysctlWrite "net.inet.tcp.delayed_ack"
                      (captured_sysctl h "net.inet.tcp.delayed_ack")))
                (SysctlWrite "net.inet.tcp.doautorcvbuf"
                   (captured_sysctl h "net.inet.tcp.doautorcvbuf"))) as ->
      by (destruct a, i, b; reflexivity).
    rewrite !sysctl_step_hides.
    rewrite (sysctl_step_back true m "net.inet.tcp.delayed_ack")
      by (intros v E; apply Hv; split; [left; reflexivity | exact E]).
    apply sysctl_step_back. intros v E. apply Hv.
    split; [right; left; reflexivity | exact E].
  - destruct a, i, b; reflexivity.
  - destruct a, i, b; reflexivity.
Qed.

End Fields.

(** ** A whole quiet run *)

Section WholeRun.
Import Optimizer.

Lemma on_off_on (b : bool) : bool_decide (Some (on_off b) = Some "on"%string) = b.
Proof.
  destruct b; [apply bool_decide_eq_true_2; reflexivity|].
  apply bool_decide_eq_false_2. discriminate.
Qed.

Lemma captured_states_awdl (h : Host) :
  captured_states h !! "AWDL" = Some (on_off (awdl0_active h)).
Proof.
  unfold captured_states. rewrite lookup_insert_ne by discriminate.
  apply lookup_insert_eq.
Qed.

Lemma captured_states_bluetooth (h : Host) :
  captured_states h !! "Bluetooth" = Some (on_off (bluetooth_on h)).
Proof. apply lookup_insert_eq. Qed.

Lemma restore_cmds_captured (w : World) (h : Host) :
  settings w = captured_registry (captured_sysctl h "net.inet.tcp.delayed_ack")
                 (captured_sysctl h "net.inet.tcp.doautorcvbuf") ->
  original_states w = captured_states h ->
  restore_cmds w =
  [SysctlWrite "net.inet.tcp.delayed_ack" (captured_sysctl h "net.inet.tcp.delayed_ack");
   SysctlWrite "net.inet.tcp.doautorcvbuf" (captured_sysctl h "net.inet.tcp.doautorcvbuf")]
  ++ (if awdl0_active h then [IfconfigAwdl0Set true] else [])
  ++ (if has_blueutil w
      then [BlueutilPowerSet (if bluetooth_on h then "1" else "0")] else []).
Proof.
  intros Hs Ho. unfold restore_cmds. rewrite Hs, Ho.
  rewrite captured_states_awdl, captured_states_bluetooth, !on_off_on. reflexivity.
Qed.

Lemma quiet_main (env : Env) (h : Host) :
  quiet env -> sudo_cached h = true ->
  exists wf,
    (main env (boot h)).1 = (Returned tt, wf)
    /\ host wf =
       run_cmds
         ([SysctlWrite "net.inet.tcp.delayed_ack"
             (captured_sysctl h "net.inet.tcp.delayed_ack");
           SysctlWrite "net.inet.tcp.doautorcvbuf"
             (captured_sysctl h "net.inet.tcp.doautorcvbuf")]
          ++ (if awdl0_active h then [IfconfigAwdl0Set true] else [])
          ++ (if blueutil_installed h
              then [BlueutilPowerSet (if bluetooth_on h then "1" else "0")] else []))
         (run_cmds (battery_cmds (blueutil_installed h)) h)
    /\ map label_of (results wf) = battery_labels (blueutil_installed h)
    /\ Forall (fun r => packets_sent r = PINGS_PER_TEST) (results wf)
    /\ original_states wf = captured_states h
    /\ has_blueutil wf = blueutil_installed h
    /\ report_file wf = Some (generate_report (original_states wf) (results wf)).
Proof.
  intros Hq Hs. unfold main.
  rewrite (bind_silent _ _ _ _ _ (check_sudo_quiet env (boot h) Hq Hs)).
  destruct (init_quiet_fields env Hq (advance (boot h)))
    as (w0 & E0 & Hh0 & Hs0 & Hr0 & Ho0 & Hb0 & Hf0).
  rewrite (bind_silent _ _ _ _ _ E0).
  cbn [host settings boot advance] in Hh0, Hs0, Hb0.
  destruct (save_quiet env Hq w0 Hs0) as (w1 & E1 & Hh1 & Hs1 & Ho1 & Hr1 & Hb1 & Hf1).
  cbv zeta in Hs1, Ho1. rewrite Hh0 in *. rewrite Ho0 in Ho1. fold (captured_states h) in Ho1.
  destruct (performs_battery env Hq (blueutil_installed h)) as (cmds & labels & Hp & -> & ->).
  assert (has_blueutil w1 = blueutil_installed h) as Hb1' by congruence.
  destruct (Hp w1 Hb1') as ([] & w2 & rs & E2 & Hh2 & Hr2 & Hl2 & Hp2 & Hs2 & Ho2 & Hb2 & Hf2 & Hc2).
  destruct (restore_quiet env w2 Hq) as (w3 & E3 & Hh3 & (Fs & Fr & Fo & Fb & Ff & Fc)).
  rewrite (restore_cmds_captured w2 h) in Hh3 by congruence.
  rewrite Hb2, Hh2, Hh1 in Hh3.
  unfold try_except_KeyboardInterrupt. rewrite run_all_tests_eq.
  unfold bind at 1. rewrite E1.
  unfold bind at 1. unfold try_finally.
  destruct (battery env w1) as [[o2 w2'] ev2]. cbn [fst] in E2. injection E2 as -> ->.
  rewrite E3, (report_quiet env w3 Hq).
  eexists. split; [reflexivity|].
  cbn [host results original_states has_blueutil report_file set_report_file
       set_report_created advance].
  rewrite Fr, Fo, Fb, Hr2, Hr1, Hr0, Ho2, Ho1, Hb2. cbn [app].
  repeat split; assumption.
Qed.

End WholeRun.

(** ** Any world: the report file and the results *)

Section ReportFile.
Import Optimizer.

Lemma keeps_ret {A : Type} (a : A) : keeps_report (ret a).
Proof. intros w. split; reflexivity. Qed.

Lemma keeps_raise {A : Type} (e : exn) : keeps_report (@raise A e).
Proof. intros w. split; reflexivity. Qed.

Lemma keeps_gets {A : Type} (f : World -> A) : keeps_report (gets f).
Proof. intros w. split; reflexivity. Qed.

Lemma keeps_emit (ev : Event) : keeps_report (emit ev).
Proof. intros w. split; reflexivity. Qed.

Lemma keeps_lift {A : Type} (o : outcome A) : keeps_report (lift o).
Proof. intros w. split; reflexivity. Qed.

Lemma keeps_modify (f : World -> World) :
  (forall w, report_file (f w) = report_file w
             /\ report_created (f w) = report_created w) ->
  keeps_report (modify f).
Proof. intros H w. apply H. Qed.

Lemma keeps_bind {A B : Type} (c : Run A) (k : A -> Run B) :
  keeps_report c -> (forall a, keeps_report (k a)) -> keeps_report (bind c k).
Proof.
  intros Hc Hk w. unfold bind. specialize (Hc w).
  destruct (c w) as [[[a|e] w1] ev1]; [|exact Hc].
  specialize (Hk a w1). destruct (k a w1) as [[o w2] ev2].
  cbn [fst snd] in *. destruct Hc, Hk. split; congruence.
Qed.

Lemma keeps_for_each {A : Type} (l : list A) (f : A -> Run unit) :
  (forall x, keeps_report (f x)) -> keeps_report (for_each l f).
Proof.
  intros Hf. induction l as [|x l IH]; [apply keeps_ret|].
  cbn [for_each]. apply keeps_bind; [apply Hf | intros _; exact IH].
Qed.

Lemma keeps_try_finally {A : Type} (body : Run A) (cleanup : Run unit) :
  keeps_report body -> keeps_report cleanup -> keeps_report (try_finally body cleanup).
Proof.
  intros Hb Hc w. unfold try_finally. specialize (Hb w).
  destruct (body w) as [[o w1] ev1]. specialize (Hc w1).
  destruct (cleanup w1) as [[[u|e] w2] ev2]; cbn [fst snd] in *;
    destruct Hb, Hc; split; congruence.
Qed.

Lemma object_ret {A : Type} (a : A) : keeps_object (ret a).
Proof. intros w. apply same_object_refl. Qed.

Lemma object_raise {A : Type} (e : exn) : keeps_object (@raise A e).
Proof. intros w. apply same_object_refl. Qed.

Lemma object_gets {A : Type} (f : World -> A) : keeps_object (gets f).
Proof. intros w. apply same_object_refl. Qed.

Lemma object_emit (ev : Event) : keeps_object (emit ev).
Proof. intros w. apply same_object_refl. Qed.

Lemma object_bind {A B : Type} (c : Run A) (k : A -> Run B) :
  keeps_object c -> (forall a, keeps_object (k a)) -> keeps_object (bind c k).
Proof.
  intros Hc Hk w. unfold bind. specialize (Hc w).
  destruct (c w) as [[[a|e] w1] ev1]; [|exact Hc].
  specialize (Hk a w1). destruct (k a w1) as [[o w2] ev2].
  cbn [fst snd] in *. eapply same_object_trans; eassumption.
Qed.

Lemma object_for_each {A : Type} (l : list A) (f : A -> Run unit) :
  (forall x, keeps_object (f x)) -> keeps_object (for_each l f).
Proof.
  intros Hf. induction l as [|x l IH]; [apply object_ret|].
  cbn [for_each]. apply object_bind; [apply Hf | intros _; exact IH].
Qed.

Section ReportFileEnv.
Variable env : Env.

Lemma keeps_wait : keeps_report (wait env).
Proof. intros w. split; reflexivity. Qed.

Lemma keeps_run_cmd (c : Cmd) : keeps_report (run_cmd env c).
Proof.
  unfold run_cmd. apply keeps_bind; [apply keeps_wait|].
  intros [| |]; [|apply keeps_raise|apply keeps_ret].
  intros w. destruct (exec c (host w)) as [res h']. split; reflexivity.
Qed.

Ltac keeps :=
  repeat first
    [ apply keeps_ret | apply keeps_raise | apply keeps_gets | apply keeps_emit
    | apply keeps_lift | apply keeps_wait | apply keeps_run_cmd
    | apply keeps_modify; intros ?; split; reflexivity
    | apply keeps_for_each; intros ?
    | apply keeps_try_finally
    | apply keeps_bind; [|intros ?]
    | match goal with
      | x : (_ * _)%type |- _ => destruct x
      | |- keeps_report (match ?x with _ => _ end) => destruct x
      | |- keeps_report (if ?x then _ else _) => destruct x
      end ].

Lemma keeps_sleep (s : Q) : keeps_report (sleep env s).
Proof. unfold sleep. keeps. Qed.

Lemma keeps_check_sudo : keeps_report (check_sudo env).
Proof. unfold check_sudo. keeps. Qed.

Lemma keeps_init : keeps_report (__init__ env).
Proof. unfold __init__, _check_blueutil. keeps. Qed.

Lemma keeps_save : keeps_report (save_original_states env).
Proof. unfold save_original_states, save_setting, get_awdl_state, get_bluetooth_state. keeps. Qed.

Lemma keeps_restore : keeps_report (restore_original_states env).
Proof. unfold restore_original_states, restore_setting. keeps. Qed.

Lemma keeps_ping (label value : string) : keeps_report (call_run_ping_test env label value).
Proof. unfold call_run_ping_test. keeps. Qed.

Lemma keeps_apply (nm : string) (enable : bool) : keeps_report (apply_setting env nm enable).
Proof. unfold apply_setting. keeps. Qed.

Lemma keeps_battery : keeps_report (battery env).
Proof.
  unfold battery, append_result.
  repeat first
    [ apply keeps_ping | apply keeps_apply | apply keeps_sleep | apply keeps_ret
    | apply keeps_gets
    | apply keeps_modify; intros ?; split; reflexivity
    | apply keeps_bind; [|intros ?]
    | match goal with
      | |- keeps_report (if ?x then _ else _) => destruct x
      end ].
Qed.

Lemma object_run_cmd (c : Cmd) : keeps_object (run_cmd env c).
Proof.
  intros w. unfold run_cmd, bind, wait. cbn.
  destruct (fault_at env (clock w)); cbn;
    [destruct (exec c (host w)) as [res h']|..]; repeat split.
Qed.

Lemma object_restore : keeps_object (restore_original_states env).
Proof.
  unfold restore_original_states, restore_setting.
  repeat first
    [ apply object_ret | apply object_raise | apply object_gets | apply object_emit
    | apply object_run_cmd
    | apply object_for_each; intros ?
    | apply object_bind; [|intros ?]
    | match goal with
      | x : (_ * _)%type |- _ => destruct x
      | |- keeps_object (match ?x with _ => _ end) => destruct x
      | |- keeps_object (if ?x then _ else _) => destruct x
      end ].
Qed.

End ReportFileEnv.
End ReportFile.

Section Appending.
Import Optimizer.

Lemma appends_ret {A : Type} (hb : bool) (a : A) : appends_results hb (ret a) [].
Proof.
  intros w a' w' H [= <- <-]. split; [exact H|]. exists []. rewrite app_nil_r. repeat split. constructor.
Qed.

Lemma appends_raise {A : Type} (hb : bool) (e : exn) (l : list (string * string)) :
  appends_results hb (@raise A e) l.
Proof. intros w a w' _ [=]. Qed.

Lemma appends_gets {A : Type} (hb : bool) (f : World -> A) : appends_results hb (gets f) [].
Proof.
  intros w a' w' H [= <- <-]. split; [exact H|]. exists []. rewrite app_nil_r. repeat split. constructor.
Qed.

Lemma appends_emit (hb : bool) (ev : Event) : appends_results hb (emit ev) [].
Proof.
  intros w a' w' H [= <- <-]. split; [exact H|]. exists []. rewrite app_nil_r. repeat split. constructor.
Qed.

Lemma appends_modify (hb : bool) (f : World -> World) :
  (forall w, has_blueutil (f w) = has_blueutil w /\ results (f w) = results w) ->
  appends_results hb (modify f) [].
Proof.
  intros Hf w a' w' H [= <- <-]. destruct (Hf w) as [Hb Hr].
  split; [congruence|]. exists []. rewrite app_nil_r.
  split; [exact Hr|]. split; [reflexivity | constructor].
Qed.

Lemma appends_bind {A B : Type} (hb : bool) (c : Run A) (k : A -> Run B)
    (l1 l2 : list (string * string)) :
  appends_results hb c l1 -> (forall a, appends_results hb (k a) l2) ->
  appends_results hb (bind c k) (l1 ++ l2).
Proof.
  intros Hc Hk w b w' H. unfold bind. specialize (Hc w).
  destruct (c w) as [[[a|e] w1] ev1]; [|intros [=]].
  destruct (Hc a w1 H eq_refl) as (Hb1 & rs1 & Hr1 & Hl1 & Hm1).
  specialize (Hk a w1). destruct (k a w1) as [[o w2] ev2]. cbn [fst].
  intros [= -> ->]. destruct (Hk b w' Hb1 eq_refl) as (Hb2 & rs2 & Hr2 & Hl2 & Hm2).
  split; [exact Hb2|]. exists (rs1 ++ rs2).
  rewrite Hr2, Hr1, <- app_assoc, map_app, Hl1, Hl2.
  split; [reflexivity|]. split; [reflexivity|]. apply Forall_app. split; assumption.
Qed.

Lemma appends_bind_hb {B : Type} (hb : bool) (k : bool -> Run B)
    (l : list (string * string)) :
  appends_results hb (k hb) l -> appends_results hb (bind (gets has_blueutil) k) l.
Proof. intros Hk w b w' H. rewrite bind_gets, H. apply Hk, H. Qed.

Lemma appends_if {A : Type} (hb b : bool) (c1 c2 : Run A) (l1 l2 : list (string * string)) :
  appends_results hb c1 l1 -> appends_results hb c2 l2 ->
  appends_results hb (if b then c1 else c2) (if b then l1 else l2).
Proof. destruct b; auto. Qed.

Lemma appends_for_each {A : Type} (hb : bool) (l : list A) (f : A -> Run unit) :
  (forall x, appends_results hb (f x) []) -> appends_results hb (for_each l f) [].
Proof.
  intros Hf. induction l as [|x l IH]; [apply appends_ret|].
  cbn [for_each]. change (@nil (string * string)) with (@nil (string * string) ++ []).
  apply appends_bind; [apply Hf | intros _; exact IH].
Qed.

Lemma appends_try_finally {A : Type} (hb : bool) (body : Run A) (cleanup : Run unit)
    (l1 l2 : list (string * string)) :
  appends_results hb body l1 -> appends_results hb cleanup l2 ->
  appends_results hb (try_finally body cleanup) (l1 ++ l2).
Proof.
  intros Hb Hc w a w' H. unfold try_finally. specialize (Hb w).
  destruct (body w) as [[o w1] ev1]. specialize (Hc w1).
  destruct (cleanup w1) as [[[u|e] w2] ev2]; cbn [fst]; [|intros [=]].
  intros [= -> ->]. destruct (Hb a w1 H eq_refl) as (Hb1 & rs1 & Hr1 & Hl1 & Hm1).
  destruct (Hc u w' Hb1 eq_refl) as (Hb2 & rs2 & Hr2 & Hl2 & Hm2).
  split; [exact Hb2|]. exists (rs1 ++ rs2).
  rewrite Hr2, Hr1, <- app_assoc, map_app, Hl1, Hl2.
  split; [reflexivity|]. split; [reflexivity|]. apply Forall_app. split; assumption.
Qed.

Lemma appends_append_as (hb : bool) (r : TestResult) (lv : string * string) :
  label_of r = lv -> measured r -> appends_results hb (append_result r) [lv].
Proof.
  intros <- Hm w a w' H [= <- <-]. split; [exact H|]. exists [r].
  split; [reflexivity|]. split; [reflexivity|]. constructor; [exact Hm | constructor].
Qed.

Section AppendingEnv.
Variable env : Env.

Lemma appends_wait (hb : bool) : appends_results hb (wait env) [].
Proof.
  intros w a' w' H [= <- <-]. split; [exact H|]. exists []. rewrite app_nil_r. repeat split. constructor.
Qed.

Lemma appends_exec (hb : bool) (c : Cmd) :
  appends_results hb
    (fun w => let '(res, h) := exec c (host w) in (Returned res, set_host w h, [])) [].
Proof.
  intros w a' w' H. destruct (exec c (host w)) as [res h']. intros [= <- <-].
  split; [exact H|]. exists []. rewrite app_nil_r. repeat split. constructor.
Qed.

Ltac appending :=
  repeat first
    [ apply appends_ret | apply appends_raise | apply appends_gets | apply appends_emit
    | apply appends_wait | apply appends_exec
    | apply appends_modify; intros ?; split; reflexivity
    | apply appends_for_each; intros ?
    | apply (appends_bind _ _ _ [] []); [|intros ?]
    | match goal with
      | x : (_ * _)%type |- _ => destruct x
      | |- appends_results _ (match ?x with _ => _ end) _ => destruct x
      | |- appends_results _ (if ?x then _ else _) _ => destruct x
      end ].

Lemma appends_run_cmd (hb : bool) (c : Cmd) : appends_results hb (run_cmd env c) [].
Proof. unfold run_cmd. appending. Qed.

Lemma appends_sleep (hb : bool) (s : Q) : appends_results hb (sleep env s) [].
Proof. unfold sleep. appending. Qed.

Lemma appends_save (hb : bool) : appends_results hb (save_original_states env) [].
Proof.
  unfold save_original_states, save_setting, get_awdl_state, get_bluetooth_state.
  appending; apply appends_run_cmd.
Qed.

Lemma appends_restore (hb : bool) : appends_results hb (restore_original_states env) [].
Proof. unfold restore_original_states, restore_setting. appending; apply appends_run_cmd. Qed.

Lemma appends_apply (hb : bool) (nm : string) (enable : bool) :
  appends_results hb (apply_setting env nm enable) [].
Proof.
  unfold apply_setting. appending; first [apply appends_run_cmd | apply appends_sleep].
Qed.

Lemma appends_ping (hb : bool) (label value : string) (k : TestResult -> Run unit)
    (labels : list (string * string)) :
  (forall r, label_of r = (label, value) -> measured r ->
             appends_results hb (k r) labels) ->
  appends_results hb (bind (call_run_ping_test env label value) k) labels.
Proof.
  intros Hk w a w' H.
  destruct (run_ping_test_returns label value (pings env (clock w))) as (r & Hr & Hl & _).
  destruct (fault_at env (clock w)) eqn:F.
  - assert (call_run_ping_test env label value w
            = (Returned r, advance w, [PingTestCalled label value])) as E.
    { unfold call_run_ping_test. rewrite bind_emit, bind_gets.
      unfold bind, wait. rewrite F. cbn. rewrite Hr. reflexivity. }
    rewrite (bind_returned _ _ _ _ _ _ E). cbn [fst]. intros E'.
    apply (Hk r Hl (ex_intro _ label (ex_intro _ value (ex_intro _ _ Hr)))
             (advance w) a w' H).
    destruct (k r (advance w)) as [[o w2] ev2]. exact E'.
  - assert (call_run_ping_test env label value w
            = (Raised KeyboardInterrupt, advance w, [PingTestCalled label value])) as E.
    { unfold call_run_ping_test. rewrite bind_emit, bind_gets.
      unfold bind, wait. rewrite F. reflexivity. }
    rewrite (bind_raised _ _ _ _ _ _ E). intros [=].
  - assert (call_run_ping_test env label value w
            = (Raised RuntimeError, advance w, [PingTestCalled label value])) as E.
    { unfold call_run_ping_test. rewrite bind_emit, bind_gets.
      unfold bind, wait. rewrite F. reflexivity. }
    rewrite (bind_raised _ _ _ _ _ _ E). intros [=].
Qed.

Lemma appends_battery (hb : bool) :
  exists labels,
    appends_results hb (battery env) labels /\ labels = battery_labels hb.
Proof.
  unfold battery. eexists. split.
  - repeat first
      [ apply appends_ret
      | apply appends_sleep | apply appends_apply
      | eapply appends_append_as; eassumption
      | apply appends_ping; intros ? ? ?
      | eapply appends_bind_hb
      | eapply appends_bind; [|intros ?]
      | eapply appends_if ].
  - cbn. destruct hb; reflexivity.
Qed.

End AppendingEnv.
End Appending.

Section WrittenReport.
Import Optimizer.

Variable env : Env.

Lemma report_sound_unwritten (w : World) :
  report_created w = false -> report_file w = None -> report_sound w.
Proof.
  intros Hc Hf. split; [rewrite Hc; discriminate | rewrite Hf; discriminate].
Qed.

Lemma report_sound_same (w w' : World) :
  same_object w w' -> report_sound w -> report_sound w'.
Proof.
  intros (Hs & Hr & Ho & Hb & Hf & Hc) [H1 H2]. unfold report_sound.
  rewrite Hr, Ho, Hb, Hf, Hc. split; assumption.
Qed.

Lemma report_step (w : World) :
  report_created w = false -> report_file w = None ->
  map label_of (results w) = battery_labels (has_blueutil w) ->
  Forall measured (results w) ->
  let r := call_generate_report env w in
  report_sound r.1.2
  /\ (r.1.1 = Returned tt ->
      report_file r.1.2
      = Some (generate_report (original_states r.1.2) (results r.1.2))).
Proof.
  intros Hc Hf Hl Hm. unfold call_generate_report. rewrite bind_emit. cbn [fst snd].
  unfold report_sound, waiting, bind, wait, modify. cbn.
  destruct (fault_at env (clock w)); cbn;
    [destruct (fault_at env (S (clock w))); cbn;
     [destruct (fault_at env (S (S (clock w)))); cbn|..]|..];
    (split;
     [split;
      [intros _; split; assumption
      |intros rep Hrep;
       first [congruence | injection Hrep as <-; split; reflexivity]]
     |intros E; first [reflexivity | discriminate E]]).
Qed.

Lemma run_all_tests_report (w : World) :
  report_created w = false -> report_file w = None -> results w = [] ->
  let r := run_all_tests env w in
  report_sound r.1.2
  /\ (r.1.1 = Returned tt ->
      report_file r.1.2
      = Some (generate_report (original_states r.1.2) (results r.1.2))).
Proof.
  intros Hc Hf Hr0. rewrite run_all_tests_eq.
  set (hb := has_blueutil w).
  set (P := bind (save_original_states env)
              (fun _ => try_finally (battery env) (restore_original_states env))).
  assert (keeps_report P) as HkP.
  { apply keeps_bind; [apply keeps_save | intros _].
    apply keeps_try_finally; [apply keeps_battery | apply keeps_restore]. }
  assert (appends_results hb P (battery_labels hb)) as HaP.
  { destruct (appends_battery env hb) as (labels & Hb & ->).
    change (battery_labels hb) with ([] ++ battery_labels hb).
    apply appends_bind; [apply appends_save | intros _].
    rewrite <- (app_nil_r (battery_labels hb)).
    apply appends_try_finally; [exact Hb | apply appends_restore]. }
  cbv zeta.
  assert (forall w0,
             bind (save_original_states env)
               (fun _ => bind (try_finally (battery env) (restore_original_states env))
                           (fun _ => call_generate_report env)) w0
             = bind P (fun _ => call_generate_report env) w0) as ->
    by (intros w0; unfold P; rewrite bind_assoc; reflexivity).
  destruct (HkP w) as [Kf Kc]. specialize (HaP w).
  unfold bind. destruct (P w) as [[[[]|e] w1] ev1]; cbn [fst snd] in *.
  - destruct (HaP tt w1 eq_refl eq_refl) as (Hb1 & rs & Hr & Hl & Hm).
    rewrite Hr0 in Hr. cbn [app] in Hr.
    assert (report_created w1 = false) as Hc1 by congruence.
    assert (report_file w1 = None) as Hf1 by congruence.
    assert (map label_of (results w1) = battery_labels (has_blueutil w1)) as Hl1
      by (rewrite Hr, Hb1; exact Hl).
    assert (Forall measured (results w1)) as Hm1 by (rewrite Hr; exact Hm).
    pose proof (report_step w1 Hc1 Hf1 Hl1 Hm1) as Hstep. cbv zeta in Hstep.
    destruct (call_generate_report env w1) as [[o w2] ev2]. exact Hstep.
  - split; [apply report_sound_unwritten; congruence | intros [=]].
Qed.

Lemma interrupted_raises (w : World) :
  (exists e, (interrupted env w).1.1 = Raised e)
  /\ same_object w (interrupted env w).1.2.
Proof.
  unfold interrupted. pose proof (object_restore env w) as Hk.
  unfold bind. destruct (restore_original_states env w) as [[[u|e] w1] ev1];
    cbn [fst snd raise] in *.
  - split; [eexists; reflexivity | exact Hk].
  - split; [eexists; reflexivity | exact Hk].
Qed.

Lemma main_report (h : Host) :
  report_sound (final_of env h)
  /\ (exit_of env h = Returned tt ->
      report_file (final_of env h)
      = Some (generate_report (original_states (final_of env h))
                (results (final_of env h)))).
Proof.
  unfold exit_of, final_of.
  remember (main env (boot h)) as m eqn:Em. unfold main in Em.
  destruct (keeps_check_sudo env (boot h)) as [K1 C1].
  destruct (check_sudo env (boot h)) as [[[[]|e] w1] ev1] eqn:E1; cbn [fst snd] in K1, C1;
    [rewrite (bind_returned _ _ _ _ _ _ E1) in Em
    |rewrite (bind_raised _ _ _ _ _ _ E1) in Em; subst m; cbn [fst snd];
     split; [apply report_sound_unwritten; assumption | intros [=]]].
  destruct (keeps_init env w1) as [K2 C2].
  assert (results (__init__ env w1).1.2 = [] \/ exists e, (__init__ env w1).1.1 = Raised e) as R2.
  { unfold __init__, _check_blueutil. rewrite bind_modify, bind_assoc.
    unfold bind, run_cmd, bind, wait. cbn.
    destruct (fault_at env (clock w1)); cbn.
    - destruct (blueutil_installed (host w1)); left; reflexivity.
    - right. eexists. reflexivity.
    - left. reflexivity. }
  destruct (__init__ env w1) as [[[[]|e] w2] ev2] eqn:E2; cbn [fst snd] in K2, C2, R2;
    [rewrite (bind_returned _ _ _ _ _ _ E2) in Em
    |rewrite (bind_raised _ _ _ _ _ _ E2) in Em; subst m; cbn [fst snd];
     split; [apply report_sound_unwritten; [rewrite C2, C1 | rewrite K2, K1]; reflexivity
            | intros [=]]].
  destruct R2 as [R2|[e [=]]].
  assert (report_created w2 = false) as Hc2 by (rewrite C2, C1; reflexivity).
  assert (report_file w2 = None) as Hf2 by (rewrite K2, K1; reflexivity).
  unfold try_except_KeyboardInterrupt in Em.
  destruct (run_all_tests_report w2 Hc2 Hf2 R2) as [Hsound Hret].
  destruct (run_all_tests env w2) as [[o w3] ev3]; cbn [fst snd] in *.
  destruct o as [[]|e].
  - subst m. cbn [fst snd]. split; [exact Hsound | intros _; apply Hret; reflexivity].
  - destruct (interrupted_raises w3) as [[e' E'] K'].
    destruct e; cbn [fst snd] in Em;
      try (subst m; cbn [fst snd]; split; [exact Hsound | intros [=]]).
    destruct (interrupted env w3) as [[o' w4] ev4]. cbn [fst snd] in *. subst o' m.
    cbn [fst snd]. split; [exact (report_sound_same _ _ K' Hsound) | intros [=]].
Qed.

End WrittenReport.

(** ** The host before and after *)

Section HostTheorems.
Import Optimizer.

(** X8.  In a world that does not disturb it, [save_original_states] on a
    fresh registry returns and only reads: the host is as before.  It
    records AWDL and Bluetooth as the host has them (Bluetooth by either of
    its two probes), and for each registry entry what [parse_sysctl] makes
    of the output of its read command, both in [original_states] and in the
    entry itself.  That is the value of the host when the value survives
    the parser, and the empty string when the host has no such setting. *)
Theorem save_captures_host_state (env : Env) (w : World) :
  quiet env -> settings w = SETTINGS ->
  let w' := (save_original_states env w).1.2 in
  (save_original_states env w).1.1 = Returned tt
  /\ host w' = host w
  /\ original_states w' !! "AWDL" = Some (on_off (awdl0_active (host w)))
  /\ original_states w' !! "Bluetooth" = Some (on_off (bluetooth_on (host w)))
  /\ original_states w' !! "TCP Delayed ACK"
     = Some (captured_sysctl (host w) "net.inet.tcp.delayed_ack")
  /\ original_states w' !! "TCP Send/Recv Autotuning"
     = Some (captured_sysctl (host w) "net.inet.tcp.doautorcvbuf")
  /\ map original_value (settings w')
     = [Some (captured_sysctl (host w) "net.inet.tcp.delayed_ack");
        Some (captured_sysctl (host w) "net.inet.tcp.doautorcvbuf")]
  /\ (forall oid v, sysctl (host w) !! oid = Some v -> clean v ->
                    captured_sysctl (host w) oid = v)
  /\ (forall oid, sysctl (host w) !! oid = None -> captured_sysctl (host w) oid = ""%string).
Proof.
  intros Hq Hs. cbv zeta.
  destruct (save_quiet env Hq w Hs) as (w' & E & Hh & Hs' & Ho & _).
  rewrite E. cbn [fst snd]. cbv zeta in Hs', Ho. rewrite Hs', Ho.
  split; [reflexivity|]. split; [exact Hh|].
  split; [rewrite lookup_insert_ne by discriminate; apply lookup_insert_eq|].
  split; [apply lookup_insert_eq|].
  split; [rewrite !lookup_insert_ne by discriminate; apply lookup_insert_eq|].
  split; [rewrite !lookup_insert_ne by discriminate; apply lookup_insert_eq|].
  split; [reflexivity|].
  split; [intros oid v; apply captured_sysctl_present|].
  intros oid Hn. unfold captured_sysctl. cbn [exec]. rewrite Hn. reflexivity.
Qed.

Lemma save_captures_host_state_witness :
  original_states
    (save_original_states silent_world (boot (macbook true false true))).1.2 !! "AWDL"
  = Some (on_off true).
Proof.
  exact (proj1 (proj2 (proj2
           (save_captures_host_state silent_world (boot (macbook true false true))
              (fun t => eq_refl) eq_refl)))).
Defined.

Lemma macbook_clean (awdl bluetooth blueutil : bool) :
  registry_clean (macbook awdl bluetooth blueutil).
Proof.
  intros oid v [<-|[<-|[]]] E; vm_compute in E; injection E as <-;
    split; reflexivity.
Qed.

(** X9.  A run that the outside world does not disturb leaves the host
    exactly as it found it, with or without sudo cached and with or without
    blueutil, provided the two registry settings hold values that survive
    the parser. *)
Theorem quiet_run_leaves_host (env : Env) (h : Host) :
  quiet env -> registry_clean h -> host (final_of env h) = h.
Proof.
  intros Hq Hc. destruct (sudo_cached h) eqn:Hs.
  - destruct (quiet_main env h Hq Hs) as (wf & E & Hh & _).
    unfold final_of. rewrite E. cbn [snd]. rewrite Hh.
    apply battery_then_restore; assumption.
  - unfold final_of, main.
    assert (check_sudo env (boot h) = (Raised (SystemExit 1), advance (boot h), [])) as E.
    { unfold check_sudo. rewrite bind_run_cmd_quiet by assumption.
      cbn. rewrite Hs. destruct h; reflexivity. }
    rewrite (bind_raised _ _ _ _ _ _ E). reflexivity.
Qed.

Lemma quiet_run_leaves_host_witness :
  host (final_of silent_world (macbook true true true)) = macbook true true true.
Proof.
  apply (quiet_run_leaves_host silent_world (macbook true true true)).
  - intros t. reflexivity.
  - apply macbook_clean.
Defined.

(** X10.  Called on an object that has captured nothing, in a world that
    does not disturb it, [restore_original_states] writes no sysctl and
    leaves AWDL alone, but with blueutil it powers Bluetooth off: the
    missing Bluetooth entry is read as not on. *)
Theorem restore_without_capture (env : Env) (w : World) :
  quiet env ->
  Forall (fun s => original_value s = None) (settings w) ->
  original_states w = ∅ ->
  let r := restore_original_states env w in
  r.1.1 = Returned tt
  /\ host r.1.2 =
     if has_blueutil w && blueutil_installed (host w)
     then set_bluetooth (host w) false else host w.
Proof.
  intros Hq Hs Ho. cbv zeta.
  destruct (restore_quiet env w Hq) as (w' & E & Hh & _).
  rewrite E. cbn [fst snd]. split; [reflexivity|]. rewrite Hh.
  unfold restore_cmds. rewrite Ho, !lookup_empty.
  rewrite !bool_decide_eq_false_2 by discriminate.
  assert (omap restore_cmd (settings w) = []) as ->.
  { induction Hs as [|s ss Hn _ IH]; [reflexivity|].
    cbn [omap list_omap]. unfold restore_cmd at 1. rewrite Hn. exact IH. }
  cbn [app]. destruct (has_blueutil w); [|reflexivity].
  cbn [run_cmds fold_left andb]. rewrite exec_blueutil_set.
  destruct (blueutil_installed (host w)); reflexivity.
Qed.

Lemma restore_without_capture_witness :
  bluetooth_on
    (host (restore_original_states silent_world
             (set_has_blueutil (boot (macbook true true true)) true)).1.2)
  = false.
Proof.
  rewrite (proj2 (restore_without_capture silent_world
                    (set_has_blueutil (boot (macbook true true true)) true)
                    (fun t => eq_refl)
                    ltac:(repeat constructor) eq_refl)).
  reflexivity.
Defined.

(** X11.  Disabling a setting and enabling it again does not put back what
    was there: in a quiet world with sudo cached the pair always returns and
    leaves TCP Delayed ACK at 3 when the host has that setting, AWDL up, and
    with blueutil Bluetooth on, whatever they were before. *)
Theorem toggle_leaves_default (env : Env) (w : World) (nm : string) :
  quiet env -> sudo_cached (host w) = true ->
  let toggled :=
    bind (apply_setting env nm false) (fun _ => apply_setting env nm true) w in
  toggled.1.1 = Returned tt
  /\ (nm = "TCP Delayed ACK"%string ->
      is_Some (sysctl (host w) !! "net.inet.tcp.delayed_ack") ->
      host toggled.1.2 = set_sysctl (host w) "net.inet.tcp.delayed_ack" "3")
  /\ (nm = "AWDL"%string -> host toggled.1.2 = set_awdl0 (host w) true)
  /\ (nm = "Bluetooth"%string ->
      has_blueutil w = true -> blueutil_installed (host w) = true ->
      host toggled.1.2 = set_bluetooth (host w) true).
Proof.
  intros Hq Hs. cbv zeta.
  pose proof (performs_bind (has_blueutil w) _ _ _ _ _ _
                (performs_apply env Hq (has_blueutil w) nm false)
                (fun _ => performs_apply env Hq (has_blueutil w) nm true)) as Hp.
  destruct (Hp w eq_refl) as ([] & w' & rs & E & Hh & _).
  rewrite E. cbn [fst snd]. split; [reflexivity|]. rewrite Hh. clear Hp E Hh.
  split; [|split].
  - intros -> Hk. cbn [apply_cmds String.eqb Ascii.eqb Bool.eqb app run_cmds fold_left].
    rewrite sysctl_write_hides, exec_sysctl_write, Hs.
    rewrite bool_decide_eq_true_2 by assumption. reflexivity.
  - intros ->. cbn [apply_cmds String.eqb Ascii.eqb Bool.eqb app run_cmds fold_left].
    rewrite !exec_awdl0_set. rewrite Hs. cbn [set_awdl0 sudo_cached].
    rewrite Hs. reflexivity.
  - intros -> Hb Hi. rewrite Hb.
    cbn [apply_cmds String.eqb Ascii.eqb Bool.eqb andb app run_cmds fold_left].
    rewrite !exec_blueutil_set. cbn [String.eqb Ascii.eqb Bool.eqb].
    rewrite Hi. cbn [blueutil_installed set_bluetooth]. rewrite Hi. reflexivity.
Qed.

Lemma toggle_leaves_default_witness :
  awdl0_active
    (host (bind (apply_setting silent_world "AWDL" false)
             (fun _ => apply_setting silent_world "AWDL" true)
             (boot (macbook false true true))).1.2)
  = true.
Proof.
  rewrite (proj1 (proj2 (proj2
             (toggle_leaves_default silent_world (boot (macbook false true true)) "AWDL"
                (fun t => eq_refl) eq_refl))) eq_refl).
  reflexivity.
Defined.

End HostTheorems.

(** ** The charts *)

Section Visualizer.
Import Optimizer.

Lemma py_div_zero (a b : Q) : b == 0 -> py_div a b = Raised ZeroDivisionError.
Proof. intros H. unfold py_div. apply Qeq_bool_iff in H. rewrite H. reflexivity. Qed.

Lemma verdict_raises (report : Report) (b a : TestData) :
  tests report !! 0%nat = Some b -> tests report !! 2%nat = Some a ->
  avg_jitter_ms (test_result a) == 0 ->
  Visualize.create_verdict_text report = inl (Visualize.Arithmetic ZeroDivisionError).
Proof.
  intros Hb Ha Hj. unfold Visualize.create_verdict_text, Visualize.item.
  rewrite Hb, Ha. cbv zeta.
  destruct (py_div (avg_latency_ms (test_result b)) (avg_latency_ms (test_result a)))
    as [q1|e1] eqn:E1.
  - destruct (py_div (max_latency_ms (test_result b)) (max_latency_ms (test_result a)))
      as [q2|e2] eqn:E2.
    + rewrite (py_div_zero _ _ Hj). reflexivity.
    + cbn. unfold py_div in E2. destruct (Qeq_bool _ 0); [|discriminate].
      injection E2 as <-. reflexivity.
  - cbn. unfold py_div in E1. destruct (Qeq_bool _ 0); [|discriminate].
    injection E1 as <-. reflexivity.
Qed.

Lemma Qabs_zero (x : Q) : x == 0 -> Qabs x == 0.
Proof. intros H. rewrite H. reflexivity. Qed.

Lemma adjacent_diffs_constant (l : list Q) (c : Q) :
  Forall (fun x => x == c) l -> Forall (fun d => d == 0) (adjacent_diffs l).
Proof.
  induction 1 as [|a l Ha Hl IH]; [constructor|].
  destruct l as [|b t]; [constructor|].
  rewrite adjacent_diffs_cons2. constructor; [|exact IH].
  apply Forall_inv in Hl. apply Qabs_zero. rewrite Ha, Hl. ring.
Qed.

Lemma Qsum_zero (l : list Q) : Forall (fun d => d == 0) l -> Qsum l == 0.
Proof.
  induction 1 as [|d l Hd _ IH]; [reflexivity|].
  cbn [Qsum fold_right]. fold (Qsum l). rewrite Hd, IH. reflexivity.
Qed.

Lemma no_jitter (label value : string) (probes : nat -> option Q) (r : TestResult) :
  run_ping_test label value probes = Returned r ->
  (length (raw_rtts r) <= 1)%nat \/ (exists c, Forall (fun x => x == c) (raw_rtts r)) ->
  avg_jitter_ms r == 0.
Proof.
  unfold run_ping_test. rewrite collect_spec.
  destruct (omap probes (seq 0 PINGS_PER_TEST)) as [|x t].
  - cbn. intros [= <-] _. reflexivity.
  - destruct (statistics_of_nonempty label value x t
                (PINGS_PER_TEST - length (x :: t))) as (avg & mx & mn & _ & _ & _ & H).
    assert ((length (x :: t) <= 1)%nat -> adjacent_diffs (x :: t) = []) as Hl1.
    { destruct t as [|y t]; [reflexivity|]. cbn [length]. lia. }
    pose proof (fun c => adjacent_diffs_constant (x :: t) c) as Hz.
    remember (adjacent_diffs (x :: t)) as ad eqn:Ead in H, Hl1, Hz. clear Ead.
    rewrite H. intros [= <-]. cbn [raw_rtts avg_jitter_ms].
    intros [Hlen|[c Hc]].
    + rewrite (Hl1 Hlen). reflexivity.
    + specialize (Hz c Hc). destruct ad as [|d ds]; [reflexivity|].
      apply py_round_zero. change (Qsum (d :: ds) / Qlen (d :: ds) == 0).
      rewrite (Qsum_zero _ Hz). unfold Qdiv. ring.
Qed.

End Visualizer.

Section ReportTheorems.
Import Optimizer.

(** X12.  In every world, a run that ends normally has written the report
    of its results through.  The report file is created only once the
    whole battery has been measured, so a run that exits at the privilege
    check, or is interrupted or fails before [generate_report] opens the
    file, leaves none; and a report written through is the one built from
    the object's fields.  A report on disk does not tell that the run ended
    normally: an interrupt while [json.dump] runs leaves a file that holds
    no report, an interrupt while the summary is printed leaves the
    complete report, and both runs exit with status 1, as does the run
    interrupted while the file is opened, which leaves none.  (On a host
    without blueutil the file is opened at waiting point 22, the dump is
    point 23 and the summary point 24.) *)
Theorem report_after_battery (env : Env) (h : Host) :
  (exit_of env h = Returned tt ->
   report_file (final_of env h)
   = Some (generate_report (original_states (final_of env h))
             (results (final_of env h))))
  /\ (report_created (final_of env h) = true ->
      map label_of (results (final_of env h))
      = battery_labels (has_blueutil (final_of env h))
      /\ Forall measured (results (final_of env h)))
  /\ (forall rep,
        report_file (final_of env h) = Some rep ->
        report_created (final_of env h) = true
        /\ rep = generate_report (original_states (final_of env h))
                   (results (final_of env h)))
  /\ (exit_of (interrupted_at [22%nat]) (macbook true true false)
      = Raised (SystemExit 1)
      /\ report_created (final_of (interrupted_at [22%nat]) (macbook true true false))
         = false)
  /\ (exit_of (interrupted_at [23%nat]) (macbook true true false)
      = Raised (SystemExit 1)
      /\ report_created (final_of (interrupted_at [23%nat]) (macbook true true false))
         = true
      /\ report_file (final_of (interrupted_at [23%nat]) (macbook true true false))
         = None)
  /\ (exit_of (interrupted_at [24%nat]) (macbook true true false)
      = Raised (SystemExit 1)
      /\ exists rep,
           report_file (final_of (interrupted_at [24%nat]) (macbook true true false))
           = Some rep).
Proof.
  destruct (main_report env h) as [[Hcreated Hwritten] Hret].
  split; [exact Hret|]. split; [exact Hcreated|]. split; [exact Hwritten|].
  split; [|split].
  - vm_compute. repeat split.
  - vm_compute. repeat split.
  - vm_compute. split; [reflexivity | eexists; reflexivity].
Qed.

Lemma report_after_battery_witness :
  exit_of silent_world (macbook true true false) = Returned tt
  /\ report_file (final_of silent_world (macbook true true false))
     = Some (generate_report
               (original_states (final_of silent_world (macbook true true false)))
               (results (final_of silent_world (macbook true true false)))).
Proof.
  assert (exit_of silent_world (macbook true true false) = Returned tt) as E
    by (vm_compute; reflexivity).
  split; [exact E|].
  exact (proj1 (report_after_battery silent_world (macbook true true false)) E).
Defined.

Lemma generate_report_tests (os : gmap string string) (rs : list TestResult) :
  map test_result (tests (generate_report os rs)) = rs
  /\ raw_data (generate_report os rs) = rs
  /\ original_settings (generate_report os rs) = os.
Proof.
  unfold generate_report.
  destruct (List.filter _ rs) as [|v vs]; cbn [tests raw_data original_settings];
    (split; [|split; reflexivity]);
    rewrite map_map; cbn [test_result]; apply map_id.
Qed.

Lemma written_report (env : Env) (h : Host) (rep : Report) :
  report_file (final_of env h) = Some rep ->
  rep = generate_report (original_states (final_of env h)) (results (final_of env h))
  /\ map label_of (results (final_of env h))
     = battery_labels (has_blueutil (final_of env h))
  /\ Forall measured (results (final_of env h)).
Proof.
  intros Hrep.
  destruct (main_report env h) as [[Hcreated Hwritten] _].
  destruct (Hwritten rep Hrep) as [Hc ->].
  destruct (Hcreated Hc) as [Hl Hm]. repeat split; assumption.
Qed.

(** X13.  In every world, a report that was written holds the whole
    battery: its raw data are the results of the run, one test entry per
    result, in the order Baseline, TCP Delayed ACK, AWDL, Bluetooth (only
    when blueutil was found), All Optimizations, so four or five tests;
    entry 0 is the baseline and entry 2 the AWDL test, the two the
    visualizer reads; every result came out of [run_ping_test]; and the
    original settings are the captured states. *)
Theorem report_holds_battery (env : Env) (h : Host) (rep : Report) :
  report_file (final_of env h) = Some rep ->
  let hb := has_blueutil (final_of env h) in
  raw_data rep = results (final_of env h)
  /\ map test_result (tests rep) = raw_data rep
  /\ original_settings rep = original_states (final_of env h)
  /\ map label_of (raw_data rep) = battery_labels hb
  /\ length (tests rep) = (if hb then 5 else 4)%nat
  /\ (exists b a,
        tests rep !! 0%nat = Some b /\ tests rep !! 2%nat = Some a
        /\ label_of (test_result b) = ("Baseline", "current")%string
        /\ label_of (test_result a) = ("AWDL", "disabled")%string)
  /\ Forall measured (raw_data rep).
Proof.
  intros Hrep hb. subst hb.
  destruct (written_report env h rep Hrep) as (-> & Hl & Hm).
  destruct (generate_report_tests (original_states (final_of env h))
              (results (final_of env h))) as (Ht & Hd & Ho).
  rewrite Hd, Ht, Ho. repeat split; try assumption.
  - rewrite <- (length_map test_result), Ht, <- (length_map label_of), Hl.
    destruct (has_blueutil (final_of env h)); reflexivity.
  - assert (map label_of (map test_result
              (tests (generate_report (original_states (final_of env h))
                        (results (final_of env h)))))
            = battery_labels (has_blueutil (final_of env h))) as Hlab
      by (rewrite Ht; exact Hl).
    destruct (tests (generate_report (original_states (final_of env h))
                       (results (final_of env h)))) as [|b [|t [|a rest]]];
      try (destruct (has_blueutil (final_of env h)); discriminate Hlab).
    exists b, a. cbn [map] in Hlab.
    repeat split; destruct (has_blueutil (final_of env h)); cbn in Hlab; congruence.
Qed.

Lemma silent_run_report :
  report_file (final_of silent_world (macbook true true false))
  = Some (generate_report
            (original_states (final_of silent_world (macbook true true false)))
            (results (final_of silent_world (macbook true true false)))).
Proof.
  apply (proj2 (main_report silent_world (macbook true true false))).
  vm_compute. reflexivity.
Qed.

Lemma report_holds_battery_witness :
  map label_of
    (raw_data (generate_report
                 (original_states (final_of silent_world (macbook true true false)))
                 (results (final_of silent_world (macbook true true false)))))
  = battery_labels (has_blueutil (final_of silent_world (macbook true true false))).
Proof.
  exact (proj1 (proj2 (proj2 (proj2
           (report_holds_battery silent_world (macbook true true false) _
              silent_run_report))))).
Defined.

(** X14.  On a report the orchestrator wrote, [create_verdict_text] never
    fails on a subscript, but it divides by the AWDL test's average
    latency, maximum latency and average jitter: it raises
    ZeroDivisionError whenever that test had at most one successful ping,
    or all its successful pings had the same RTT. *)
Theorem verdict_zero_division (env : Env) (h : Host) (rep : Report) (a : TestData) :
  report_file (final_of env h) = Some rep ->
  tests rep !! 2%nat = Some a ->
  (Visualize.create_verdict_text rep <> inl Visualize.IndexError)
  /\ ((length (raw_rtts (test_result a)) <= 1)%nat
      \/ (exists c, Forall (fun x => x == c) (raw_rtts (test_result a))) ->
      Visualize.create_verdict_text rep = inl (Visualize.Arithmetic ZeroDivisionError)).
Proof.
  intros Hrep Ha.
  destruct (written_report env h rep Hrep) as (-> & _ & Hm).
  destruct (generate_report_tests (original_states (final_of env h))
              (results (final_of env h))) as (Ht & _ & _).
  set (rep := generate_report (original_states (final_of env h))
                (results (final_of env h))) in *.
  assert (measured (test_result a)) as (label & value & probes & Hrun).
  { rewrite List.Forall_forall in Hm. apply Hm. rewrite <- Ht.
    apply in_map. apply list_elem_of_In. eapply list_elem_of_lookup_2, Ha. }
  assert (exists b, tests rep !! 0%nat = Some b) as [b Hb].
  { apply lookup_lt_is_Some_2. apply lookup_lt_Some in Ha. lia. }
  split.
  - unfold Visualize.create_verdict_text, Visualize.item. rewrite Hb, Ha. cbv zeta.
    destruct (py_div (avg_latency_ms _) _) as [q1|e1]; [|cbn; discriminate].
    destruct (py_div (max_latency_ms _) _) as [q2|e2]; [|cbn; discriminate].
    destruct (py_div (avg_jitter_ms _) _) as [q3|e3]; cbn; discriminate.
  - intros Hfew. apply (verdict_raises rep b a Hb Ha).
    apply (no_jitter label value probes _ Hrun Hfew).
Qed.

Lemma verdict_zero_division_witness :
  exists rep,
    report_file (final_of silent_world (macbook true true false)) = Some rep
    /\ Visualize.create_verdict_text rep
       = inl (Visualize.Arithmetic ZeroDivisionError).
Proof.
  assert (exists a,
            tests (generate_report
                     (original_states (final_of silent_world (macbook true true false)))
                     (results (final_of silent_world (macbook true true false))))
              !! 2%nat = Some a
            /\ raw_rtts (test_result a) = []) as (a & Ha & Hnone)
    by (vm_compute; eexists; split; reflexivity).
  eexists. split; [exact silent_run_report|].
  apply (proj2 (verdict_zero_division silent_world (macbook true true false) _ a
                  silent_run_report Ha)).
  left. rewrite Hnone. cbn. lia.
Defined.

End ReportTheorems.

(** ** A run without a single reply *)

Section EmptyReport.
Import Optimizer.

Lemma measured_without_success (r : TestResult) :
  measured r -> raw_rtts r = [] -> avg_latency_ms r = 0.
Proof.
  intros (label & value & probes & H). revert H.
  unfold run_ping_test. rewrite collect_spec.
  destruct (omap probes (seq 0 PINGS_PER_TEST)) as [|x t].
  - cbn. intros [= <-] _. reflexivity.
  - destruct (statistics_of_nonempty label value x t
                (PINGS_PER_TEST - length (x :: t))) as (avg & mx & mn & _ & _ & _ & H).
    rewrite H. intros [= <-]. discriminate.
Qed.

(** X16.  When no test of the run had a successful ping, the report has a
    test entry for every result but no analysis and no recommendation. *)
Theorem report_without_successes (os : gmap string string) (results : list TestResult) :
  Forall measured results ->
  Forall (fun r => raw_rtts r = []) results ->
  analysis (generate_report os results) = None
  /\ recommendations (generate_report os results) = []
  /\ length (tests (generate_report os results)) = length results.
Proof.
  intros Hm Hn. unfold generate_report.
  rewrite filter_none.
  - cbn [analysis recommendations tests]. rewrite length_map. repeat split.
  - intros r Hin. rewrite List.Forall_forall in Hm, Hn.
    rewrite (measured_without_success r (Hm r Hin) (Hn r Hin)). reflexivity.
Qed.

Lemma report_without_successes_witness :
  analysis (generate_report ∅ (results (final_of silent_world (macbook true true false))))
  = None.
Proof.
  apply (report_without_successes ∅
           (results (final_of silent_world (macbook true true false)))).
  - destruct (main_report silent_world (macbook true true false)) as [[Hcreated _] _].
    apply Hcreated. vm_compute. reflexivity.
  - vm_compute. repeat constructor.
Defined.

End EmptyReport.
